(** * E-Learning platform backend: models, signals, serializers and views

    A shallow embedding of the [Authenication] Django application
    (models.py, signals.py, serializers.py, views.py, admin.py) and the
    properties of its progress tracking, enrollment, counter
    synchronisation and document ingestion.

    Conventions of the embedding.
    - Python integers are [Z]; timestamps ([timezone.now()]) are [Z] and
      are passed to the operation that reads the clock.
    - UUID primary keys are [Z]; a table keyed by its primary key is a
      [gmap Z row]; the append-only progress log is a list in insertion
      order (its rows' [id] and [created_at] are never read).
    - A model instance held by Python code is a record value that is
      threaded through the operation next to the database; [save] writes
      it to its table.
    - An operation that can raise returns a [result]; the database and the
      instance as they are at the raise are returned with it.
    - Columns that no operation below reads or writes ([slug],
      [created_at], [updated_at], [last_accessed], [page_range], ...) are
      left out; so is the slug block of [Course.save], which touches
      [slug] only.
    - A Python [str] is held as its UTF-8 encoding, one [ascii] per byte;
      [len] counts code points.
    - The range of the [PositiveIntegerField] columns is enforced where
      the values come from a request: the rows of [CourseEnrollment] and
      [UserProgressLog]. No view or model method opens a transaction
      ([atomic] does not occur in the sources), so what is written
      before a raise stays written. *)

From Stdlib Require Import ZArith QArith Qminmax Ascii Lia.
From stdpp Require Import gmap strings list fin_maps pretty sorting.

Local Open Scope string_scope.
Local Open Scope list_scope.
Local Open Scope Z_scope.

(** ** Exceptions and results *)

Inductive exn :=
| DoesNotExist
| MultipleObjectsReturned
| IntegrityError
| DatabaseError
| DataError
| OverflowError
| ValueError
| AttributeError
| RecursionError.

Inductive result (A : Type) :=
| Ok (a : A)
| Raise (e : exn).
Arguments Ok {A} a.
Arguments Raise {A} e.

(** JSON values, for [JSONField]s and request bodies. *)
Local Unset Elimination Schemes.
Inductive json :=
| JNull
| JBool (b : bool)
| JInt (n : Z)
| JStr (s : string)
| JList (l : list json)
| JObj (o : list (string * json)).
Local Set Elimination Schemes.

(** ** models.py: rows *)

(** An uploaded file as the code observes it: the lower-cased extension
    [os.path.splitext(name)[1].lower()], its [size], the page count
    PyPDF2 reads from it ([None] when [PdfReader] raises) and the number
    of paragraphs python-docx reads from it ([None] when [Document]
    raises). For a name accepted by [validate_pdf_or_docx] the test
    [name.lower().endswith(('.docx', '.doc'))] agrees with
    [ext in ['.docx', '.doc']], which is how it is written here. *)
Record FieldFile := mkFieldFile {
  f_ext : string;
  f_size : Z;
  f_pdf_pages : option Z;
  f_docx_paragraphs : option Z
}.

Record Course := mkCourse {
  pk : option Z;
  title : string;
  description : string;
  creator : Z;
  course_file : option FieldFile;
  file_size : Z;
  file_type : string;
  total_pages : Z;
  is_public : bool;
  allow_comments : bool;
  enable_progress_tracking : bool;
  published_at : option Z;
  total_lessons : Z;
  total_enrollments : Z;
  average_rating : Q
}.

Record Lesson := mkLesson {
  l_id : Z;
  l_course : Z;
  l_title : string;
  l_page_number : Z;
  l_order : Z
}.

Record CourseEnrollment := mkCourseEnrollment {
  e_id : Z;
  e_user : Z;
  e_course : Z;
  enrolled_at : Z;
  completed_at : option Z;
  current_page : Z;
  current_lesson : option Z;
  pages_completed : Z;
  total_pages_viewed : Z;
  bookmarked_pages : list Z;
  notes : list (string * string)
}.

Record UserProgressLog := mkUserProgressLog {
  log_enrollment : Z;
  log_page_number : Z;
  log_action : string;
  log_time_spent : Z;
  log_metadata : json
}.

Record CourseRating := mkCourseRating {
  r_id : Z;
  r_user : Z;
  r_course : Z;
  rating : Z;
  review : string
}.

(** What the code depends on of the database backend: the greatest
    value a [PositiveIntegerField] column holds and the exceptions of a
    write outside the column's range. Django documents 0 to 2147483647
    as held by every backend; [beyond] is how far a backend goes past
    that. A negative value fails the [CHECK (... >= 0)] of the column. *)
Record Backend := mkBackend {
  beyond : N;
  overflow_error : exn;
  negative_error : exn
}.

Definition positive_integer_max (backend : Backend) : Z :=
  2147483647 + Z.of_N (beyond backend).

(** SQLite stores 64-bit integers and its driver raises [OverflowError]
    past them; PostgreSQL has a 32-bit column and raises [DataError]. *)
Definition sqlite3 : Backend :=
  mkBackend 9223372034707292160 OverflowError IntegrityError.

Definition postgresql : Backend := mkBackend 0 DataError IntegrityError.

(** The relational store: the backend and the tables. *)
Record DB := mkDB {
  backend : Backend;
  courses : gmap Z Course;
  lessons : gmap Z Lesson;
  enrollments : gmap Z CourseEnrollment;
  progress_logs : list UserProgressLog;
  ratings : gmap Z CourseRating
}.

(** *** Attribute assignment *)

Definition set_pk (v : option Z) (c : Course) : Course :=
  mkCourse v (title c) (description c) (creator c) (course_file c)
    (file_size c) (file_type c) (total_pages c) (is_public c)
    (allow_comments c) (enable_progress_tracking c) (published_at c)
    (total_lessons c) (total_enrollments c) (average_rating c).

Definition set_title (v : string) (c : Course) : Course :=
  mkCourse (pk c) v (description c) (creator c) (course_file c)
    (file_size c) (file_type c) (total_pages c) (is_public c)
    (allow_comments c) (enable_progress_tracking c) (published_at c)
    (total_lessons c) (total_enrollments c) (average_rating c).

Definition set_description (v : string) (c : Course) : Course :=
  mkCourse (pk c) (title c) v (creator c) (course_file c)
    (file_size c) (file_type c) (total_pages c) (is_public c)
    (allow_comments c) (enable_progress_tracking c) (published_at c)
    (total_lessons c) (total_enrollments c) (average_rating c).

Definition set_creator (v : Z) (c : Course) : Course :=
  mkCourse (pk c) (title c) (description c) v (course_file c)
    (file_size c) (file_type c) (total_pages c) (is_public c)
    (allow_comments c) (enable_progress_tracking c) (published_at c)
    (total_lessons c) (total_enrollments c) (average_rating c).

Definition set_course_file (v : option FieldFile) (c : Course) : Course :=
  mkCourse (pk c) (title c) (description c) (creator c) v
    (file_size c) (file_type c) (total_pages c) (is_public c)
    (allow_comments c) (enable_progress_tracking c) (published_at c)
    (total_lessons c) (total_enrollments c) (average_rating c).

Definition set_file_size (v : Z) (c : Course) : Course :=
  mkCourse (pk c) (title c) (description c) (creator c) (course_file c)
    v (file_type c) (total_pages c) (is_public c)
    (allow_comments c) (enable_progress_tracking c) (published_at c)
    (total_lessons c) (total_enrollments c) (average_rating c).

Definition set_file_type (v : string) (c : Course) : Course :=
  mkCourse (pk c) (title c) (description c) (creator c) (course_file c)
    (file_size c) v (total_pages c) (is_public c)
    (allow_comments c) (enable_progress_tracking c) (published_at c)
    (total_lessons c) (total_enrollments c) (average_rating c).

Definition set_total_pages (v : Z) (c : Course) : Course :=
  mkCourse (pk c) (title c) (description c) (creator c) (course_file c)
    (file_size c) (file_type c) v (is_public c)
    (allow_comments c) (enable_progress_tracking c) (published_at c)
    (total_lessons c) (total_enrollments c) (average_rating c).

Definition set_is_public (v : bool) (c : Course) : Course :=
  mkCourse (pk c) (title c) (description c) (creator c) (course_file c)
    (file_size c) (file_type c) (total_pages c) v
    (allow_comments c) (enable_progress_tracking c) (published_at c)
    (total_lessons c) (total_enrollments c) (average_rating c).

Definition set_allow_comments (v : bool) (c : Course) : Course :=
  mkCourse (pk c) (title c) (description c) (creator c) (course_file c)
    (file_size c) (file_type c) (total_pages c) (is_public c)
    v (enable_progress_tracking c) (published_at c)
    (total_lessons c) (total_enrollments c) (average_rating c).

Definition set_enable_progress_tracking (v : bool) (c : Course) : Course :=
  mkCourse (pk c) (title c) (description c) (creator c) (course_file c)
    (file_size c) (file_type c) (total_pages c) (is_public c)
    (allow_comments c) v (published_at c)
    (total_lessons c) (total_enrollments c) (average_rating c).

Definition set_published_at (v : option Z) (c : Course) : Course :=
  mkCourse (pk c) (title c) (description c) (creator c) (course_file c)
    (file_size c) (file_type c) (total_pages c) (is_public c)
    (allow_comments c) (enable_progress_tracking c) v
    (total_lessons c) (total_enrollments c) (average_rating c).

Definition set_total_lessons (v : Z) (c : Course) : Course :=
  mkCourse (pk c) (title c) (description c) (creator c) (course_file c)
    (file_size c) (file_type c) (total_pages c) (is_public c)
    (allow_comments c) (enable_progress_tracking c) (published_at c)
    v (total_enrollments c) (average_rating c).

Definition set_total_enrollments (v : Z) (c : Course) : Course :=
  mkCourse (pk c) (title c) (description c) (creator c) (course_file c)
    (file_size c) (file_type c) (total_pages c) (is_public c)
    (allow_comments c) (enable_progress_tracking c) (published_at c)
    (total_lessons c) v (average_rating c).

Definition set_average_rating (v : Q) (c : Course) : Course :=
  mkCourse (pk c) (title c) (description c) (creator c) (course_file c)
    (file_size c) (file_type c) (total_pages c) (is_public c)
    (allow_comments c) (enable_progress_tracking c) (published_at c)
    (total_lessons c) (total_enrollments c) v.

Definition set_completed_at (v : option Z) (e : CourseEnrollment) : CourseEnrollment :=
  mkCourseEnrollment (e_id e) (e_user e) (e_course e) (enrolled_at e) v
    (current_page e) (current_lesson e) (pages_completed e)
    (total_pages_viewed e) (bookmarked_pages e) (notes e).

Definition set_current_page (v : Z) (e : CourseEnrollment) : CourseEnrollment :=
  mkCourseEnrollment (e_id e) (e_user e) (e_course e) (enrolled_at e)
    (completed_at e) v (current_lesson e) (pages_completed e)
    (total_pages_viewed e) (bookmarked_pages e) (notes e).

Definition set_current_lesson (v : option Z) (e : CourseEnrollment) : CourseEnrollment :=
  mkCourseEnrollment (e_id e) (e_user e) (e_course e) (enrolled_at e)
    (completed_at e) (current_page e) v (pages_completed e)
    (total_pages_viewed e) (bookmarked_pages e) (notes e).

Definition set_pages_completed (v : Z) (e : CourseEnrollment) : CourseEnrollment :=
  mkCourseEnrollment (e_id e) (e_user e) (e_course e) (enrolled_at e)
    (completed_at e) (current_page e) (current_lesson e) v
    (total_pages_viewed e) (bookmarked_pages e) (notes e).

Definition set_total_pages_viewed (v : Z) (e : CourseEnrollment) : CourseEnrollment :=
  mkCourseEnrollment (e_id e) (e_user e) (e_course e) (enrolled_at e)
    (completed_at e) (current_page e) (current_lesson e) (pages_completed e)
    v (bookmarked_pages e) (notes e).

Definition set_bookmarked_pages (v : list Z) (e : CourseEnrollment) : CourseEnrollment :=
  mkCourseEnrollment (e_id e) (e_user e) (e_course e) (enrolled_at e)
    (completed_at e) (current_page e) (current_lesson e) (pages_completed e)
    (total_pages_viewed e) v (notes e).

Definition with_courses (v : gmap Z Course) (db : DB) : DB :=
  mkDB (backend db) v (lessons db) (enrollments db) (progress_logs db) (ratings db).

Definition with_lessons (v : gmap Z Lesson) (db : DB) : DB :=
  mkDB (backend db) (courses db) v (enrollments db) (progress_logs db) (ratings db).

Definition with_enrollments (v : gmap Z CourseEnrollment) (db : DB) : DB :=
  mkDB (backend db) (courses db) (lessons db) v (progress_logs db) (ratings db).

Definition with_progress_logs (v : list UserProgressLog) (db : DB) : DB :=
  mkDB (backend db) (courses db) (lessons db) (enrollments db) v (ratings db).

Definition with_ratings (v : gmap Z CourseRating) (db : DB) : DB :=
  mkDB (backend db) (courses db) (lessons db) (enrollments db) (progress_logs db) v.

(** ** Querysets *)

(** [Model.objects.filter(...)] over a table: the rows that satisfy the
    lookup. *)
Definition objects_filter {A} (P : A → Prop) `{!∀ x, Decision (P x)}
    (table : gmap Z A) : list A :=
  filter P ((map_to_list table).*2).

(** [QuerySet.get()]: the single row, [DoesNotExist] when there is none,
    [MultipleObjectsReturned] when there are several. *)
Definition queryset_get {A} (qs : list A) : result A :=
  match qs with
  | [] => Raise DoesNotExist
  | [x] => Ok x
  | _ :: _ :: _ => Raise MultipleObjectsReturned
  end.

Global Arguments queryset_get : simpl never.

(** [QuerySet.count()]. *)
Definition queryset_count {A} (qs : list A) : Z := Z.of_nat (length qs).

(** [aggregate(Sum(field))]: SQL [SUM] is [NULL] ([None]) over no rows. *)
Definition aggregate_Sum {A} (field : A → Z) (qs : list A) : option Z :=
  match qs with
  | [] => None
  | _ :: _ => Some (foldr (λ r acc, field r + acc) 0 qs)
  end.

(** [aggregate(Avg(field))]: the mean as an exact rational in lowest
    terms, [None] over no rows. *)
Definition aggregate_Avg {A} (field : A → Z) (qs : list A) : option Q :=
  match qs with
  | [] => None
  | _ :: _ =>
      Some (Qred (Qmake (foldr (λ r acc, field r + acc) 0 qs)
                        (Pos.of_nat (length qs))))
  end.

(** [order_by('-page_number').first()]: a row with the greatest page
    number, [None] for an empty queryset. *)
Definition first_by_page_desc (qs : list Lesson) : option Lesson :=
  foldr (λ l best,
    match best with
    | None => Some l
    | Some b => if decide (l_page_number b < l_page_number l) then Some l else Some b
    end) None qs.

Definition lessons_of_course (cid : Z) (db : DB) : list Lesson :=
  objects_filter (λ l, l_course l = cid) (lessons db).

Definition enrollments_of_course (cid : Z) (db : DB) : list CourseEnrollment :=
  objects_filter (λ e, e_course e = cid) (enrollments db).

Definition ratings_of_course (cid : Z) (db : DB) : list CourseRating :=
  objects_filter (λ r, r_course r = cid) (ratings db).

Definition logs_of_enrollment (eid : Z) (db : DB) : list UserProgressLog :=
  filter (λ r, log_enrollment r = eid) (progress_logs db).

(** ** signals.py *)

(** [post_save] receiver of [Lesson]. No receiver is registered for the
    [post_delete] of [Lesson]. *)
Definition update_course_lesson_count (instance : Lesson) (db : DB) : DB :=
  let total := queryset_count (lessons_of_course (l_course instance) db) in
  with_courses (alter (set_total_lessons total) (l_course instance) (courses db)) db.

(** [post_save] and [post_delete] receiver of [CourseRating]. *)
Definition update_course_average_rating (instance : CourseRating) (db : DB) : DB :=
  let avg_rating :=
    match aggregate_Avg rating (ratings_of_course (r_course instance) db) with
    | Some avg => if Qeq_bool avg 0 then 0%Q else avg
    | None => 0%Q
    end in
  with_courses (alter (set_average_rating avg_rating) (r_course instance) (courses db)) db.

(** [post_save] receiver of [CourseEnrollment]. *)
Definition update_course_enrollment_count (instance : CourseEnrollment)
    (created : bool) (db : DB) : DB :=
  if created then
    let total := queryset_count (enrollments_of_course (e_course instance) db) in
    with_courses (alter (set_total_enrollments total) (e_course instance) (courses db)) db
  else db.

(** ** Model.save, Model.delete and Manager.create with their signals *)

(** The write of a row whose [PositiveIntegerField] columns get the
    [values]: a value past the backend's range raises when the statement
    is bound, a negative one when the [CHECK] is evaluated; nothing is
    written then. *)
Definition check_positive_integers (backend : Backend) (values : list Z) : result unit :=
  if bool_decide (Exists (λ v, positive_integer_max backend < v) values)
  then Raise (overflow_error backend)
  else if bool_decide (Exists (λ v, v < 0) values)
  then Raise (negative_error backend)
  else Ok ().

Global Arguments check_positive_integers : simpl never.

(** [CourseEnrollment.save()]: the row with this primary key is
    overwritten, or inserted when there is none ([created]); then
    [post_save] is sent. [current_page], [pages_completed] and
    [total_pages_viewed] are [PositiveIntegerField]s. *)
Definition CourseEnrollment_save (self : CourseEnrollment) (db : DB) : DB * result unit :=
  match check_positive_integers (backend db)
          [current_page self; pages_completed self; total_pages_viewed self] with
  | Raise e => (db, Raise e)
  | Ok _ =>
      let created := bool_decide (enrollments db !! e_id self = None) in
      (update_course_enrollment_count self created
         (with_enrollments (<[e_id self := self]> (enrollments db)) db),
       Ok ())
  end.

Global Arguments CourseEnrollment_save : simpl never.

(** [self.save(update_fields=['total_pages_viewed'])]: only that column
    of the row is written; [post_save] is sent with [created=False]. *)
Definition CourseEnrollment_save_total_pages_viewed (self : CourseEnrollment)
    (db : DB) : DB * result unit :=
  match check_positive_integers (backend db) [total_pages_viewed self] with
  | Raise e => (db, Raise e)
  | Ok _ =>
      (update_course_enrollment_count self false
         (with_enrollments
            (alter (set_total_pages_viewed (total_pages_viewed self)) (e_id self)
                   (enrollments db)) db),
       Ok ())
  end.

Global Arguments CourseEnrollment_save_total_pages_viewed : simpl never.

(** [UserProgressLog.objects.create(...)]; [page_number] and
    [time_spent] are [PositiveIntegerField]s; the model has no
    receiver. *)
Definition UserProgressLog_objects_create (row : UserProgressLog) (db : DB)
    : DB * result unit :=
  match check_positive_integers (backend db)
          [log_page_number row; log_time_spent row] with
  | Raise e => (db, Raise e)
  | Ok _ => (with_progress_logs (progress_logs db ++ [row]) db, Ok ())
  end.

Global Arguments UserProgressLog_objects_create : simpl never.

(** [Lesson.save()] of a lesson: insert or overwrite, then [post_save]. *)
Definition Lesson_save (self : Lesson) (db : DB) : DB :=
  update_course_lesson_count self
    (with_lessons (<[l_id self := self]> (lessons db)) db).

(** [Lesson.delete()]: the row goes, [current_lesson] references to it
    are nulled ([on_delete=SET_NULL]); [post_delete] has no receiver. *)
Definition Lesson_delete (self : Lesson) (db : DB) : DB :=
  with_enrollments
    ((λ e, if decide (current_lesson e = Some (l_id self))
           then set_current_lesson None e else e) <$> enrollments db)
    (with_lessons (delete (l_id self) (lessons db)) db).

(** [CourseRating.save()]: insert or overwrite, then [post_save]. *)
Definition CourseRating_save (self : CourseRating) (db : DB) : DB :=
  update_course_average_rating self
    (with_ratings (<[r_id self := self]> (ratings db)) db).


(** ** models.py: Course *)

(** The columns [save(update_fields=[...])] can name. *)
Inductive CourseField :=
| F_title | F_description | F_creator | F_course_file | F_file_size
| F_file_type | F_total_pages | F_is_public | F_allow_comments
| F_enable_progress_tracking | F_published_at | F_total_lessons
| F_total_enrollments | F_average_rating.

(** Write column [f] of the instance [src] into the row [row]. *)
Definition write_column (src : Course) (f : CourseField) (row : Course) : Course :=
  match f with
  | F_title => set_title (title src) row
  | F_description => set_description (description src) row
  | F_creator => set_creator (creator src) row
  | F_course_file => set_course_file (course_file src) row
  | F_file_size => set_file_size (file_size src) row
  | F_file_type => set_file_type (file_type src) row
  | F_total_pages => set_total_pages (total_pages src) row
  | F_is_public => set_is_public (is_public src) row
  | F_allow_comments => set_allow_comments (allow_comments src) row
  | F_enable_progress_tracking =>
      set_enable_progress_tracking (enable_progress_tracking src) row
  | F_published_at => set_published_at (published_at src) row
  | F_total_lessons => set_total_lessons (total_lessons src) row
  | F_total_enrollments => set_total_enrollments (total_enrollments src) row
  | F_average_rating => set_average_rating (average_rating src) row
  end.

(** The inherited [Model.save] of a course, called with the arguments of
    the enclosing [Course.save]; of these only [update_fields] matters
    here. Without [update_fields] every column is written, under the
    instance's primary key or, when it has none, under the key [fresh]
    that the insert assigns. With [update_fields] only the named columns
    of the existing row are written ([ValueError] without a primary key,
    [DatabaseError] without a row). [Course] has no signal receiver. *)
Definition Model_save (fresh : Z) (update_fields : option (list CourseField))
    (self : Course) (db : DB) : DB * Course * result unit :=
  match update_fields with
  | None =>
      let k := default fresh (pk self) in
      let self' := set_pk (Some k) self in
      (with_courses (<[k := self']> (courses db)) db, self', Ok ())
  | Some fields =>
      match pk self with
      | None => (db, self, Raise ValueError)
      | Some k =>
          match courses db !! k with
          | None => (db, self, Raise DatabaseError)
          | Some row =>
              (with_courses (<[k := foldr (write_column self) row fields]> (courses db)) db,
               self, Ok ())
          end
      end
  end.

(** [Course.get_pdf_page_count]: any exception gives 0. *)
Definition get_pdf_page_count (self : Course) : Z :=
  match course_file self with
  | Some f => match f_pdf_pages f with Some n => n | None => 0 end
  | None => 0
  end.

(** [Course.get_docx_page_count]: [max(1, total_paragraphs // 10)], and 0
    when anything raises. *)
Definition get_docx_page_count (self : Course) : Z :=
  match course_file self with
  | Some f =>
      match f_docx_paragraphs f with
      | Some total_paragraphs => Z.max 1 (total_paragraphs / 10)
      | None => 0
      end
  | None => 0
  end.

(** [Course.convert_docx_to_pdf]. [pdfkit] stands for the external
    renderer: given the parsed document it yields the size and the page
    count of the PDF it writes, or [None] when it raises. The exception of
    [Document(docx_file)] or of the renderer is re-raised. *)
Definition convert_docx_to_pdf (pdfkit : FieldFile → option (Z * option Z))
    (docx_file : FieldFile) (self : Course) : result Course :=
  match f_docx_paragraphs docx_file with
  | None => Raise ValueError
  | Some _ =>
      match pdfkit docx_file with
      | None => Raise ValueError
      | Some (len_pdf_bytes, pages) =>
          Ok (set_file_size len_pdf_bytes
                (set_course_file (Some (mkFieldFile ".pdf" len_pdf_bytes pages None)) self))
      end
  end.

Definition is_docx_ext (ext : string) : bool :=
  bool_decide (ext = ".docx") || bool_decide (ext = ".doc").

(** The first block of [Course.save]: when a file is attached, the file
    type (and for a PDF the page count) is derived from its extension and
    the size is recorded. *)
Definition detect_file_metadata (self : Course) : Course :=
  match course_file self with
  | Some f =>
      let self :=
        if bool_decide (f_ext f = ".pdf") then
          let self := set_file_type "pdf" self in
          set_total_pages (get_pdf_page_count self) self
        else if is_docx_ext (f_ext f) then
          set_file_type "pdf" self  (* We'll convert to PDF *)
        else self in
      set_file_size (f_size f) self
  | None => self
  end.

(** [Course.save]. [is_new] is [self.pk is None], so the conversion
    branch is for instances that reach [save] without a primary key. The
    method calls itself ([self.save(update_fields=...)]) after a
    conversion attempt; [fuel] bounds that nesting. An exception of the
    conversion or of the nested save inside [try] is caught by
    [except Exception]; one raised by the fallback save propagates. *)
Fixpoint Course_save_fuel (fuel : nat) (pdfkit : FieldFile → option (Z * option Z))
    (fresh : Z) (update_fields : option (list CourseField))
    (self : Course) (db : DB) : DB * Course * result unit :=
  match fuel with
  | O => (db, self, Raise RecursionError)
  | S fuel' =>
      let is_new := bool_decide (pk self = None) in
      let original_file := if is_new then course_file self else None in
      let self := detect_file_metadata self in
      (* First save to get an ID *)
      match Model_save fresh update_fields self db with
      | (db, self, Raise e) => (db, self, Raise e)
      | (db, self, Ok _) =>
          match original_file with
          | Some original =>
              if is_new && is_docx_ext (f_ext original) then
                let '(db, self, tried) :=
                  match convert_docx_to_pdf pdfkit original self with
                  | Ok self =>
                      let self := set_total_pages (get_pdf_page_count self) self in
                      Course_save_fuel fuel' pdfkit fresh
                        (Some [F_course_file; F_file_size; F_file_type; F_total_pages])
                        self db
                  | Raise e => (db, self, Raise e)
                  end in
                let '(db, self, handled) :=
                  match tried with
                  | Ok _ => (db, self, Ok ())
                  | Raise _ =>
                      (* Keep the original DOCX if conversion fails *)
                      let self := set_file_type "docx" self in
                      let self := set_total_pages (get_docx_page_count self) self in
                      Course_save_fuel fuel' pdfkit fresh
                        (Some [F_file_type; F_total_pages]) self db
                  end in
                match handled with
                | Ok _ => Model_save fresh update_fields self db
                | Raise e => (db, self, Raise e)
                end
              else (db, self, Ok ())
          | None => (db, self, Ok ())
          end
      end
  end.

(** The nested call finds the primary key set, so two levels are all the
    method ever uses. *)
Definition Course_save := Course_save_fuel 2.
Global Arguments Course_save : simpl never.

(** [Course.enroll_user]. [new_id] is the UUID drawn for a created
    enrollment and [now] the clock. *)
Definition Course_enroll_user (pdfkit : FieldFile → option (Z * option Z))
    (new_id now : Z) (user : Z) (self : Course) (db : DB)
    : DB * Course * result CourseEnrollment :=
  match pk self with
  | None => (db, self, Raise ValueError)
  | Some cid =>
      match queryset_get
              (objects_filter (λ e, e_user e = user ∧ e_course e = cid)
                              (enrollments db)) with
      | Ok enrollment => (db, self, Ok enrollment)
      | Raise DoesNotExist =>
          let enrollment :=
            mkCourseEnrollment new_id user cid now None 1 None 0 0 [] [] in
          match enrollments db !! new_id with
          | Some _ => (db, self, Raise IntegrityError)
          | None =>
              match CourseEnrollment_save enrollment db with
              | (db, Raise e) => (db, self, Raise e)
              | (db, Ok _) =>
                  (* if created: *)
                  let self := set_total_enrollments (total_enrollments self + 1) self in
                  match Course_save pdfkit cid None self db with
                  | (db, self, Ok _) => (db, self, Ok enrollment)
                  | (db, self, Raise e) => (db, self, Raise e)
                  end
              end
          end
      | Raise e => (db, self, Raise e)
      end
  end.

(** ** models.py: CourseEnrollment *)

(** The [time_spent] property: [Sum('time_spent')] over the enrollment's
    log rows, [or 0]. *)
Definition CourseEnrollment_time_spent (self : CourseEnrollment) (db : DB) : Z :=
  default 0 (aggregate_Sum log_time_spent (logs_of_enrollment (e_id self) db)).

(** [CourseEnrollment.update_progress(page_number, time_spent)]; [now] is
    [timezone.now()]. The assignments made before a raise stay on the
    instance, and so do the writes made before it in the database. *)
Definition CourseEnrollment_update_progress (page_number time_spent now : Z)
    (self : CourseEnrollment) (db : DB) : DB * CourseEnrollment * result unit :=
  (* Update current page *)
  let self := set_current_page page_number self in
  (* Update pages completed (if user viewed a new page) *)
  let self :=
    if bool_decide (page_number > pages_completed self)
    then set_pages_completed page_number self else self in
  match courses db !! e_course self with
  | None => (db, self, Raise DoesNotExist)
  | Some course =>
      (* Update current lesson *)
      let found :=
        match queryset_get
                (objects_filter
                   (λ l, l_course l = e_course self ∧ l_page_number l = page_number)
                   (lessons db)) with
        | Ok lesson => Ok (Some (l_id lesson))
        | Raise DoesNotExist =>
            Ok (l_id <$> first_by_page_desc
                  (objects_filter
                     (λ l, l_course l = e_course self ∧ l_page_number l ≤ page_number)
                     (lessons db)))
        | Raise e => Raise e
        end in
      match found with
      | Raise e => (db, self, Raise e)
      | Ok lesson =>
          let self := set_current_lesson lesson self in
          (* Mark as completed if user reached the last page *)
          let self :=
            if bool_decide (page_number >= total_pages course)
               && bool_decide (completed_at self = None)
            then set_completed_at (Some now) self else self in
          match CourseEnrollment_save self db with
          | (db, Raise e) => (db, self, Raise e)
          | (db, Ok _) =>
              (* Log this progress update *)
              match UserProgressLog_objects_create
                      (mkUserProgressLog (e_id self) page_number "page_view" time_spent
                         (JObj []))
                      db with
              | (db, Raise e) => (db, self, Raise e)
              | (db, Ok _) =>
                  (* Update total pages viewed *)
                  let self := set_total_pages_viewed (total_pages_viewed self + 1) self in
                  match CourseEnrollment_save_total_pages_viewed self db with
                  | (db, Raise e) => (db, self, Raise e)
                  | (db, Ok _) => (db, self, Ok ())
                  end
              end
          end
      end
  end.

(** ** Python strings *)

(** The bytes of a [str] in UTF-8, and back. *)
Definition utf8 (s : string) : list Z :=
  (λ c, Z.of_N (N_of_ascii c)) <$> String.list_ascii_of_string s.

Definition of_utf8 (bytes : list Z) : string :=
  String.string_of_list_ascii ((λ b, ascii_of_N (Z.to_N b)) <$> bytes).

(** [len(s)]: the number of code points, that is of the bytes that are
    no continuation byte [10xxxxxx]. *)
Definition len (s : string) : Z :=
  Z.of_nat (length (filter (λ b, ¬ (128 ≤ b < 192)) (utf8 s))).

(** The encodings of the characters for which [str.isspace()] holds:
    U+0009 to U+000D and U+001C to U+0020 (one byte); U+0085 and U+00A0
    (two bytes); U+1680, U+2000 to U+200A, U+2028, U+2029, U+202F, U+205F
    and U+3000 (three bytes). *)
Definition isspace1 (a : Z) : bool := bool_decide (9 ≤ a ≤ 13 ∨ 28 ≤ a ≤ 32).

Definition isspace2 (a b : Z) : bool := bool_decide (a = 194 ∧ (b = 133 ∨ b = 160)).

Definition isspace3 (a b c : Z) : bool :=
  bool_decide ((a = 225 ∧ b = 154 ∧ c = 128)
               ∨ (a = 226 ∧ b = 128 ∧ (128 ≤ c ≤ 138 ∨ c = 168 ∨ c = 169 ∨ c = 175))
               ∨ (a = 226 ∧ b = 129 ∧ c = 159)
               ∨ (a = 227 ∧ b = 128 ∧ c = 128)).

(** Drop the characters at the front that the three tests accept. *)
Fixpoint strip_front (one : Z → bool) (two : Z → Z → bool) (three : Z → Z → Z → bool)
    (bytes : list Z) : list Z :=
  match bytes with
  | a :: rest =>
      if one a then strip_front one two three rest
      else
        match rest with
        | b :: rest2 =>
            if two a b then strip_front one two three rest2
            else
              match rest2 with
              | c :: rest3 =>
                  if three a b c then strip_front one two three rest3 else bytes
              | [] => bytes
              end
        | [] => bytes
        end
  | [] => bytes
  end.

(** [s.strip()]: whitespace is dropped at the front and, reading the
    bytes backwards, at the end. *)
Definition strip (s : string) : string :=
  let front := strip_front isspace1 isspace2 isspace3 (utf8 s) in
  of_utf8
    (rev (strip_front isspace1 (λ b a, isspace2 a b) (λ c b a, isspace3 a b c)
            (rev front))).

(** ** serializers.py *)

(** [CharField(max_length=n).run_validation] on a string, with the
    defaults of the field ([trim_whitespace=True], [allow_blank=False]):
    a value that is blank once stripped is rejected; the stripped value
    is what the validators see (at most [n] characters, no NUL
    character) and what is returned. [None] is a [ValidationError]. A
    string with a lone surrogate, which the field rejects too, has no
    UTF-8 encoding and no counterpart here. *)
Definition CharField_run_validation (max_length : Z) (data : string) : option string :=
  let value := strip data in
  if bool_decide (value = "") then None
  else if bool_decide (len value ≤ max_length) && negb (bool_decide (0 ∈ utf8 value))
  then Some value
  else None.

(** What a view offers to [ProgressUpdateSerializer.validate]: the course
    its [get_course()] returns, when the view has such a method. *)
Record View := mkView {
  get_course : option Course
}.

(** The body of an update-progress request after field parsing: an absent
    key is [None]. *)
Record ProgressUpdateData := mkProgressUpdateData {
  d_page_number : option Z;
  d_time_spent : option Z;
  d_action : option string;
  d_metadata : option json
}.

Record ProgressUpdate := mkProgressUpdate {
  page_number : Z;
  time_spent : Z;
  action : string;
  metadata : json
}.

(** [ProgressUpdateSerializer.validate]: [None] is a [ValidationError]. *)
Definition ProgressUpdateSerializer_validate (view : option View)
    (data : ProgressUpdate) : option ProgressUpdate :=
  match view with
  | Some view =>
      match get_course view with
      | Some course =>
          if bool_decide (page_number data > total_pages course) then None
          else Some data
      | None => Some data
      end
  | None => Some data
  end.

(** [serializer.is_valid()] with the validated data: the declared fields
    ([page_number >= 1], required; [time_spent >= 0], default 0; [action]
    a [CharField] of at most 50 characters, default ['page_view'];
    [metadata], default [{}]) and then [validate]. A default is taken as
    it is, without validation. *)
Definition ProgressUpdateSerializer_is_valid (view : option View)
    (data : ProgressUpdateData) : option ProgressUpdate :=
  match d_page_number data with
  | None => None
  | Some p =>
      let t := default 0 (d_time_spent data) in
      let a :=
        match d_action data with
        | Some a => CharField_run_validation 50 a
        | None => Some "page_view"
        end in
      let m := default (JObj []) (d_metadata data) in
      match a with
      | Some a =>
          if bool_decide (1 ≤ p) && bool_decide (0 ≤ t)
          then ProgressUpdateSerializer_validate view (mkProgressUpdate p t a m)
          else None
      | None => None
      end
  end.

(** The writable fields of [CourseSerializer] in an update request, and
    [published_at], which [Meta.read_only_fields] lists. *)
Record CourseUpdateData := mkCourseUpdateData {
  u_title : option string;
  u_description : option string;
  u_course_file : option FieldFile;
  u_is_public : option bool;
  u_allow_comments : option bool;
  u_enable_progress_tracking : option bool;
  u_published_at : option (option Z)
}.

Definition assign {A B} (set : A → B → B) (v : option A) (x : B) : B :=
  match v with Some a => set a x | None => x end.

(** [CourseSerializer.update] as inherited from [ModelSerializer]: the
    validated (writable) attributes are assigned and the instance is
    saved; read-only input is dropped. *)
Definition CourseSerializer_update (pdfkit : FieldFile → option (Z * option Z))
    (fresh : Z) (data : CourseUpdateData) (instance : Course) (db : DB)
    : DB * Course * result unit :=
  let instance := assign set_title (u_title data) instance in
  let instance := assign set_description (u_description data) instance in
  let instance := assign (λ f, set_course_file (Some f)) (u_course_file data) instance in
  let instance := assign set_is_public (u_is_public data) instance in
  let instance := assign set_allow_comments (u_allow_comments data) instance in
  let instance :=
    assign set_enable_progress_tracking (u_enable_progress_tracking data) instance in
  Course_save pdfkit fresh None instance db.

(** ** admin.py *)

(** [CourseAdmin.save_model]. The module binds [timezone] with
    [from time import timezone], an integer, so [timezone.now()] raises
    [AttributeError] before anything is assigned or saved. *)
Definition CourseAdmin_save_model (pdfkit : FieldFile → option (Z * option Z))
    (fresh : Z) (obj : Course) (db : DB) : DB * Course * result unit :=
  if is_public obj && bool_decide (published_at obj = None) then
    (db, obj, Raise AttributeError)
  else
    let obj := if negb (is_public obj) then set_published_at None obj else obj in
    Course_save pdfkit fresh None obj db.

(** ** views.py: CourseEnrollmentViewSet *)

Inductive ResponseData :=
| Detail (msg : string)
| Errors
| Serialized (enrollment : CourseEnrollment)
| Unhandled (e : exn).

Record Response := mkResponse {
  data : ResponseData;
  status : Z
}.

Definition HTTP_200_OK : Z := 200.
Definition HTTP_400_BAD_REQUEST : Z := 400.
Definition HTTP_404_NOT_FOUND : Z := 404.
Definition HTTP_500_INTERNAL_SERVER_ERROR : Z := 500.

(** The view class: neither [CourseEnrollmentViewSet] nor its bases
    define [get_course]. *)
Definition CourseEnrollmentViewSet : View := mkView None.

(** [self.get_object()]: the row whose [id] is [pk] in
    [get_queryset()], the requesting user's own enrollments; [None] is
    the 404 of [get_object_or_404]. *)
Definition get_object (user pk : Z) (db : DB) : option CourseEnrollment :=
  match enrollments db !! pk with
  | Some e => if bool_decide (e_id e = pk ∧ e_user e = user) then Some e else None
  | None => None
  end.

(** The [update_progress] action. *)
Definition CourseEnrollmentViewSet_update_progress (user pk : Z)
    (request_data : ProgressUpdateData) (now : Z) (db : DB) : DB * Response :=
  match get_object user pk db with
  | None => (db, mkResponse (Detail "Not found.") HTTP_404_NOT_FOUND)
  | Some enrollment =>
      match ProgressUpdateSerializer_is_valid (Some CourseEnrollmentViewSet) request_data with
      | Some validated_data =>
          let page_number := page_number validated_data in
          let time_spent := time_spent validated_data in
          let action := action validated_data in
          let metadata := metadata validated_data in
          (* Update enrollment *)
          match CourseEnrollment_update_progress page_number time_spent now enrollment db with
          | (db, enrollment, Ok _) =>
              (* Create progress log *)
              match UserProgressLog_objects_create
                      (mkUserProgressLog (e_id enrollment) page_number action time_spent
                         metadata)
                      db with
              | (db, Ok _) => (db, mkResponse (Serialized enrollment) HTTP_200_OK)
              | (db, Raise e) =>
                  (db, mkResponse (Unhandled e) HTTP_500_INTERNAL_SERVER_ERROR)
              end
          | (db, _, Raise e) =>
              (db, mkResponse (Unhandled e) HTTP_500_INTERNAL_SERVER_ERROR)
          end
      | None => (db, mkResponse Errors HTTP_400_BAD_REQUEST)
      end
  end.

(** The [bookmark] action; [page_number] is [request.data.get('page_number')]
    for a JSON integer, [None] when the key is absent. *)
Definition CourseEnrollmentViewSet_bookmark (user pk : Z)
    (page_number : option Z) (db : DB) : DB * Response :=
  match get_object user pk db with
  | None => (db, mkResponse (Detail "Not found.") HTTP_404_NOT_FOUND)
  | Some enrollment =>
      match page_number with
      | None => (db, mkResponse (Detail "page_number is required.") HTTP_400_BAD_REQUEST)
      | Some page_number =>
          if bool_decide (page_number = 0) then
            (db, mkResponse (Detail "page_number is required.") HTTP_400_BAD_REQUEST)
          else
            match courses db !! e_course enrollment with
            | None => (db, mkResponse (Unhandled DoesNotExist) HTTP_500_INTERNAL_SERVER_ERROR)
            | Some course =>
                if bool_decide (page_number > total_pages course) then
                  (db, mkResponse (Detail "Page number exceeds course total pages.")
                         HTTP_400_BAD_REQUEST)
                else if bool_decide (page_number ∈ bookmarked_pages enrollment) then
                  (db, mkResponse (Serialized enrollment) HTTP_200_OK)
                else
                  (* Add to bookmarks if not already bookmarked *)
                  let enrollment :=
                    set_bookmarked_pages (bookmarked_pages enrollment ++ [page_number])
                                         enrollment in
                  match CourseEnrollment_save enrollment db with
                  | (db, Raise e) =>
                      (db, mkResponse (Unhandled e) HTTP_500_INTERNAL_SERVER_ERROR)
                  | (db, Ok _) =>
                      (* Log the bookmark action *)
                      match UserProgressLog_objects_create
                              (mkUserProgressLog (e_id enrollment) page_number "bookmark" 0
                                 (JObj [("action", JStr "added")]))
                              db with
                      | (db, Raise e) =>
                          (db, mkResponse (Unhandled e) HTTP_500_INTERNAL_SERVER_ERROR)
                      | (db, Ok _) => (db, mkResponse (Serialized enrollment) HTTP_200_OK)
                      end
                  end
            end
      end
  end.

(** ** views.py: DashboardViewSet *)

(** [total_time_spent] of the [stats] action: [Sum('time_spent')] over
    the log rows of the user's enrollments, [or 0]. *)
Definition DashboardViewSet_total_time_spent (user : Z) (db : DB) : Z :=
  default 0
    (aggregate_Sum log_time_spent
       (filter (λ r, e_user <$> enrollments db !! log_enrollment r = Some user)
               (progress_logs db))).

(** ** Reference values *)


(** ** Call sequences and table constraints *)

(** A sequence of [update_progress] calls on one enrollment, each given
    as [(page_number, time_spent, now)]; a call that raises leaves its
    assignments on the instance and the next call goes on from there. *)
Fixpoint update_progress_calls (calls : list (Z * Z * Z))
    (self : CourseEnrollment) (db : DB) : DB * CourseEnrollment :=
  match calls with
  | [] => (db, self)
  | (page_number, time_spent, now) :: rest =>
      let '(db, self, _) :=
        CourseEnrollment_update_progress page_number time_spent now self db in
      update_progress_calls rest self db
  end.

(** The values a [PositiveIntegerField] column of the database holds,
    and an enrollment whose three such columns hold theirs, as every
    stored row does. *)
Definition column_range (db : DB) (v : Z) : Prop :=
  0 ≤ v ≤ positive_integer_max (backend db).

Definition enrollment_in_range (db : DB) (e : CourseEnrollment) : Prop :=
  column_range db (current_page e)
  ∧ column_range db (pages_completed e)
  ∧ column_range db (total_pages_viewed e).

(** [unique_together = ['course', 'page_number']] of [Lesson]. *)
Definition lesson_unique_together (db : DB) : Prop :=
  ∀ cid p,
    (length (objects_filter (λ l, l_course l = cid ∧ l_page_number l = p)
                            (lessons db)) ≤ 1)%nat.

(** ** A small database for the scenarios *)

Definition algebra_pdf : FieldFile := mkFieldFile ".pdf" 1000 (Some 10) None.

(** A ten-page course with key 1. *)
Definition algebra : Course :=
  mkCourse (Some 1) "Algebra" "" 7 (Some algebra_pdf) 1000 "pdf" 10
           false true true None 0 1 0.

(** User 42 is enrolled in it and has not started. *)
Definition enrollment_42 : CourseEnrollment :=
  mkCourseEnrollment 100 42 1 0 None 1 None 0 0 [] [].

Definition school : DB :=
  mkDB sqlite3 {[1 := algebra]} ∅ {[100 := enrollment_42]} [] ∅.

(** A lesson on page 1 of the course. *)
Definition introduction : Lesson := mkLesson 200 1 "Introduction" 1 1.

(** Two ratings of the course, 3 and 5 stars. *)
Definition three_stars : CourseRating := mkCourseRating 300 43 1 3 "".

(** The course made public and published at time 5. *)
Definition algebra_published : Course :=
  set_published_at (Some 5) (set_is_public true algebra).

(** A readable DOCX of 57 paragraphs. *)
Definition notes_docx : FieldFile := mkFieldFile ".docx" 500 None (Some 57).

(** The renderer is not installed: every conversion raises. *)
Definition no_pdfkit : FieldFile → option (Z * option Z) := λ _, None.

(** ** views.py: the other CourseEnrollmentViewSet actions *)

Definition set_notes (v : list (string * string)) (e : CourseEnrollment) : CourseEnrollment :=
  mkCourseEnrollment (e_id e) (e_user e) (e_course e) (enrolled_at e)
    (completed_at e) (current_page e) (current_lesson e) (pages_completed e)
    (total_pages_viewed e) (bookmarked_pages e) v.

(** [d[key] = value] on a dict kept in insertion order: the value of an
    existing key is replaced in place, a new key goes to the end. *)
Fixpoint dict_setitem (key value : string) (d : list (string * string))
    : list (string * string) :=
  match d with
  | [] => [(key, value)]
  | (k, v) :: rest =>
      if decide (k = key) then (key, value) :: rest
      else (k, v) :: dict_setitem key value rest
  end.

(** [d.get(key)]. *)
Fixpoint dict_get (key : string) (d : list (string * string)) : option string :=
  match d with
  | [] => None
  | (k, v) :: rest => if decide (k = key) then Some v else dict_get key rest
  end.

(** [QuerySet.delete()] of the log rows of an enrollment; also what the
    cascade of [UserProgressLog.enrollment] ([on_delete=CASCADE]) removes
    when the enrollment is deleted. *)
Definition delete_logs_of_enrollment (eid : Z) (db : DB) : DB :=
  with_progress_logs (filter (λ r, log_enrollment r ≠ eid) (progress_logs db)) db.

(** The [reset_progress] action; [reset_at] is
    [timezone.now().isoformat()]. *)
Definition CourseEnrollmentViewSet_reset_progress (user pk : Z) (reset_at : string)
    (db : DB) : DB * Response :=
  match get_object user pk db with
  | None => (db, mkResponse (Detail "Not found.") HTTP_404_NOT_FOUND)
  | Some enrollment =>
      (* Reset all progress fields *)
      let enrollment := set_current_page 1 enrollment in
      let enrollment := set_current_lesson None enrollment in
      let enrollment := set_pages_completed 0 enrollment in
      let enrollment := set_total_pages_viewed 0 enrollment in
      let enrollment := set_bookmarked_pages [] enrollment in
      let enrollment := set_notes [] enrollment in
      let enrollment := set_completed_at None enrollment in
      (* Clear all progress logs *)
      let db := delete_logs_of_enrollment (e_id enrollment) db in
      match CourseEnrollment_save enrollment db with
      | (db, Raise e) => (db, mkResponse (Unhandled e) HTTP_500_INTERNAL_SERVER_ERROR)
      | (db, Ok _) =>
          (* Log the reset action *)
          match UserProgressLog_objects_create
                  (mkUserProgressLog (e_id enrollment) 1 "progress_reset" 0
                     (JObj [("reset_at", JStr reset_at)]))
                  db with
          | (db, Raise e) => (db, mkResponse (Unhandled e) HTTP_500_INTERNAL_SERVER_ERROR)
          | (db, Ok _) => (db, mkResponse (Serialized enrollment) HTTP_200_OK)
          end
      end
  end.

(** [CourseEnrollment.delete()]: the row goes and its log rows with it;
    no [post_delete] receiver is registered for the model. *)
Definition CourseEnrollment_delete (self : CourseEnrollment) (db : DB) : DB :=
  delete_logs_of_enrollment (e_id self)
    (with_enrollments (delete (e_id self) (enrollments db)) db).

(** The [unenroll] action. [enrollment.course] is the course row that
    [get_queryset] selected with the enrollment. *)
Definition CourseEnrollmentViewSet_unenroll
    (pdfkit : FieldFile → option (Z * option Z)) (user pk : Z) (db : DB)
    : DB * Response :=
  match get_object user pk db with
  | None => (db, mkResponse (Detail "Not found.") HTTP_404_NOT_FOUND)
  | Some enrollment =>
      match courses db !! e_course enrollment with
      | None => (db, mkResponse (Unhandled DoesNotExist) HTTP_500_INTERNAL_SERVER_ERROR)
      | Some course =>
          (* Delete the enrollment *)
          let db := CourseEnrollment_delete enrollment db in
          (* Update course enrollment count *)
          let course :=
            set_total_enrollments (Z.max 0 (total_enrollments course - 1)) course in
          match Course_save pdfkit (e_course enrollment) None course db with
          | (db, _, Ok _) =>
              (db, mkResponse (Detail "Successfully unenrolled from the course.")
                     HTTP_200_OK)
          | (db, _, Raise e) =>
              (db, mkResponse (Unhandled e) HTTP_500_INTERNAL_SERVER_ERROR)
          end
      end
  end.

(** The [add_note] action; [page_number] and [note] are
    [request.data.get(...)] for a JSON integer and a JSON string, [None]
    when the key is absent. [str(page_number)] is the decimal numeral. *)
Definition CourseEnrollmentViewSet_add_note (user pk : Z)
    (page_number : option Z) (note : option string) (db : DB) : DB * Response :=
  match get_object user pk db with
  | None => (db, mkResponse (Detail "Not found.") HTTP_404_NOT_FOUND)
  | Some enrollment =>
      match page_number, note with
      | Some page_number, Some note_text =>
          if bool_decide (page_number = 0) || bool_decide (note_text = "") then
            (db, mkResponse (Detail "page_number and note are required.")
                   HTTP_400_BAD_REQUEST)
          else
            (* Add or update note *)
            let enrollment :=
              set_notes (dict_setitem (pretty page_number) note_text (notes enrollment))
                        enrollment in
            match CourseEnrollment_save enrollment db with
            | (db, Raise e) => (db, mkResponse (Unhandled e) HTTP_500_INTERNAL_SERVER_ERROR)
            | (db, Ok _) =>
                (* Log the note action *)
                match UserProgressLog_objects_create
                        (mkUserProgressLog (e_id enrollment) page_number "note_added" 0
                           (JObj [("length", JInt (len note_text))]))
                        db with
                | (db, Raise e) =>
                    (db, mkResponse (Unhandled e) HTTP_500_INTERNAL_SERVER_ERROR)
                | (db, Ok _) => (db, mkResponse (Serialized enrollment) HTTP_200_OK)
                end
            end
      | _, _ =>
          (db, mkResponse (Detail "page_number and note are required.")
                 HTTP_400_BAD_REQUEST)
      end
  end.

(** ** models.py: User and CustomUserManager *)

(** A user row ([bio], [date_joined] and the timestamps are left out;
    [password] is the stored hash). *)
Record User := mkUser {
  user_id : Z;
  username : string;
  email : string;
  password : string;
  first_name : string;
  last_name : string;
  is_staff : bool;
  is_active : bool;
  is_superuser : bool;
  user_type : string
}.

(** The keyword arguments [**extra_fields] of the manager methods. *)
Record ExtraFields := mkExtraFields {
  x_first_name : option string;
  x_last_name : option string;
  x_is_staff : option bool;
  x_is_superuser : option bool;
  x_is_active : option bool;
  x_user_type : option string
}.

(** [User.is_admin]. *)
Definition User_is_admin (self : User) : bool :=
  bool_decide (user_type self = "admin") || is_superuser self.

(** [user.save()] of a new user: the insert fails with [IntegrityError]
    when the key, the [username] or the [email] is taken (all three are
    unique columns). *)
Definition User_insert (self : User) (users : gmap Z User) : gmap Z User * result User :=
  match users !! user_id self,
        objects_filter (λ u, username u = username self ∨ email u = email self) users with
  | None, [] => (<[user_id self := self]> users, Ok self)
  | _, _ => (users, Raise IntegrityError)
  end.

(** [CustomUserManager.create_user]. [normalize_email] and
    [make_password] are the framework's [normalize_email] and password
    hasher; [new_id] is the UUID drawn for the row. *)
Definition CustomUserManager_create_user (normalize_email : string → string)
    (make_password : option string → string) (new_id : Z)
    (email username : string) (password : option string)
    (extra_fields : ExtraFields) (users : gmap Z User) : gmap Z User * result User :=
  if bool_decide (email = "") then (users, Raise ValueError)
  else if bool_decide (username = "") then (users, Raise ValueError)
  else
    let email := normalize_email email in
    let user :=
      mkUser new_id username email (make_password password)
        (default "" (x_first_name extra_fields))
        (default "" (x_last_name extra_fields))
        (default false (x_is_staff extra_fields))
        (default true (x_is_active extra_fields))
        (default false (x_is_superuser extra_fields))
        (default "user" (x_user_type extra_fields)) in
    User_insert user users.

(** [dict.setdefault] on one keyword. *)
Definition setdefault {A} (v : A) (o : option A) : option A :=
  match o with Some a => Some a | None => Some v end.

(** [CustomUserManager.create_superuser]. *)
Definition CustomUserManager_create_superuser (normalize_email : string → string)
    (make_password : option string → string) (new_id : Z)
    (email username : string) (password : option string)
    (extra_fields : ExtraFields) (users : gmap Z User) : gmap Z User * result User :=
  let extra_fields :=
    mkExtraFields (x_first_name extra_fields) (x_last_name extra_fields)
      (setdefault true (x_is_staff extra_fields))
      (setdefault true (x_is_superuser extra_fields))
      (setdefault true (x_is_active extra_fields))
      (setdefault "admin" (x_user_type extra_fields)) in
  if negb (bool_decide (x_is_staff extra_fields = Some true)) then
    (users, Raise ValueError)
  else if negb (bool_decide (x_is_superuser extra_fields = Some true)) then
    (users, Raise ValueError)
  else
    CustomUserManager_create_user normalize_email make_password new_id
      email username password extra_fields users.

Definition set_is_staff (v : bool) (u : User) : User :=
  mkUser (user_id u) (username u) (email u) (password u) (first_name u)
    (last_name u) v (is_active u) (is_superuser u) (user_type u).

Definition set_is_active (v : bool) (u : User) : User :=
  mkUser (user_id u) (username u) (email u) (password u) (first_name u)
    (last_name u) (is_staff u) v (is_superuser u) (user_type u).

Definition set_is_superuser (v : bool) (u : User) : User :=
  mkUser (user_id u) (username u) (email u) (password u) (first_name u)
    (last_name u) (is_staff u) (is_active u) v (user_type u).

Definition set_user_type (v : string) (u : User) : User :=
  mkUser (user_id u) (username u) (email u) (password u) (first_name u)
    (last_name u) (is_staff u) (is_active u) (is_superuser u) v.

(** ** management/commands/create_default_superuser.py *)

Definition default_superuser_email : string := "kenjicladia@gmail.com".

(** [Command.handle]; the messages written to [stdout] are left out. *)
Definition Command_handle (normalize_email : string → string)
    (make_password : option string → string) (new_id : Z)
    (users : gmap Z User) : gmap Z User * result unit :=
  match objects_filter (λ u, email u = default_superuser_email) users with
  | [] =>
      match CustomUserManager_create_superuser normalize_email make_password new_id
              default_superuser_email "kenji" (Some "@kenji001")
              (mkExtraFields (Some "Kenji") (Some "Admin") (Some true) (Some true)
                             (Some true) (Some "admin"))
              users with
      | (users, Ok _) => (users, Ok ())
      | (users, Raise e) => (users, Raise e)
      end
  | matching =>
      (* Update existing user to ensure they have admin privileges *)
      match queryset_get matching with
      | Ok user =>
          let user := set_is_staff true user in
          let user := set_is_superuser true user in
          let user := set_user_type "admin" user in
          (<[user_id user := user]> users, Ok ())
      | Raise e => (users, Raise e)
      end
  end.

(** ** admin.py: UserAdmin *)

(** [UserAdmin.save_model]: the flag is adjusted and the object saved
    over its row. *)
Definition UserAdmin_save_model (obj : User) (users : gmap Z User) : gmap Z User * User :=
  let obj :=
    if bool_decide (user_type obj = "admin") && negb (is_staff obj) then
      set_is_staff true obj
    else if negb (bool_decide (user_type obj = "admin")) && is_staff obj then
      (* Only admins should be staff *)
      set_is_staff false obj
    else obj in
  (<[user_id obj := obj]> users, obj).

(** [queryset.update(...)] over the selected users of an admin action;
    the selection is given by its keys. *)
Definition queryset_update (f : User → User) (selected : list Z)
    (users : gmap Z User) : gmap Z User :=
  foldr (alter f) users selected.

(** [UserAdmin.make_regular_user]. *)
Definition UserAdmin_make_regular_user (selected : list Z) (users : gmap Z User)
    : gmap Z User :=
  queryset_update (λ u, set_is_staff false (set_user_type "user" u)) selected users.

(** ** models.py: derived attributes *)

(** [Course.is_published]. *)
Definition Course_is_published (self : Course) : bool :=
  is_public self && negb (bool_decide (published_at self = None)).

(** [CourseEnrollment.progress_percentage], with the true division
    taken over the rationals; [course] is [self.course]. *)
Definition CourseEnrollment_progress_percentage (self : CourseEnrollment)
    (course : Course) : Q :=
  if bool_decide (total_pages course > 0) then
    Qmin 100 (Qmake (pages_completed self) 1 / Qmake (total_pages course) 1 * 100)
  else 0%Q.

(** [order_by('order').first()] and [order_by('-order').first()]: a row
    with the least, respectively greatest, [order]; [None] for an empty
    queryset. *)
Definition first_by_order_asc (qs : list Lesson) : option Lesson :=
  foldr (λ l best,
    match best with
    | None => Some l
    | Some b => if decide (l_order l < l_order b) then Some l else Some b
    end) None qs.

Definition first_by_order_desc (qs : list Lesson) : option Lesson :=
  foldr (λ l best,
    match best with
    | None => Some l
    | Some b => if decide (l_order b < l_order l) then Some l else Some b
    end) None qs.

(** [Lesson.next_lesson] and [Lesson.previous_lesson]. *)
Definition Lesson_next_lesson (self : Lesson) (db : DB) : option Lesson :=
  first_by_order_asc
    (objects_filter (λ l, l_course l = l_course self ∧ l_order l > l_order self)
                    (lessons db)).

Definition Lesson_previous_lesson (self : Lesson) (db : DB) : option Lesson :=
  first_by_order_desc
    (objects_filter (λ l, l_course l = l_course self ∧ l_order l < l_order self)
                    (lessons db)).

(** [filename.split('.')[-1]]: what follows the last dot, or the whole
    name when it has no dot. [segment] collects the characters read since
    the last dot. *)
Fixpoint last_dot_segment_from (segment filename : string) : string :=
  match filename with
  | EmptyString => segment
  | String c rest =>
      if bool_decide (c = "."%char) then last_dot_segment_from "" rest
      else last_dot_segment_from (segment +:+ String c "") rest
  end.

Definition last_dot_segment (filename : string) : string :=
  last_dot_segment_from "" filename.

(** [course_upload_path]; [slug] is [instance.slug]. *)
Definition course_upload_path (slug filename : string) : string :=
  let ext := last_dot_segment filename in
  let filename := "course_file." +:+ ext in
  "courses/" +:+ slug +:+ "/" +:+ filename.

(** ** permissions.py *)

(** [IsEnrolledOrReadOnly.has_object_permission] for a lesson ([obj] is
    [None] for an object without a [course] attribute); the outer [None]
    is the [DoesNotExist] of a missing course row. *)
Definition IsEnrolledOrReadOnly_has_object_permission (safe : bool)
    (request_user : option Z) (obj : option Lesson) (db : DB) : option bool :=
  match obj with
  | None => Some safe
  | Some lesson =>
      match courses db !! l_course lesson with
      | None => None
      | Some course =>
          if safe then
            Some (is_public course || bool_decide (Some (creator course) = request_user))
          else
            Some (bool_decide
                    (objects_filter
                       (λ e, Some (e_user e) = request_user
                             ∧ e_course e = l_course lesson)
                       (enrollments db) ≠ []))
      end
  end.

(** ** views.py: CourseViewSet, LessonViewSet, CourseRatingViewSet *)

Inductive APIException :=
| Http404
| PermissionDenied
| ValidationError (detail : string)
| ServerError (e : exn).

Inductive outcome (A : Type) :=
| Returned (a : A)
| Raised (e : APIException).
Arguments Returned {A} a.
Arguments Raised {A} e.

(** The query parameters [creator] and [search]. *)
Record CourseQuery := mkCourseQuery {
  q_creator : option string;
  q_search : option string
}.

(** [CourseViewSet.get_queryset]. [icontains] is the database's
    case-insensitive containment test, [users] the user table and
    [request_user] the authenticated user ([None] when anonymous). The
    annotation [is_enrolled] and the prefetches add no rows and remove
    none. *)
Definition CourseViewSet_get_queryset (icontains : string → string → bool)
    (users : gmap Z User) (request_user : option User) (query : CourseQuery)
    (db : DB) : list Course :=
  let queryset := (map_to_list (courses db)).*2 in
  (* Filter by creator *)
  let queryset :=
    match q_creator query with
    | Some name =>
        if bool_decide (name = "") then queryset
        else filter (λ c, username <$> users !! creator c = Some name) queryset
    | None => queryset
    end in
  (* Filter by public status *)
  let queryset :=
    match request_user with
    | None => filter (λ c, is_public c = true) queryset
    | Some u =>
        if negb (is_staff u) then
          filter (λ c, is_public c = true ∨ creator c = user_id u) queryset
        else queryset
    end in
  (* Filter by search term *)
  match q_search query with
  | Some term =>
      if bool_decide (term = "") then queryset
      else filter (λ c, icontains (title c) term = true
                        ∨ icontains (description c) term = true) queryset
  | None => queryset
  end.

(** [self.get_object()] of [CourseViewSet]: the row of [get_queryset()]
    with the URL's slug. The unique [slug] column is given as the index
    [slugs] from slug to primary key. *)
Definition CourseViewSet_get_object (icontains : string → string → bool)
    (users : gmap Z User) (slugs : gmap string Z) (request_user : option User)
    (query : CourseQuery) (slug : string) (db : DB) : option Course :=
  match slugs !! slug with
  | None => None
  | Some cid =>
      head (filter (λ c, pk c = Some cid)
                   (CourseViewSet_get_queryset icontains users request_user query db))
  end.

Definition HTTP_201_CREATED : Z := 201.

(** The [enroll] action, for an authenticated requester. *)
Definition CourseViewSet_enroll (icontains : string → string → bool)
    (users : gmap Z User) (slugs : gmap string Z) (request_user : User)
    (query : CourseQuery) (slug : string) (new_id now : Z) (db : DB)
    : DB * Response :=
  match CourseViewSet_get_object icontains users slugs (Some request_user) query slug db with
  | None => (db, mkResponse (Detail "Not found.") HTTP_404_NOT_FOUND)
  | Some course =>
      match pk course with
      | None => (db, mkResponse (Unhandled ValueError) HTTP_500_INTERNAL_SERVER_ERROR)
      | Some cid =>
          (* Check if already enrolled *)
          match objects_filter
                  (λ e, e_user e = user_id request_user ∧ e_course e = cid)
                  (enrollments db) with
          | _ :: _ =>
              (db, mkResponse (Detail "Already enrolled in this course.")
                     HTTP_400_BAD_REQUEST)
          | [] =>
              (* Create enrollment *)
              let enrollment :=
                mkCourseEnrollment new_id (user_id request_user) cid now
                                   None 1 None 0 0 [] [] in
              match enrollments db !! new_id with
              | Some _ =>
                  (db, mkResponse (Unhandled IntegrityError)
                         HTTP_500_INTERNAL_SERVER_ERROR)
              | None =>
                  match CourseEnrollment_save enrollment db with
                  | (db, Ok _) => (db, mkResponse (Serialized enrollment) HTTP_201_CREATED)
                  | (db, Raise e) =>
                      (db, mkResponse (Unhandled e) HTTP_500_INTERNAL_SERVER_ERROR)
                  end
              end
          end
      end
  end.

(** [order_by('order')] on lessons. *)
Definition order_le (a b : Lesson) : Prop := l_order a ≤ l_order b.

#[global] Instance order_le_dec : RelDecision order_le.
Proof. intros a b. unfold order_le. apply _. Defined.

Definition order_by_order (qs : list Lesson) : list Lesson :=
  merge_sort order_le qs.

(** [LessonViewSet.get_queryset]; [course_slug] is the query parameter
    [course]. *)
Definition LessonViewSet_get_queryset (slugs : gmap string Z)
    (request_user : option User) (course_slug : option string) (db : DB)
    : outcome (list Lesson) :=
  let queryset := (map_to_list (lessons db)).*2 in
  match course_slug with
  | None => Returned (order_by_order queryset)
  | Some slug =>
      if bool_decide (slug = "") then Returned (order_by_order queryset)
      else
        let queryset := filter (λ l, slugs !! slug = Some (l_course l)) queryset in
        (* Check course access *)
        match slugs !! slug with
        | None => Raised Http404
        | Some cid =>
            match courses db !! cid with
            | None => Raised Http404
            | Some course =>
                if negb (is_public course)
                   && negb (bool_decide (Some (creator course) = user_id <$> request_user))
                then
                  match request_user with
                  | None => Raised PermissionDenied
                  | Some u =>
                      (* Check if user is enrolled *)
                      match objects_filter
                              (λ e, e_user e = user_id u ∧ e_course e = cid)
                              (enrollments db) with
                      | [] => Raised PermissionDenied
                      | _ :: _ => Returned (order_by_order queryset)
                      end
                  end
                else Returned (order_by_order queryset)
            end
        end
  end.

(** [CourseRatingViewSet.perform_create] with the validated [course],
    [rating] and [review]; [new_id] is the UUID drawn for the row. *)
Definition CourseRatingViewSet_perform_create (request_user new_id : Z)
    (course rating : Z) (review : string) (db : DB) : DB * outcome CourseRating :=
  match objects_filter (λ r, r_user r = request_user ∧ r_course r = course)
                       (ratings db) with
  | _ :: _ => (db, Raised (ValidationError "You have already rated this course."))
  | [] =>
      let row := mkCourseRating new_id request_user course rating review in
      match ratings db !! new_id with
      | Some _ => (db, Raised (ServerError IntegrityError))
      | None => (CourseRating_save row db, Returned row)
      end
  end.

(** ** serializers.py: CourseSerializer.create *)

(** The validated data of a course creation. *)
Record CourseCreateData := mkCourseCreateData {
  c_title : string;
  c_description : option string;
  c_course_file : option FieldFile;
  c_is_public : option bool;
  c_allow_comments : option bool;
  c_enable_progress_tracking : option bool
}.

(** [CourseSerializer.create]. The instance that [Course.objects.create]
    builds takes its [id] from the field default ([uuid.uuid4], here
    [new_id]) and the declared defaults for what the data leaves out; the
    insert fails when the key is taken. *)
Definition CourseSerializer_create (pdfkit : FieldFile → option (Z * option Z))
    (new_id : Z) (request_user : Z) (validated_data : CourseCreateData) (db : DB)
    : DB * outcome Course :=
  (* Check file size limit (50MB) *)
  let too_large :=
    match c_course_file validated_data with
    | Some f => bool_decide (f_size f > 50 * 1024 * 1024)
    | None => false
    end in
  if too_large then (db, Raised (ValidationError "File size cannot exceed 50MB."))
  else
    let instance :=
      mkCourse (Some new_id) (c_title validated_data)
        (default "" (c_description validated_data)) request_user
        (c_course_file validated_data) 0 "" 0
        (default false (c_is_public validated_data))
        (default true (c_allow_comments validated_data))
        (default true (c_enable_progress_tracking validated_data))
        None 0 0 0 in
    match courses db !! new_id with
    | Some _ => (db, Raised (ServerError IntegrityError))
    | None =>
        match Course_save pdfkit new_id None instance db with
        | (db, instance, Ok _) => (db, Returned instance)
        | (db, _, Raise e) => (db, Raised (ServerError e))
        end
    end.

(** ** Table constraints and string predicates used by the properties *)

(** [unique_together = ['user', 'course']] of [CourseRating]: at most one
    row per user and course. *)
Definition rating_unique_together (db : DB) : Prop :=
  ∀ k1 k2 r1 r2, ratings db !! k1 = Some r1 → ratings db !! k2 = Some r2 →
                 r_user r1 = r_user r2 → r_course r1 = r_course r2 → k1 = k2.

(** ['.' not in s]. *)
Fixpoint no_dot (s : string) : bool :=
  match s with
  | EmptyString => true
  | String c rest => negb (bool_decide (c = "."%char)) && no_dot rest
  end.

(** * Properties *)

(** ** Writes and column ranges *)

Lemma positive_integer_max_safe (backend : Backend) :
  2147483647 ≤ positive_integer_max backend.
Proof. unfold positive_integer_max. lia. Qed.

Lemma check_positive_integers_Ok (backend : Backend) (values : list Z) :
  check_positive_integers backend values = Ok ()
  ↔ Forall (λ v, 0 ≤ v ≤ positive_integer_max backend) values.
Proof.
  unfold check_positive_integers. rewrite Forall_forall.
  case_bool_decide as Hover.
  { split; [done|]. intros Hall. apply Exists_exists in Hover as (v & Hv & Hlt).
    specialize (Hall v Hv). lia. }
  case_bool_decide as Hneg.
  { split; [done|]. intros Hall. apply Exists_exists in Hneg as (v & Hv & Hlt).
    specialize (Hall v Hv). lia. }
  split; [|done]. intros _ v Hv. split.
  - destruct (decide (0 ≤ v)); [done|].
    destruct Hneg. apply Exists_exists. exists v. split; [done|lia].
  - destruct (decide (v ≤ positive_integer_max backend)); [done|].
    destruct Hover. apply Exists_exists. exists v. split; [done|lia].
Qed.

Lemma check_positive_integers_cases (backend : Backend) (values : list Z) :
  (check_positive_integers backend values = Ok ()
   ∧ Forall (λ v, 0 ≤ v ≤ positive_integer_max backend) values)
  ∨ (∃ e, check_positive_integers backend values = Raise e
          ∧ ¬ Forall (λ v, 0 ≤ v ≤ positive_integer_max backend) values).
Proof.
  destruct (check_positive_integers backend values) as [[]|e] eqn:Hcheck.
  - left. split; [done|]. by apply check_positive_integers_Ok.
  - right. exists e. split; [done|]. intros Hall.
    apply check_positive_integers_Ok in Hall. congruence.
Qed.

(** A save of an enrollment whose columns are in range writes the row
    and sends [post_save]; any other save raises and writes nothing. *)
Lemma CourseEnrollment_save_cases (self : CourseEnrollment) (db : DB) :
  (enrollment_in_range db self
   ∧ CourseEnrollment_save self db
     = (update_course_enrollment_count self
          (bool_decide (enrollments db !! e_id self = None))
          (with_enrollments (<[e_id self := self]> (enrollments db)) db),
        Ok ()))
  ∨ (¬ enrollment_in_range db self
     ∧ ∃ e, CourseEnrollment_save self db = (db, Raise e)).
Proof.
  unfold CourseEnrollment_save, enrollment_in_range, column_range.
  destruct (check_positive_integers_cases (backend db)
              [current_page self; pages_completed self; total_pages_viewed self])
    as [[-> Hall]|(e & -> & Hnot)].
  - left. split; [|done]. rewrite !Forall_cons in Hall. tauto.
  - right. split; [|by eexists]. intros (H1 & H2 & H3). apply Hnot.
    rewrite !Forall_cons. by rewrite Forall_nil.
Qed.

Lemma CourseEnrollment_save_in_range (self : CourseEnrollment) (db : DB) :
  enrollment_in_range db self →
  CourseEnrollment_save self db
  = (update_course_enrollment_count self
       (bool_decide (enrollments db !! e_id self = None))
       (with_enrollments (<[e_id self := self]> (enrollments db)) db),
     Ok ()).
Proof. intros Hin. by destruct (CourseEnrollment_save_cases self db) as [[_ ?]|[? _]]. Qed.

Lemma CourseEnrollment_save_total_pages_viewed_cases (self : CourseEnrollment) (db : DB) :
  (column_range db (total_pages_viewed self)
   ∧ CourseEnrollment_save_total_pages_viewed self db
     = (with_enrollments
          (alter (set_total_pages_viewed (total_pages_viewed self)) (e_id self)
                 (enrollments db)) db,
        Ok ()))
  ∨ (¬ column_range db (total_pages_viewed self)
     ∧ ∃ e, CourseEnrollment_save_total_pages_viewed self db = (db, Raise e)).
Proof.
  unfold CourseEnrollment_save_total_pages_viewed, column_range.
  destruct (check_positive_integers_cases (backend db) [total_pages_viewed self])
    as [[-> Hall]|(e & -> & Hnot)].
  - left. split; [|done]. rewrite !Forall_cons in Hall. tauto.
  - right. split; [|by eexists]. intros H1. apply Hnot.
    rewrite !Forall_cons. by rewrite Forall_nil.
Qed.

(** A log row whose page and time are in range is appended; any other
    insert raises and writes nothing. *)
Lemma UserProgressLog_objects_create_cases (row : UserProgressLog) (db : DB) :
  (column_range db (log_page_number row) ∧ column_range db (log_time_spent row)
   ∧ UserProgressLog_objects_create row db
     = (with_progress_logs (progress_logs db ++ [row]) db, Ok ()))
  ∨ (¬ (column_range db (log_page_number row) ∧ column_range db (log_time_spent row))
     ∧ ∃ e, UserProgressLog_objects_create row db = (db, Raise e)).
Proof.
  unfold UserProgressLog_objects_create, column_range.
  destruct (check_positive_integers_cases (backend db)
              [log_page_number row; log_time_spent row])
    as [[-> Hall]|(e & -> & Hnot)].
  - left. rewrite !Forall_cons in Hall. tauto.
  - right. split; [|by eexists]. intros [H1 H2]. apply Hnot.
    rewrite !Forall_cons. by rewrite Forall_nil.
Qed.

Lemma UserProgressLog_objects_create_in_range (row : UserProgressLog) (db : DB) :
  column_range db (log_page_number row) → column_range db (log_time_spent row) →
  UserProgressLog_objects_create row db
  = (with_progress_logs (progress_logs db ++ [row]) db, Ok ()).
Proof.
  intros Hp Ht.
  destruct (UserProgressLog_objects_create_cases row db) as [(_ & _ & ?)|[Hnot _]]; [done|].
  by destruct Hnot.
Qed.

(** No write changes the backend. *)
Lemma update_course_enrollment_count_backend (instance : CourseEnrollment)
    (created : bool) (db : DB) :
  backend (update_course_enrollment_count instance created db) = backend db.
Proof. by destruct created. Qed.

Lemma CourseEnrollment_save_backend (self : CourseEnrollment) (db : DB) :
  backend (CourseEnrollment_save self db).1 = backend db.
Proof.
  destruct (CourseEnrollment_save_cases self db) as [[_ ->]|[_ [e ->]]]; [|done].
  cbn [fst]. by rewrite update_course_enrollment_count_backend.
Qed.

Lemma UserProgressLog_objects_create_backend (row : UserProgressLog) (db : DB) :
  backend (UserProgressLog_objects_create row db).1 = backend db.
Proof.
  by destruct (UserProgressLog_objects_create_cases row db)
    as [(_ & _ & ->)|[_ [e ->]]].
Qed.

Lemma CourseEnrollment_save_total_pages_viewed_backend (self : CourseEnrollment)
    (db : DB) :
  backend (CourseEnrollment_save_total_pages_viewed self db).1 = backend db.
Proof.
  by destruct (CourseEnrollment_save_total_pages_viewed_cases self db)
    as [[_ ->]|[_ [e ->]]].
Qed.

(** Values up to 2147483647 are in range on every backend. *)
Lemma column_range_safe (db : DB) (v : Z) : 0 ≤ v ≤ 2147483647 → column_range db v.
Proof.
  intros Hv. unfold column_range.
  pose proof (positive_integer_max_safe (backend db)). lia.
Qed.

(** A new enrollment starts within every backend's range. *)
Lemma new_enrollment_in_range (db : DB) (new_id user cid now : Z) :
  enrollment_in_range db (mkCourseEnrollment new_id user cid now None 1 None 0 0 [] []).
Proof. split; [|split]; apply column_range_safe; cbn; lia. Qed.

(** ** update_progress: what one call does to the instance *)

(** Case analysis along the branches of [update_progress]: the
    comparison with [pages_completed], the course row, the lesson lookup
    and the completion test. *)
Ltac split_on_course self db :=
  unfold CourseEnrollment_update_progress; cbn;
  destruct (bool_decide (_ > pages_completed self)) eqn:?; cbn;
  destruct (courses db !! e_course self) as [?course|] eqn:?; cbn; try done.

Ltac split_on_lesson :=
  try match goal with
  | |- context [queryset_get ?q] =>
      let e := fresh "e" in destruct (queryset_get q) as [?lesson|e]; [|destruct e]
  end; cbn; try done.

Ltac split_on_completion self :=
  try (destruct (bool_decide (_ >= total_pages _)) eqn:?; cbn);
  try (destruct (completed_at self) eqn:?; cbn); try done.

(** The three writes of the method, each of which may raise. *)
Ltac split_on_writes :=
  repeat match goal with
  | |- context [CourseEnrollment_save ?s ?d] =>
      destruct (CourseEnrollment_save s d) as [? [[]|?]] eqn:?; cbn
  | |- context [UserProgressLog_objects_create ?r ?d] =>
      destruct (UserProgressLog_objects_create r d) as [? [[]|?]] eqn:?; cbn
  | |- context [CourseEnrollment_save_total_pages_viewed ?s ?d] =>
      destruct (CourseEnrollment_save_total_pages_viewed s d) as [? [[]|?]] eqn:?; cbn
  end; try done.

(** What an equation on the outcome of a write says. *)
Ltac invert_writes :=
  repeat match goal with
  | H : CourseEnrollment_save ?s ?d = _ |- _ =>
      let Hrange := fresh "Hrange" in
      let Heq := fresh "Heq" in
      destruct (CourseEnrollment_save_cases s d) as [[Hrange Heq]|[Hrange [? Heq]]];
      rewrite Heq in H; clear Heq; simplify_eq
  | H : UserProgressLog_objects_create ?r ?d = _ |- _ =>
      let Hrange := fresh "Hrange" in
      let Heq := fresh "Heq" in
      destruct (UserProgressLog_objects_create_cases r d)
        as [(Hrange & ? & Heq)|[Hrange [? Heq]]];
      rewrite Heq in H; clear Heq; simplify_eq
  | H : CourseEnrollment_save_total_pages_viewed ?s ?d = _ |- _ =>
      let Hrange := fresh "Hrange" in
      let Heq := fresh "Heq" in
      destruct (CourseEnrollment_save_total_pages_viewed_cases s d)
        as [[Hrange Heq]|[Hrange [? Heq]]];
      rewrite Heq in H; clear Heq; simplify_eq
  end.

Ltac update_progress_cases self db :=
  split_on_course self db; split_on_lesson; split_on_completion self; split_on_writes.

Section update_progress.
Variables (page_number time_spent now : Z).
Variables (self : CourseEnrollment) (db : DB).

Let out := CourseEnrollment_update_progress page_number time_spent now self db.

Lemma update_progress_current_page : current_page out.1.2 = page_number.
Proof. subst out. update_progress_cases self db. Qed.

Lemma update_progress_pages_completed :
  pages_completed out.1.2 = Z.max (pages_completed self) page_number.
Proof.
  subst out. update_progress_cases self db;
    repeat match goal with
           | H : bool_decide _ = true |- _ => apply bool_decide_eq_true_1 in H
           | H : bool_decide _ = false |- _ => apply bool_decide_eq_false_1 in H
           end; lia.
Qed.

Lemma update_progress_keeps_completed_at t :
  completed_at self = Some t → completed_at out.1.2 = Some t.
Proof. intros Ht. subst out. update_progress_cases self db; congruence. Qed.

Lemma update_progress_identity :
  e_id out.1.2 = e_id self ∧ e_user out.1.2 = e_user self
  ∧ e_course out.1.2 = e_course self
  ∧ bookmarked_pages out.1.2 = bookmarked_pages self.
Proof. subst out. update_progress_cases self db. Qed.

(** A call that returns has appended one ['page_view'] row and written
    the instance to its row. *)
Lemma update_progress_Ok :
  out.2 = Ok () →
  ∃ course,
    courses db !! e_course self = Some course
    ∧ progress_logs out.1.1
      = progress_logs db
        ++ [mkUserProgressLog (e_id self) page_number "page_view" time_spent (JObj [])]
    ∧ enrollments out.1.1 = <[e_id self := out.1.2]> (enrollments db)
    ∧ (completed_at self = None → total_pages course ≤ page_number →
       completed_at out.1.2 = Some now).
Proof.
  subst out. update_progress_cases self db.
  all: intros _; invert_writes; eexists; split; [done|].
  all: split; [by unfold update_course_enrollment_count; case_match|].
  all: split;
    [ unfold update_course_enrollment_count;
      case_match; cbn; by rewrite alter_insert_eq
    | try done ].
  all: intros _ Hle;
    match goal with
    | H : bool_decide _ = false |- _ => apply bool_decide_eq_false_1 in H; lia
    end.
Qed.

(** With the course row present and lessons unique per page, the
    completion test is reached: the instance of an enrollment not yet
    completed is stamped when the page is the last one or beyond,
    whether or not the writes that follow succeed. *)
Lemma update_progress_stamps course :
  courses db !! e_course self = Some course →
  lesson_unique_together db →
  completed_at self = None →
  total_pages course ≤ page_number →
  completed_at out.1.2 = Some now.
Proof.
  intros Hc Huniq Hnone Hle. subst out. unfold CourseEnrollment_update_progress. cbn.
  destruct (bool_decide (_ > pages_completed self)); cbn; rewrite Hc.
  all: match goal with |- context [queryset_get ?q] =>
         pose proof (Huniq (e_course self) page_number) as Hlen;
         unfold queryset_get; destruct q as [|l1 [|l2 rest]] end;
       [| |cbn in Hlen; lia].
  all: cbn; rewrite Hnone; rewrite bool_decide_eq_true_2 by lia; cbn.
  all: by split_on_writes.
Qed.

(** With, besides, the page, the time and the row's columns in the
    range of the database and the view counter below its top, the three
    writes succeed and the call returns. *)
Lemma update_progress_returns course :
  courses db !! e_course self = Some course →
  lesson_unique_together db →
  column_range db page_number → column_range db time_spent →
  enrollment_in_range db self →
  total_pages_viewed self < positive_integer_max (backend db) →
  out.2 = Ok ().
Proof.
  intros Hc Huniq Hp Ht (Hcur & Hpc & Hv) Hroom. subst out.
  unfold CourseEnrollment_update_progress. cbn.
  destruct (bool_decide (_ > pages_completed self)); cbn; rewrite Hc.
  all: match goal with |- context [queryset_get ?q] =>
         pose proof (Huniq (e_course self) page_number) as Hlen;
         unfold queryset_get; destruct q as [|l1 [|l2 rest]] end;
       [| |cbn in Hlen; lia].
  all: cbn; split_on_completion self; split_on_writes; invert_writes.
  all: unfold enrollment_in_range, column_range in *; cbn in *;
       rewrite ?update_course_enrollment_count_backend in *; cbn in *; lia.
Qed.
End update_progress.

(** ** Sequences of calls *)

Lemma update_progress_calls_pages_completed calls : ∀ self db,
  pages_completed self ≤ pages_completed (update_progress_calls calls self db).2.
Proof.
  induction calls as [|[[p t] n] calls IH]; intros self db; cbn; [lia|].
  pose proof (update_progress_pages_completed p t n self db) as Hstep.
  cbv zeta in Hstep.
  destruct (CourseEnrollment_update_progress p t n self db) as [[db' self'] r].
  cbn in Hstep. specialize (IH self' db'). lia.
Qed.

Lemma update_progress_calls_completed_at calls : ∀ self db t,
  completed_at self = Some t →
  completed_at (update_progress_calls calls self db).2 = Some t.
Proof.
  induction calls as [|[[p ts] n] calls IH]; intros self db t Ht; cbn; [done|].
  pose proof (update_progress_keeps_completed_at p ts n self db t Ht) as Hstep.
  cbv zeta in Hstep.
  destruct (CourseEnrollment_update_progress p ts n self db) as [[db' self'] r].
  cbn in Hstep. by apply IH.
Qed.

(** ** Monotonic progress *)

(** C3: one [update_progress] call never lowers [pages_completed], leaves
    it as it is when [page_number] does not exceed it, and sets
    [current_page] to [page_number] in every case; no sequence of calls
    lowers [pages_completed] either. *)
Theorem update_progress_monotonic (page_number time_spent now : Z)
    (self : CourseEnrollment) (db : DB) :
  let '(_, self', _) :=
    CourseEnrollment_update_progress page_number time_spent now self db in
  pages_completed self ≤ pages_completed self'
  ∧ (page_number ≤ pages_completed self →
     pages_completed self' = pages_completed self)
  ∧ current_page self' = page_number
  ∧ ∀ calls db',
      pages_completed self ≤ pages_completed (update_progress_calls calls self' db').2.
Proof.
  pose proof (update_progress_pages_completed page_number time_spent now self db) as Hpc.
  pose proof (update_progress_current_page page_number time_spent now self db) as Hcp.
  cbv zeta in Hpc, Hcp.
  destruct (CourseEnrollment_update_progress page_number time_spent now self db)
    as [[db1 self1] r].
  cbn in Hpc, Hcp. repeat split; [lia | lia | done |].
  intros calls db'.
  pose proof (update_progress_calls_pages_completed calls self1 db'). lia.
Qed.

Lemma update_progress_monotonic_witness :
  let '(_, self', _) := CourseEnrollment_update_progress 3 30 77
                          (set_pages_completed 5 enrollment_42) school in
  pages_completed self' = 5 ∧ current_page self' = 3.
Proof.
  pose proof (update_progress_monotonic 3 30 77 (set_pages_completed 5 enrollment_42) school)
    as H.
  destruct (CourseEnrollment_update_progress 3 30 77
              (set_pages_completed 5 enrollment_42) school) as [[db' self'] r].
  destruct H as (_ & Hsame & Hcur & _).
  split; [apply Hsame; cbn; lia | exact Hcur].
Defined.

(** ** Completion *)

(** C4: the call that reaches the last page of an enrollment not yet
    completed stamps [completed_at] with its clock, and whatever calls
    follow, with smaller or larger pages and later clocks, returning or
    raising, [completed_at] keeps that first stamp. The call returns
    when the page, the time and the row's columns are in the range of
    the database's columns, and a call that returns has stored the
    stamped instance in the enrollment's row. *)
Theorem completion_is_one_way (page_number time_spent now : Z)
    (self : CourseEnrollment) (db : DB) (course : Course) :
  courses db !! e_course self = Some course →
  lesson_unique_together db →
  completed_at self = None →
  page_number >= total_pages course →
  let '(db1, self1, r) :=
    CourseEnrollment_update_progress page_number time_spent now self db in
  completed_at self1 = Some now
  ∧ (∀ calls db', completed_at (update_progress_calls calls self1 db').2 = Some now)
  ∧ (column_range db page_number → column_range db time_spent →
     enrollment_in_range db self →
     total_pages_viewed self < positive_integer_max (backend db) →
     r = Ok ())
  ∧ (r = Ok () → enrollments db1 !! e_id self = Some self1).
Proof.
  intros Hc Huniq Hnone Hge.
  pose proof (update_progress_stamps page_number time_spent now self db course Hc Huniq
                Hnone) as Hstamp.
  pose proof (update_progress_returns page_number time_spent now self db course Hc Huniq)
    as Hok.
  pose proof (update_progress_Ok page_number time_spent now self db) as Hinv.
  cbv zeta in Hstamp, Hok, Hinv.
  destruct (CourseEnrollment_update_progress page_number time_spent now self db)
    as [[db1 self1] r].
  cbn in Hstamp, Hok, Hinv.
  assert (completed_at self1 = Some now) as Hdone by (apply Hstamp; lia).
  split; [done|]. split.
  { intros calls db'. by apply update_progress_calls_completed_at. }
  split; [done|].
  intros Hr. destruct (Hinv Hr) as (_ & _ & _ & Henr & _).
  by rewrite Henr, lookup_insert_eq.
Qed.

Lemma school_lesson_unique_together : lesson_unique_together school.
Proof. intros cid p. vm_compute. lia. Defined.

Lemma completion_is_one_way_witness :
  let '(db1, self1, r) := CourseEnrollment_update_progress 10 30 77 enrollment_42 school in
  r = Ok () ∧ completed_at self1 = Some 77
  ∧ enrollments db1 !! 100 = Some self1
  ∧ completed_at (update_progress_calls [(3, 5, 80); (10, 5, 90)] self1 school).2 = Some 77.
Proof.
  assert (courses school !! e_course enrollment_42 = Some algebra) as Hc by reflexivity.
  assert (10 >= total_pages algebra) as Hge by (cbn; lia).
  pose proof (completion_is_one_way 10 30 77 enrollment_42 school algebra Hc
                school_lesson_unique_together eq_refl Hge) as H.
  destruct (CourseEnrollment_update_progress 10 30 77 enrollment_42 school)
    as [[db1 self1] r].
  destruct H as (Hstamp & Hlater & Hok & Hrow).
  assert (r = Ok ()) as Hr.
  { apply Hok; unfold enrollment_in_range, column_range; vm_compute; intuition congruence. }
  repeat split; [exact Hr | exact Hstamp | exact (Hrow Hr) | apply Hlater].
Defined.

(** ** The update-progress action *)

(** The view offers no [get_course], so [validate] compares nothing: a
    body with [page_number >= 1] and [time_spent >= 0] is valid whatever
    the course's [total_pages] is. *)
Lemma update_progress_request_is_valid (p t : Z) :
  1 ≤ p → 0 ≤ t →
  ProgressUpdateSerializer_is_valid (Some CourseEnrollmentViewSet)
    (mkProgressUpdateData (Some p) (Some t) None None)
  = Some (mkProgressUpdate p t "page_view" (JObj [])).
Proof.
  intros Hp Ht. unfold ProgressUpdateSerializer_is_valid. cbn.
  by rewrite !bool_decide_eq_true_2 by lia.
Qed.

(** With a view that does offer the course, [validate] rejects a page
    beyond [total_pages], as its docstring says. *)
Lemma validate_rejects_beyond_total (course : Course) (v : ProgressUpdate) :
  page_number v > total_pages course →
  ProgressUpdateSerializer_validate (Some (mkView (Some course))) v = None.
Proof.
  intros Hgt. unfold ProgressUpdateSerializer_validate. cbn.
  by rewrite bool_decide_eq_true_2.
Qed.

(** What a 200 response of the action implies. *)
Lemma update_progress_action_200 (user pk : Z) (request_data : ProgressUpdateData)
    (now : Z) (db : DB) :
  let '(db', response) :=
    CourseEnrollmentViewSet_update_progress user pk request_data now db in
  status response = HTTP_200_OK →
  ∃ enrollment v,
    get_object user pk db = Some enrollment
    ∧ ProgressUpdateSerializer_is_valid (Some CourseEnrollmentViewSet) request_data = Some v
    ∧ let out := CourseEnrollment_update_progress (page_number v) (time_spent v) now
                   enrollment db in
      out.2 = Ok ()
      ∧ response = mkResponse (Serialized out.1.2) HTTP_200_OK
      ∧ db' = with_progress_logs
                (progress_logs out.1.1
                 ++ [mkUserProgressLog (e_id out.1.2) (page_number v) (action v)
                       (time_spent v) (metadata v)])
                out.1.1.
Proof.
  unfold CourseEnrollmentViewSet_update_progress.
  destruct (get_object user pk db) as [enrollment|]; [|done].
  destruct (ProgressUpdateSerializer_is_valid _ request_data) as [v|]; [|done].
  destruct (CourseEnrollment_update_progress _ _ _ _ _) as [[db1 self1] [[]|e]] eqn:E;
    [|done].
  destruct (UserProgressLog_objects_create _ db1) as [db2 [[]|e]] eqn:Hlog; [|done].
  intros _. invert_writes. exists enrollment, v. cbv zeta. by rewrite E.
Qed.

(** [Sum] with [or 0] is the plain sum, so it distributes over appended
    rows. *)
Lemma aggregate_Sum_app {A} (field : A → Z) (l1 l2 : list A) :
  default 0 (aggregate_Sum field (l1 ++ l2))
  = default 0 (aggregate_Sum field l1) + default 0 (aggregate_Sum field l2).
Proof.
  assert (∀ l, default 0 (aggregate_Sum field l) = foldr (λ r acc, field r + acc) 0 l)
    as Hsum by (by intros []).
  rewrite !Hsum. induction l1 as [|x l1 IH]; cbn; [done|]. rewrite IH. lia.
Qed.

Lemma get_object_Some (user pk : Z) (db : DB) (e : CourseEnrollment) :
  get_object user pk db = Some e →
  enrollments db !! pk = Some e ∧ e_id e = pk ∧ e_user e = user.
Proof.
  unfold get_object. destruct (enrollments db !! pk) as [e'|]; [|done].
  case_bool_decide; [|done]. intros [= ->]. tauto.
Qed.

(** C10: a 200 response of the update-progress action means exactly two
    log rows were appended for the enrollment, the ['page_view'] row of
    the model method and then the row of the view with the request's
    action, both with the submitted [time_spent]; the enrollment's
    [time_spent] property and the dashboard total of the user each grow
    by twice that value. *)
Theorem update_progress_action_logs_twice (user pk : Z)
    (request_data : ProgressUpdateData) (now : Z) (db : DB) :
  let '(db', response) :=
    CourseEnrollmentViewSet_update_progress user pk request_data now db in
  status response = HTTP_200_OK →
  ∃ v,
    ProgressUpdateSerializer_is_valid (Some CourseEnrollmentViewSet) request_data = Some v
    ∧ progress_logs db'
      = progress_logs db
        ++ [mkUserProgressLog pk (page_number v) "page_view" (time_spent v) (JObj []);
            mkUserProgressLog pk (page_number v) (action v) (time_spent v) (metadata v)]
    ∧ (∀ e, e_id e = pk →
         CourseEnrollment_time_spent e db'
         = CourseEnrollment_time_spent e db + 2 * time_spent v)
    ∧ DashboardViewSet_total_time_spent user db'
      = DashboardViewSet_total_time_spent user db + 2 * time_spent v.
Proof.
  pose proof (update_progress_action_200 user pk request_data now db) as H200.
  destruct (CourseEnrollmentViewSet_update_progress user pk request_data now db)
    as [db' response].
  intros Hstatus. destruct (H200 Hstatus) as (enrollment & v & Hget & Hvalid & Hout).
  cbv zeta in Hout. destruct Hout as (Hok & _ & ->).
  apply get_object_Some in Hget as (Hrow & Hid & Huser).
  pose proof (update_progress_Ok (page_number v) (time_spent v) now enrollment db) as Hinv.
  pose proof (update_progress_identity (page_number v) (time_spent v) now enrollment db)
    as (Hid' & Huser' & _).
  cbv zeta in Hinv.
  destruct (CourseEnrollment_update_progress (page_number v) (time_spent v) now enrollment db)
    as [[db1 self1] r].
  cbn in Hok, Hinv, Hid', Huser' |- *.
  destruct (Hinv Hok) as (course & _ & Hlogs & Henr & _).
  rewrite Hid in Hlogs, Henr. rewrite Hid', Hid.
  assert (progress_logs db1 ++
            [mkUserProgressLog pk (page_number v) (action v) (time_spent v) (metadata v)]
          = progress_logs db
            ++ [mkUserProgressLog pk (page_number v) "page_view" (time_spent v) (JObj []);
                mkUserProgressLog pk (page_number v) (action v) (time_spent v) (metadata v)])
    as Hall by (rewrite Hlogs, <- app_assoc; done).
  exists v. split; [done|]. split; [done|]. split.
  - intros e He. unfold CourseEnrollment_time_spent, logs_of_enrollment. cbn.
    rewrite Hall, He, filter_app, aggregate_Sum_app.
    rewrite !filter_cons_True by done. cbn. lia.
  - unfold DashboardViewSet_total_time_spent. cbn. rewrite Hall, Henr.
    assert (∀ k, e_user <$> <[pk := self1]> (enrollments db) !! k = Some user
                 ↔ e_user <$> enrollments db !! k = Some user) as Hsame.
    { intros k. destruct (decide (k = pk)) as [->|Hne].
      - rewrite lookup_insert_eq, Hrow. cbn. by rewrite Huser', Huser.
      - by rewrite lookup_insert_ne. }
    rewrite (list_filter_iff _ _ _ (λ r, Hsame (log_enrollment r))).
    rewrite filter_app, aggregate_Sum_app.
    rewrite !filter_cons_True by (cbn; by rewrite Hrow; cbn; rewrite Huser).
    cbn. lia.
Qed.

Lemma update_progress_action_logs_twice_witness :
  let '(db', response) :=
    CourseEnrollmentViewSet_update_progress 42 100
      (mkProgressUpdateData (Some 5) (Some 30) (Some "quiz_complete") None) 77 school in
  length (progress_logs db') = 2%nat
  ∧ CourseEnrollment_time_spent enrollment_42 db' = 60
  ∧ DashboardViewSet_total_time_spent 42 db' = 60.
Proof.
  pose proof (update_progress_action_logs_twice 42 100
                (mkProgressUpdateData (Some 5) (Some 30) (Some "quiz_complete") None)
                77 school) as H.
  destruct (CourseEnrollmentViewSet_update_progress 42 100
              (mkProgressUpdateData (Some 5) (Some 30) (Some "quiz_complete") None)
              77 school) as [db' response] eqn:E.
  assert (status response = HTTP_200_OK) as Hstatus
    by (vm_compute in E; by injection E as <- <-).
  destruct (H Hstatus) as (v & Hv & Hlogs & Htime & Hdash).
  vm_compute in Hv. injection Hv as <-.
  split; [by rewrite Hlogs|].
  split; [by rewrite (Htime enrollment_42 eq_refl) | by rewrite Hdash].
Defined.

(** ** The bound on pages_completed *)

(** C1, as the code runs: a request for page 15 of the ten-page course is
    answered 200, and the row then has [pages_completed = 15], above the
    course's [total_pages = 10]. *)
Theorem update_progress_action_exceeds_total_pages :
  let '(db', response) :=
    CourseEnrollmentViewSet_update_progress 42 100
      (mkProgressUpdateData (Some 15) (Some 30) None None) 77 school in
  status response = HTTP_200_OK
  ∧ total_pages <$> courses db' !! 1 = Some 10
  ∧ pages_completed <$> enrollments db' !! 100 = Some 15.
Proof. vm_compute. done. Qed.

(** ** Bookmarks *)

(** Saving an enrollment whose row exists and whose columns are in range
    overwrites the row and nothing else ([created] is false, the
    receiver does nothing). *)
Lemma CourseEnrollment_save_existing (self : CourseEnrollment) (db : DB) :
  is_Some (enrollments db !! e_id self) →
  enrollment_in_range db self →
  CourseEnrollment_save self db
  = (with_enrollments (<[e_id self := self]> (enrollments db)) db, Ok ()).
Proof.
  intros [row Hrow] Hrange. rewrite CourseEnrollment_save_in_range by done.
  by rewrite bool_decide_eq_false_2 by (by rewrite Hrow).
Qed.

Lemma filter_eq_not_elem_of (p : Z) (l : list Z) :
  p ∉ l → filter (λ x, x = p) l = [].
Proof.
  induction l as [|x l IH]; intros Hin; [done|].
  rewrite filter_cons_False by (intros ->; set_solver).
  apply IH. set_solver.
Qed.

Section bookmark.
Variables (user pk p : Z) (db : DB).
Variables (enrollment : CourseEnrollment) (course : Course).
Hypothesis Hget : get_object user pk db = Some enrollment.
Hypothesis Hcourse : courses db !! e_course enrollment = Some course.

Lemma bookmark_beyond_total :
  p > total_pages course →
  ∃ msg, CourseEnrollmentViewSet_bookmark user pk (Some p) db
         = (db, mkResponse (Detail msg) HTTP_400_BAD_REQUEST).
Proof.
  intros Hgt. unfold CourseEnrollmentViewSet_bookmark. rewrite Hget.
  case_bool_decide; [by eexists|]. rewrite Hcourse.
  rewrite bool_decide_eq_true_2 by done. by eexists.
Qed.

Lemma bookmark_again :
  p ≠ 0 → p ≤ total_pages course → p ∈ bookmarked_pages enrollment →
  CourseEnrollmentViewSet_bookmark user pk (Some p) db
  = (db, mkResponse (Serialized enrollment) HTTP_200_OK).
Proof.
  intros Hp Hle Hin. unfold CourseEnrollmentViewSet_bookmark. rewrite Hget.
  rewrite bool_decide_eq_false_2 by done. rewrite Hcourse.
  rewrite bool_decide_eq_false_2 by lia.
  by rewrite bool_decide_eq_true_2 by done.
Qed.

(** A new bookmark of a page the log can hold is stored and logged. *)
Lemma bookmark_new :
  p ≠ 0 → p ≤ total_pages course → p ∉ bookmarked_pages enrollment →
  enrollment_in_range db enrollment → column_range db p →
  let enrollment' :=
    set_bookmarked_pages (bookmarked_pages enrollment ++ [p]) enrollment in
  CourseEnrollmentViewSet_bookmark user pk (Some p) db
  = (with_progress_logs
       (progress_logs db
        ++ [mkUserProgressLog pk p "bookmark" 0 (JObj [("action", JStr "added")])])
       (with_enrollments (<[pk := enrollment']> (enrollments db)) db),
     mkResponse (Serialized enrollment') HTTP_200_OK).
Proof.
  intros Hp Hle Hin Hrange Hpage. unfold CourseEnrollmentViewSet_bookmark. rewrite Hget.
  apply get_object_Some in Hget as (Hrow & Hid & Huser).
  rewrite bool_decide_eq_false_2 by done. rewrite Hcourse.
  rewrite bool_decide_eq_false_2 by lia.
  rewrite bool_decide_eq_false_2 by done.
  rewrite CourseEnrollment_save_existing by (done || (cbn; by rewrite Hid, Hrow)).
  rewrite UserProgressLog_objects_create_in_range
    by (done || by apply column_range_safe).
  cbn. by rewrite Hid.
Qed.

(** A new bookmark of a page the log cannot hold (a negative one, or
    one past the column) is stored, and then the log insert raises. *)
Lemma bookmark_new_unlogged :
  p ≠ 0 → p ≤ total_pages course → p ∉ bookmarked_pages enrollment →
  enrollment_in_range db enrollment → ¬ column_range db p →
  let enrollment' :=
    set_bookmarked_pages (bookmarked_pages enrollment ++ [p]) enrollment in
  ∃ e,
    CourseEnrollmentViewSet_bookmark user pk (Some p) db
    = (with_enrollments (<[pk := enrollment']> (enrollments db)) db,
       mkResponse (Unhandled e) HTTP_500_INTERNAL_SERVER_ERROR).
Proof.
  intros Hp Hle Hin Hrange Hpage. unfold CourseEnrollmentViewSet_bookmark. rewrite Hget.
  apply get_object_Some in Hget as (Hrow & Hid & Huser).
  rewrite bool_decide_eq_false_2 by done. rewrite Hcourse.
  rewrite bool_decide_eq_false_2 by lia.
  rewrite bool_decide_eq_false_2 by done.
  rewrite CourseEnrollment_save_existing by (done || (cbn; by rewrite Hid, Hrow)).
  match goal with |- context [UserProgressLog_objects_create ?r ?d] =>
    destruct (UserProgressLog_objects_create_cases r d) as [(Hin' & _)|[_ [e ->]]] end.
  - by destruct Hpage.
  - exists e. cbn. by rewrite Hid.
Qed.
End bookmark.

(** C9: for an enrollment the requester owns, [bookmark] answers 400 and
    changes nothing when [page_number] exceeds the course's
    [total_pages]; for an admissible page already bookmarked it answers
    200 and changes nothing (no append, no log row); for an admissible
    page not yet bookmarked, on a row whose columns are in range, the
    first call appends it and the second call answers 200 and changes
    nothing, so the page is in [bookmarked_pages] exactly once. The
    first call answers 200 and logs one ['bookmark'] row when the log
    can hold the page; for a page it cannot hold (a negative one) the
    bookmark is stored all the same, the log insert raises and no row
    is logged. *)
Theorem bookmark_contract (user pk p : Z) (db : DB)
    (enrollment : CourseEnrollment) (course : Course) :
  get_object user pk db = Some enrollment →
  courses db !! e_course enrollment = Some course →
  (p > total_pages course →
   ∃ msg, CourseEnrollmentViewSet_bookmark user pk (Some p) db
          = (db, mkResponse (Detail msg) HTTP_400_BAD_REQUEST))
  ∧ (p ≠ 0 → p ≤ total_pages course → p ∈ bookmarked_pages enrollment →
     CourseEnrollmentViewSet_bookmark user pk (Some p) db
     = (db, mkResponse (Serialized enrollment) HTTP_200_OK))
  ∧ (p ≠ 0 → p ≤ total_pages course → p ∉ bookmarked_pages enrollment →
     enrollment_in_range db enrollment →
     let '(db1, r1) := CourseEnrollmentViewSet_bookmark user pk (Some p) db in
     let '(db2, r2) := CourseEnrollmentViewSet_bookmark user pk (Some p) db1 in
     status r2 = HTTP_200_OK ∧ db2 = db1
     ∧ (∃ row, enrollments db2 !! pk = Some row
          ∧ bookmarked_pages row = bookmarked_pages enrollment ++ [p]
          ∧ length (filter (λ x, x = p) (bookmarked_pages row)) = 1%nat)
     ∧ (column_range db p →
        status r1 = HTTP_200_OK
        ∧ progress_logs db2
          = progress_logs db
            ++ [mkUserProgressLog pk p "bookmark" 0 (JObj [("action", JStr "added")])])
     ∧ (¬ column_range db p →
        status r1 = HTTP_500_INTERNAL_SERVER_ERROR
        ∧ progress_logs db2 = progress_logs db)).
Proof.
  intros Hget Hcourse.
  split; [exact (bookmark_beyond_total user pk p db enrollment course Hget Hcourse)|].
  split; [exact (bookmark_again user pk p db enrollment course Hget Hcourse)|].
  intros Hp Hle Hin Hrange.
  pose proof (get_object_Some _ _ _ _ Hget) as (Hrow & Hid & Huser).
  set (enrollment' := set_bookmarked_pages (bookmarked_pages enrollment ++ [p]) enrollment).
  assert (length (filter (λ x, x = p) (bookmarked_pages enrollment')) = 1%nat) as Honce.
  { cbn. rewrite filter_app, (filter_eq_not_elem_of p _ Hin).
    by rewrite filter_cons_True. }
  assert (∀ db1, enrollments db1 = <[pk := enrollment']> (enrollments db) →
                 courses db1 = courses db →
                 CourseEnrollmentViewSet_bookmark user pk (Some p) db1
                 = (db1, mkResponse (Serialized enrollment') HTTP_200_OK)) as Hagain.
  { intros db1 Henr Hcourses.
    apply (bookmark_again user pk p db1 enrollment' course); try done.
    - unfold get_object. rewrite Henr, lookup_insert_eq.
      by rewrite bool_decide_eq_true_2 by (by cbn).
    - by rewrite Hcourses.
    - cbn. set_solver. }
  destruct (decide (column_range db p)) as [Hpage|Hpage].
  - rewrite (bookmark_new user pk p db enrollment course Hget Hcourse Hp Hle Hin Hrange
               Hpage).
    cbv zeta. rewrite Hagain by done. cbn.
    split; [done|]. split; [done|]. split.
    { exists enrollment'. by rewrite lookup_insert_eq. }
    split; [done|]. by intros ?.
  - destruct (bookmark_new_unlogged user pk p db enrollment course Hget Hcourse Hp Hle
                Hin Hrange Hpage) as [e ->].
    rewrite Hagain by done. cbn.
    split; [done|]. split; [done|]. split.
    { exists enrollment'. by rewrite lookup_insert_eq. }
    split; [by intros ?|done].
Qed.

Lemma bookmark_contract_witness :
  (∃ msg, CourseEnrollmentViewSet_bookmark 42 100 (Some 15) school
          = (school, mkResponse (Detail msg) HTTP_400_BAD_REQUEST))
  ∧ let '(db1, r1) := CourseEnrollmentViewSet_bookmark 42 100 (Some 4) school in
    let '(db2, r2) := CourseEnrollmentViewSet_bookmark 42 100 (Some 4) db1 in
    status r1 = HTTP_200_OK ∧ status r2 = HTTP_200_OK ∧ db2 = db1
    ∧ progress_logs db2
      = progress_logs school
        ++ [mkUserProgressLog 100 4 "bookmark" 0 (JObj [("action", JStr "added")])]
    ∧ ∃ row, enrollments db2 !! 100 = Some row
        ∧ bookmarked_pages row = bookmarked_pages enrollment_42 ++ [4]
        ∧ length (filter (λ x, x = 4) (bookmarked_pages row)) = 1%nat.
Proof.
  assert (get_object 42 100 school = Some enrollment_42) as Hget by reflexivity.
  assert (courses school !! e_course enrollment_42 = Some algebra) as Hc by reflexivity.
  split.
  - apply (bookmark_contract 42 100 15 school enrollment_42 algebra Hget Hc).
    cbn. lia.
  - assert (enrollment_in_range school enrollment_42) as Hrange
      by (unfold enrollment_in_range, column_range; vm_compute; intuition congruence).
    assert (column_range school 4) as Hpage
      by (unfold column_range; vm_compute; intuition congruence).
    pose proof (proj2 (proj2 (bookmark_contract 42 100 4 school enrollment_42 algebra
                                Hget Hc))) as H.
    assert (4 ≠ 0) as Hp by lia.
    assert (4 ≤ total_pages algebra) as Hle by (cbn; lia).
    assert (4 ∉ bookmarked_pages enrollment_42) as Hin by (cbn; apply not_elem_of_nil).
    specialize (H Hp Hle Hin Hrange).
    destruct (CourseEnrollmentViewSet_bookmark 42 100 (Some 4) school) as [db1 r1].
    destruct (CourseEnrollmentViewSet_bookmark 42 100 (Some 4) db1) as [db2 r2].
    destruct H as (H2 & Hsame & Hrow & Hlogged & _).
    destruct (Hlogged Hpage) as [H1 Hlogs]. done.
Defined.

(** ** Enrollment *)

(** Saving a course that has its primary key writes the instance, with
    the file metadata derived again, over its row and returns. *)
Lemma Course_save_existing pdfkit fresh (self : Course) (db : DB) (cid : Z) :
  pk self = Some cid →
  Course_save pdfkit fresh None self db
  = (with_courses (<[cid := detect_file_metadata self]> (courses db)) db,
     detect_file_metadata self, Ok ()).
Proof.
  intros Hpk. unfold Course_save, Course_save_fuel.
  rewrite bool_decide_eq_false_2 by (by rewrite Hpk). cbn.
  assert (pk (detect_file_metadata self) = Some cid) as Hpk'.
  { unfold detect_file_metadata. repeat case_match; done. }
  rewrite Hpk'. cbn.
  assert (set_pk (Some cid) (detect_file_metadata self) = detect_file_metadata self) as ->.
  { rewrite <- Hpk'. by destruct (detect_file_metadata self). }
  done.
Qed.

Lemma detect_file_metadata_keeps (self : Course) :
  pk (detect_file_metadata self) = pk self
  ∧ total_enrollments (detect_file_metadata self) = total_enrollments self
  ∧ is_public (detect_file_metadata self) = is_public self
  ∧ published_at (detect_file_metadata self) = published_at self
  ∧ course_file (detect_file_metadata self) = course_file self.
Proof. unfold detect_file_metadata. repeat case_match; done. Qed.

(** A queryset over a table that gained one row under a new key: when no
    old row matched and the new one does, it is the only match. *)
Lemma objects_filter_insert_first {A} (P : A → Prop) `{!∀ x, Decision (P x)}
    (table : gmap Z A) (k : Z) (x : A) :
  table !! k = None → objects_filter P table = [] → P x →
  objects_filter P (<[k := x]> table) = [x].
Proof.
  intros Hk Hnone Hx. unfold objects_filter in *.
  apply Permutation_singleton_r.
  rewrite (map_to_list_insert table k x Hk), fmap_cons.
  by rewrite filter_cons_True, Hnone.
Qed.

Section enroll_user.
Variable pdfkit : FieldFile → option (Z * option Z).
Variables (new_id now user cid : Z) (self : Course) (db : DB).
Hypothesis Hpk : pk self = Some cid.

(** Already enrolled: the row is returned, nothing is written. *)
Lemma enroll_user_existing (enrollment : CourseEnrollment) :
  objects_filter (λ e, e_user e = user ∧ e_course e = cid) (enrollments db)
  = [enrollment] →
  Course_enroll_user pdfkit new_id now user self db = (db, self, Ok enrollment).
Proof. intros Hq. unfold Course_enroll_user. by rewrite Hpk, Hq. Qed.

(** Not enrolled: a row is created and the counter goes up by one, on
    the instance and in the course row. *)
Lemma enroll_user_created :
  objects_filter (λ e, e_user e = user ∧ e_course e = cid) (enrollments db) = [] →
  enrollments db !! new_id = None →
  let enrollment := mkCourseEnrollment new_id user cid now None 1 None 0 0 [] [] in
  let '(db1, self1, r1) := Course_enroll_user pdfkit new_id now user self db in
  r1 = Ok enrollment
  ∧ enrollments db1 = <[new_id := enrollment]> (enrollments db)
  ∧ pk self1 = Some cid
  ∧ total_enrollments self1 = total_enrollments self + 1
  ∧ courses db1 !! cid = Some self1.
Proof.
  intros Hq Hfresh. cbv zeta. unfold Course_enroll_user. rewrite Hpk, Hq. cbn.
  rewrite Hfresh.
  rewrite CourseEnrollment_save_in_range by apply new_enrollment_in_range.
  rewrite (Course_save_existing _ _ _ _ cid) by done.
  pose proof (detect_file_metadata_keeps
                (set_total_enrollments (total_enrollments self + 1) self))
    as (Hpk' & Hte & _).
  split; [done|]. split.
  { unfold update_course_enrollment_count. cbn.
    by case_bool_decide. }
  split; [by rewrite Hpk'|]. split; [by rewrite Hte|].
  cbn. by rewrite lookup_insert_eq.
Qed.
End enroll_user.

(** C2: calling [enroll_user] twice for one (user, course) pair, from a
    table that respects [unique_together = ['user', 'course']], returns
    the same enrollment both times, leaves exactly one row for the pair,
    and raises [total_enrollments] by one when the first call created
    the row and not at all otherwise; the second call writes nothing. *)
Theorem enroll_user_idempotent (pdfkit : FieldFile → option (Z * option Z))
    (new_id1 now1 new_id2 now2 user cid : Z) (self : Course) (db : DB) :
  pk self = Some cid →
  (length (objects_filter (λ e, e_user e = user ∧ e_course e = cid)
                          (enrollments db)) ≤ 1)%nat →
  enrollments db !! new_id1 = None →
  let '(db1, self1, r1) := Course_enroll_user pdfkit new_id1 now1 user self db in
  let '(db2, self2, r2) := Course_enroll_user pdfkit new_id2 now2 user self1 db1 in
  ∃ enrollment,
    r1 = Ok enrollment ∧ r2 = Ok enrollment
    ∧ objects_filter (λ e, e_user e = user ∧ e_course e = cid) (enrollments db2)
      = [enrollment]
    ∧ db2 = db1 ∧ self2 = self1
    ∧ match objects_filter (λ e, e_user e = user ∧ e_course e = cid)
                           (enrollments db) with
      | [] =>
          total_enrollments self2 = total_enrollments self + 1
          ∧ total_enrollments <$> courses db2 !! cid = Some (total_enrollments self + 1)
      | _ :: _ => total_enrollments self2 = total_enrollments self ∧ db2 = db
      end.
Proof.
  intros Hpk Huniq Hfresh.
  destruct (objects_filter _ (enrollments db)) as [|e [|e' rest]] eqn:Hq;
    [| |cbn in Huniq; lia].
  - pose proof (enroll_user_created pdfkit new_id1 now1 user cid self db Hpk Hq Hfresh)
      as Hfirst.
    cbv zeta in Hfirst.
    destruct (Course_enroll_user pdfkit new_id1 now1 user self db) as [[db1 self1] r1].
    destruct Hfirst as (-> & Henr & Hpk1 & Htotal & Hrow).
    assert (objects_filter (λ e, e_user e = user ∧ e_course e = cid) (enrollments db1)
            = [mkCourseEnrollment new_id1 user cid now1 None 1 None 0 0 [] []]) as Hq1.
    { rewrite Henr. by apply objects_filter_insert_first. }
    rewrite (enroll_user_existing pdfkit new_id2 now2 user cid self1 db1 Hpk1 _ Hq1).
    eexists. repeat split; try done. by rewrite Hrow; cbn; rewrite Htotal.
  - rewrite (enroll_user_existing pdfkit new_id1 now1 user cid self db Hpk e Hq).
    rewrite (enroll_user_existing pdfkit new_id2 now2 user cid self db Hpk e Hq).
    exists e. by rewrite Hq.
Qed.

Lemma enroll_user_idempotent_witness :
  let '(db1, self1, r1) := Course_enroll_user no_pdfkit 101 9 43 algebra school in
  let '(db2, self2, r2) := Course_enroll_user no_pdfkit 102 10 43 self1 db1 in
  ∃ enrollment,
    r1 = Ok enrollment ∧ r2 = Ok enrollment
    ∧ objects_filter (λ e, e_user e = 43 ∧ e_course e = 1) (enrollments db2)
      = [enrollment]
    ∧ total_enrollments self2 = 2
    ∧ total_enrollments <$> courses db2 !! 1 = Some 2.
Proof.
  assert (length (objects_filter (λ e, e_user e = 43%Z ∧ e_course e = 1%Z)
                                 (enrollments school)) ≤ 1)%nat as Huniq
    by (vm_compute; lia).
  pose proof (enroll_user_idempotent no_pdfkit 101 9 102 10 43 1 algebra school
                eq_refl Huniq eq_refl) as H.
  destruct (Course_enroll_user no_pdfkit 101 9 43 algebra school) as [[db1 self1] r1].
  destruct (Course_enroll_user no_pdfkit 102 10 43 self1 db1) as [[db2 self2] r2].
  destruct H as (enrollment & H1 & H2 & Hrows & _ & _ & Hcount).
  change (objects_filter (λ e, e_user e = 43 ∧ e_course e = 1) (enrollments school))
    with (@nil CourseEnrollment) in Hcount.
  destruct Hcount as [Hself Hrow].
  exists enrollment. repeat split; done.
Defined.

(** ** Denormalised counters *)

(** Saving a lesson recounts: the course row then holds the number of
    lesson rows of the course. *)
Lemma Lesson_save_recounts (self : Lesson) (db : DB) (course : Course) :
  courses db !! l_course self = Some course →
  let db' := Lesson_save self db in
  total_lessons <$> courses db' !! l_course self
  = Some (queryset_count (lessons_of_course (l_course self) db')).
Proof.
  intros Hc. cbn. rewrite lookup_alter_eq, Hc. done.
Qed.

(** Deleting a lesson writes no course row. *)
Lemma Lesson_delete_keeps_courses (self : Lesson) (db : DB) :
  courses (Lesson_delete self db) = courses db.
Proof. done. Qed.

(** C5, as the code runs: after the lesson is created the counter of the
    course is 1, the number of its lesson rows; after the lesson is
    deleted the course has no lesson row and the counter is still 1. *)
Theorem lesson_delete_leaves_total_lessons :
  let db1 := Lesson_save introduction school in
  let db2 := Lesson_delete introduction db1 in
  queryset_count (lessons_of_course 1 db1) = 1
  ∧ total_lessons <$> courses db1 !! 1 = Some 1
  ∧ queryset_count (lessons_of_course 1 db2) = 0
  ∧ total_lessons <$> courses db2 !! 1 = Some 1.
Proof. vm_compute. done. Qed.




(** ** Publication *)

Lemma Model_save_keeps_instance fresh update_fields (self : Course) (db : DB) :
  let out := Model_save fresh update_fields self db in
  out.1.2 = set_pk (pk out.1.2) self.
Proof.
  unfold Model_save. repeat case_match; cbn; by destruct self.
Qed.

Lemma convert_docx_to_pdf_keeps_published_at pdfkit (docx_file : FieldFile)
    (self converted : Course) :
  convert_docx_to_pdf pdfkit docx_file self = Ok converted →
  published_at converted = published_at self ∧ is_public converted = is_public self.
Proof.
  unfold convert_docx_to_pdf. repeat case_match; try done. by intros [= <-].
Qed.

(** [Course.save] assigns neither [is_public] nor [published_at]. *)
Lemma Course_save_fuel_keeps_published_at pdfkit fresh fuel :
  ∀ update_fields (self : Course) (db : DB),
    let out := Course_save_fuel fuel pdfkit fresh update_fields self db in
    published_at out.1.2 = published_at self ∧ is_public out.1.2 = is_public self.
Proof.
  induction fuel as [|fuel IH]; intros update_fields self db; [done|].
  cbn -[Model_save].
  pose proof (detect_file_metadata_keeps self) as (_ & _ & Hpub & Hat & _).
  pose proof (Model_save_keeps_instance fresh update_fields (detect_file_metadata self) db)
    as Hsaved.
  cbv zeta in Hsaved.
  destruct (Model_save fresh update_fields (detect_file_metadata self) db)
    as [[db1 self1] [[]|e]]; cbn in Hsaved |- *;
    [|by rewrite Hsaved; cbn].
  assert (published_at self1 = published_at self ∧ is_public self1 = is_public self)
    as [Hat1 Hpub1] by (by rewrite Hsaved; cbn).
  destruct (bool_decide (pk self = None)); cbn; [|done].
  destruct (course_file self) as [original|]; cbn; [|done].
  destruct (is_docx_ext (f_ext original)); cbn; [|done].
  assert (∃ db2 self2 tried,
            match convert_docx_to_pdf pdfkit original self1 with
            | Ok self0 =>
                Course_save_fuel fuel pdfkit fresh
                  (Some [F_course_file; F_file_size; F_file_type; F_total_pages])
                  (set_total_pages (get_pdf_page_count self0) self0) db1
            | Raise e => (db1, self1, Raise e)
            end = (db2, self2, tried)
            ∧ published_at self2 = published_at self ∧ is_public self2 = is_public self)
    as (db2 & self2 & tried & -> & Hat2 & Hpub2).
  { destruct (convert_docx_to_pdf pdfkit original self1) as [converted|e] eqn:Hconv;
      [|by exists db1, self1, (Raise e)].
    apply convert_docx_to_pdf_keeps_published_at in Hconv as [Hat' Hpub'].
    match goal with
    | |- context [Course_save_fuel fuel pdfkit fresh ?uf ?s ?d] =>
        pose proof (IH uf s d) as [IH1 IH2]; cbv zeta in IH1, IH2;
        destruct (Course_save_fuel fuel pdfkit fresh uf s d) as [[db2 self2] tried]
    end.
    exists db2, self2, tried. cbn in IH1, IH2. rewrite IH1, IH2. by rewrite Hat', Hpub'. }
  destruct tried as [[]|e]; cbn.
  - pose proof (Model_save_keeps_instance fresh update_fields self2 db2) as Hlast.
    cbv zeta in Hlast.
    destruct (Model_save fresh update_fields self2 db2) as [[db3 self3] r3].
    cbn in Hlast |- *. by rewrite Hlast.
  - match goal with
    | |- context [Course_save_fuel fuel pdfkit fresh ?uf ?s ?d] =>
        pose proof (IH uf s d) as [IH1 IH2]; cbv zeta in IH1, IH2;
        destruct (Course_save_fuel fuel pdfkit fresh uf s d) as [[db3 self3] [[]|e3]]
    end; cbn in IH1, IH2 |- *; [|by rewrite IH1, IH2].
    pose proof (Model_save_keeps_instance fresh update_fields self3 db3) as Hlast.
    cbv zeta in Hlast.
    destruct (Model_save fresh update_fields self3 db3) as [[db4 self4] r4].
    cbn in Hlast |- *. by rewrite Hlast; cbn; rewrite IH1, IH2.
Qed.

(** An update through the API sets [is_public] as requested and leaves
    [published_at] as it was, whatever the request says. *)
Lemma CourseSerializer_update_published_at pdfkit fresh
    (data : CourseUpdateData) (instance : Course) (db : DB) :
  let out := CourseSerializer_update pdfkit fresh data instance db in
  published_at out.1.2 = published_at instance
  ∧ is_public out.1.2 = default (is_public instance) (u_is_public data).
Proof.
  unfold CourseSerializer_update, Course_save.
  match goal with
  | |- context [Course_save_fuel 2 pdfkit fresh None ?s db] =>
      pose proof (Course_save_fuel_keeps_published_at pdfkit fresh 2 None s db) as [H1 H2]
  end.
  cbv zeta in *. rewrite H1, H2.
  destruct data as [[] [] [] [] [] [] ?]; done.
Qed.

(** C7, as the code runs. Through the API ([CourseSerializer.update],
    then [Course.save]) a private course made public is saved with
    [published_at] still unset, and a published course made private is
    saved with [published_at] still set. [CourseAdmin.save_model] is
    written to set and clear the time; as the admin module runs, the
    save of the course made public raises there and nothing is saved,
    and only the course made private is saved with the time cleared. *)
Theorem api_update_leaves_published_at :
  (let '(db', course, r) :=
     CourseSerializer_update no_pdfkit 1
       (mkCourseUpdateData None None None (Some true) None None (Some (Some 9)))
       algebra school in
   r = Ok () ∧ courses db' !! 1 = Some course
   ∧ is_public course = true ∧ published_at course = None)
  ∧ (let '(db', course, r) :=
       CourseSerializer_update no_pdfkit 1
         (mkCourseUpdateData None None None (Some false) None None None)
         algebra_published (with_courses {[1 := algebra_published]} school) in
     r = Ok () ∧ courses db' !! 1 = Some course
     ∧ is_public course = false ∧ published_at course = Some 5)
  ∧ CourseAdmin_save_model no_pdfkit 1 (set_is_public true algebra) school
    = (school, set_is_public true algebra, Raise AttributeError)
  ∧ (let '(db', course, r) :=
       CourseAdmin_save_model no_pdfkit 1 (set_is_public false algebra_published)
         (with_courses {[1 := algebra_published]} school) in
     r = Ok () ∧ courses db' !! 1 = Some course
     ∧ is_public course = false ∧ published_at course = None).
Proof. vm_compute. done. Qed.

(** ** Document ingestion *)

(** A save of an instance that has its primary key is the file metadata
    block followed by the inherited save: no conversion, no nested call. *)
Lemma Course_save_fuel_with_pk pdfkit fresh fuel update_fields
    (self : Course) (db : DB) (k : Z) :
  pk self = Some k →
  Course_save_fuel (S fuel) pdfkit fresh update_fields self db
  = Model_save fresh update_fields (detect_file_metadata self) db.
Proof.
  intros Hpk. cbn -[Model_save].
  rewrite bool_decide_eq_false_2 by (by rewrite Hpk).
  by destruct (Model_save _ _ _ _) as [[db1 self1] [[]|e]].
Qed.

Lemma Model_save_Ok_pk fresh update_fields (self self' : Course) (db db' : DB) u :
  Model_save fresh update_fields self db = (db', self', Ok u) →
  ∃ k, pk self' = Some k.
Proof.
  unfold Model_save. repeat case_match; intros [= <- <-]; by eauto.
Qed.

Lemma Model_save_keeps_pk fresh update_fields (self : Course) (db : DB) (k : Z) :
  pk self = Some k →
  pk (Model_save fresh update_fields self db).1.2 = Some k.
Proof.
  intros Hk. unfold Model_save. rewrite Hk. repeat case_match; done.
Qed.

(** Two levels of nesting are enough: more fuel changes nothing, and
    [RecursionError] is never the outcome of [Course_save]. *)
Lemma Course_save_fuel_enough pdfkit fresh fuel update_fields (self : Course) (db : DB) :
  Course_save_fuel (S (S fuel)) pdfkit fresh update_fields self db
  = Course_save pdfkit fresh update_fields self db.
Proof.
  unfold Course_save.
  remember (S fuel) as n eqn:Hn. remember 1%nat as one eqn:Hone.
  cbn -[Model_save].
  destruct (Model_save fresh update_fields (detect_file_metadata self) db)
    as [[db1 self1] [u|e]] eqn:Hsave; [|done].
  apply Model_save_Ok_pk in Hsave as [k Hk].
  destruct (bool_decide (pk self = None)); [|done].
  destruct (course_file self) as [original|]; [|done].
  cbn. destruct (is_docx_ext (f_ext original)); [|done].
  destruct (convert_docx_to_pdf pdfkit original self1) as [converted|e] eqn:Hconv.
  - assert (pk converted = Some k) as Hk'.
    { revert Hconv. unfold convert_docx_to_pdf.
      repeat case_match; try done. by intros [= <-]. }
    subst n one.
    rewrite !(Course_save_fuel_with_pk _ _ _ _ _ _ k) by done.
    destruct (Model_save _ _ _ _) as [[db2 self2] [u2|e2]] eqn:Hsave2; [done|].
    assert (pk self2 = Some k) as Hk2.
    { pose proof (Model_save_keeps_pk fresh
                    (Some [F_course_file; F_file_size; F_file_type; F_total_pages])
                    (detect_file_metadata
                       (set_total_pages (get_pdf_page_count converted) converted))
                    db1 k) as Hkeep.
      cbv zeta in Hkeep. rewrite Hsave2 in Hkeep. apply Hkeep.
      by rewrite (proj1 (detect_file_metadata_keeps _)). }
    by rewrite !(Course_save_fuel_with_pk _ _ _ _ _ _ k).
  - subst n one. by rewrite !(Course_save_fuel_with_pk _ _ _ _ _ _ k).
Qed.

(** What [Course.save] does with an instance without primary key that
    carries a DOCX whose conversion raises: the instance is inserted,
    the fallback metadata is written by the nested save, which derives
    [file_type] from the extension once more, and the instance is saved
    again. *)
Lemma Course_save_failed_conversion pdfkit fresh (self : Course) (db : DB)
    (original : FieldFile) :
  pk self = None →
  course_file self = Some original →
  is_docx_ext (f_ext original) = true →
  (∀ instance, ∃ e, convert_docx_to_pdf pdfkit original instance = Raise e) →
  let saved :=
    set_total_pages
      (match f_docx_paragraphs original with
       | Some total_paragraphs => Z.max 1 (total_paragraphs / 10)
       | None => 0
       end)
      (set_pk (Some fresh)
         (set_file_size (f_size original) (set_file_type "pdf" self))) in
  Course_save pdfkit fresh None self db
  = (with_courses (<[fresh := saved]> (courses db)) db, saved, Ok ()).
Proof.
  intros Hpk Hfile Hdocx Hraise. unfold Course_save.
  remember 1%nat as one eqn:Hone. cbn -[Model_save].
  assert (detect_file_metadata self
          = set_file_size (f_size original) (set_file_type "pdf" self)) as ->.
  { unfold detect_file_metadata. rewrite Hfile, Hdocx.
    rewrite bool_decide_eq_false_2; [done|].
    intros Hext. by rewrite Hext in Hdocx. }
  rewrite Hpk, Hfile. cbn. rewrite Hdocx. cbn. rewrite ?Hpk. cbn.
  destruct (Hraise (set_pk (Some fresh)
                      (set_file_size (f_size original) (set_file_type "pdf" self))))
    as [e ->].
  subst one. rewrite (Course_save_fuel_with_pk _ _ _ _ _ _ fresh) by done.
  unfold detect_file_metadata, get_docx_page_count. cbn. rewrite Hfile, Hdocx.
  rewrite bool_decide_eq_false_2 by (intros Hext; by rewrite Hext in Hdocx).
  cbn. rewrite lookup_insert_eq. cbn. rewrite !insert_insert_eq.
  destruct self; cbn in *; subst; done.
Qed.

(** C8, as the code runs: a readable Word file of 57 paragraphs is
    uploaded through the API where no renderer is installed, so that any
    conversion would raise. The creation succeeds and the row keeps the
    uploaded file, but neither the conversion nor the fallback runs,
    because the instance has its UUID before [save] is called and
    [is_new] is false: [file_type] is ['pdf'], not ['docx'], and
    [total_pages] is 0, where the estimate [max(1, 57 // 10)] of the
    fallback is 5. *)
Theorem docx_upload_skips_fallback :
  let '(db', r) :=
    CourseSerializer_create no_pdfkit 2 7
      (mkCourseCreateData "Notes" None (Some notes_docx) None None None) school in
  ∃ course,
    r = Returned course
    ∧ courses db' !! 2 = Some course
    ∧ course_file course = Some notes_docx
    ∧ (∃ e, convert_docx_to_pdf no_pdfkit notes_docx course = Raise e)
    ∧ file_type course = "pdf"
    ∧ total_pages course = 0
    ∧ get_docx_page_count course = 5.
Proof. vm_compute. eexists. repeat split; by eexists. Qed.

(** Were the fallback reached (by an instance without primary key,
    which no creation path of the application builds), it would assign
    ['docx'] to [file_type], but the nested
    [self.save(update_fields=['file_type', 'total_pages'])] runs the
    extension test again and stores ['pdf']. *)
Lemma docx_fallback_file_type pdfkit fresh (self : Course) (db : DB)
    (original : FieldFile) :
  pk self = None →
  course_file self = Some original →
  is_docx_ext (f_ext original) = true →
  (∀ instance, ∃ e, convert_docx_to_pdf pdfkit original instance = Raise e) →
  file_type (Course_save pdfkit fresh None self db).1.2 = "pdf".
Proof.
  intros Hpk Hfile Hdocx Hraise.
  by rewrite (Course_save_failed_conversion pdfkit fresh self db original).
Qed.

(** ** The bounds on pages_completed, in general *)

(** The lower bound is kept by every call. *)
Lemma update_progress_lower_bound (page_number time_spent now : Z)
    (self : CourseEnrollment) (db : DB) :
  0 ≤ pages_completed self →
  0 ≤ pages_completed
        (CourseEnrollment_update_progress page_number time_spent now self db).1.2.
Proof.
  intros H0.
  pose proof (update_progress_pages_completed page_number time_spent now self db) as Hpc.
  cbv zeta in Hpc. lia.
Qed.

(** The method itself has no upper bound: a page beyond [total_pages]
    that is also beyond [pages_completed] becomes [pages_completed]. *)
Lemma update_progress_no_upper_bound (page_number time_spent now : Z)
    (self : CourseEnrollment) (db : DB) (course : Course) :
  courses db !! e_course self = Some course →
  pages_completed self ≤ total_pages course →
  total_pages course < page_number →
  total_pages course
  < pages_completed
      (CourseEnrollment_update_progress page_number time_spent now self db).1.2.
Proof.
  intros _ Hle Hlt.
  pose proof (update_progress_pages_completed page_number time_spent now self db) as Hpc.
  cbv zeta in Hpc. lia.
Qed.

(** * Further properties *)

(** ** Resetting, leaving and annotating an enrollment *)

Lemma logs_of_enrollment_after_delete (eid other : Z) (db : DB) :
  logs_of_enrollment other (delete_logs_of_enrollment eid db)
  = if decide (other = eid) then [] else logs_of_enrollment other db.
Proof.
  unfold logs_of_enrollment, delete_logs_of_enrollment. cbn.
  induction (progress_logs db) as [|r l IH]; [by case_decide|].
  destruct (decide (log_enrollment r = eid)) as [Heq|Hne].
  - rewrite (filter_cons_False (λ r, log_enrollment r ≠ eid)) by (intros H; by apply H).
    rewrite IH. case_decide as Ho; [done|].
    by rewrite (filter_cons_False (λ r, log_enrollment r = other)) by congruence.
  - rewrite (filter_cons_True (λ r, log_enrollment r ≠ eid)) by done.
    destruct (decide (log_enrollment r = other)) as [Heq'|Hne'].
    + rewrite !(filter_cons_True (λ r, log_enrollment r = other)) by done.
      rewrite IH. case_decide; [congruence | done].
    + rewrite !(filter_cons_False (λ r, log_enrollment r = other)) by done.
      apply IH.
Qed.

(** X1: [reset_progress] on an enrollment the requester owns: the row is
    back to its initial progress (page 1, nothing completed or viewed, no
    lesson, bookmarks, notes or completion stamp), the enrollment's log
    is the single ['progress_reset'] row, its [time_spent] is 0, and the
    log rows of every other enrollment and all course rows are as
    before. *)
Theorem reset_progress_starts_over (user pk : Z) (reset_at : string) (db : DB)
    (enrollment : CourseEnrollment) :
  get_object user pk db = Some enrollment →
  let '(db', response) := CourseEnrollmentViewSet_reset_progress user pk reset_at db in
  let fresh_row :=
    mkCourseEnrollment pk user (e_course enrollment) (enrolled_at enrollment)
                       None 1 None 0 0 [] [] in
  response = mkResponse (Serialized fresh_row) HTTP_200_OK
  ∧ enrollments db' = <[pk := fresh_row]> (enrollments db)
  ∧ logs_of_enrollment pk db'
    = [mkUserProgressLog pk 1 "progress_reset" 0 (JObj [("reset_at", JStr reset_at)])]
  ∧ CourseEnrollment_time_spent fresh_row db' = 0
  ∧ (∀ other, other ≠ pk → logs_of_enrollment other db' = logs_of_enrollment other db)
  ∧ courses db' = courses db.
Proof.
  intros Hget. unfold CourseEnrollmentViewSet_reset_progress. rewrite Hget.
  apply get_object_Some in Hget as (Hrow & Hid & Huser). cbn.
  rewrite CourseEnrollment_save_existing;
    [|cbn; by rewrite Hid, Hrow
     |split; [|split]; apply column_range_safe; cbn; lia].
  rewrite UserProgressLog_objects_create_in_range
    by (apply column_range_safe; cbn; lia).
  destruct enrollment; cbn in *; subst.
  pose proof (logs_of_enrollment_after_delete pk pk db) as Hown.
  rewrite decide_True in Hown by done.
  unfold logs_of_enrollment, delete_logs_of_enrollment in Hown. cbn in Hown.
  assert (∀ other,
            filter (λ r, log_enrollment r = other)
              (filter (λ r, log_enrollment r ≠ pk) (progress_logs db)
               ++ [mkUserProgressLog pk 1 "progress_reset" 0
                     (JObj [("reset_at", JStr reset_at)])])
            = (if decide (other = pk) then [] else logs_of_enrollment other db)
              ++ (if decide (other = pk)
                  then [mkUserProgressLog pk 1 "progress_reset" 0
                          (JObj [("reset_at", JStr reset_at)])]
                  else [])) as Hlogs.
  { intros other. rewrite filter_app.
    pose proof (logs_of_enrollment_after_delete pk other db) as Ho.
    unfold logs_of_enrollment at 1, delete_logs_of_enrollment in Ho. cbn in Ho.
    rewrite Ho. f_equal. case_decide as Hd.
    - subst other. by rewrite filter_cons_True by done.
    - by rewrite filter_cons_False by (intros Heq; cbn in Heq; congruence). }
  repeat split; try done.
  - unfold logs_of_enrollment. cbn. rewrite Hlogs. by rewrite !decide_True by done.
  - unfold CourseEnrollment_time_spent, logs_of_enrollment. cbn.
    rewrite Hlogs. by rewrite !decide_True by done.
  - intros other Hne. unfold logs_of_enrollment at 1. cbn. rewrite Hlogs.
    rewrite !decide_False by done. by rewrite app_nil_r.
Qed.

Lemma reset_progress_starts_over_witness :
  let db1 :=
    (CourseEnrollmentViewSet_update_progress 42 100
       (mkProgressUpdateData (Some 10) (Some 30) None None) 77 school).1 in
  let '(db2, response) := CourseEnrollmentViewSet_reset_progress 42 100 "t" db1 in
  status response = HTTP_200_OK
  ∧ completed_at <$> enrollments db2 !! 100 = Some None
  ∧ logs_of_enrollment 100 db2
    = [mkUserProgressLog 100 1 "progress_reset" 0 (JObj [("reset_at", JStr "t")])].
Proof.
  intros db1.
  assert (get_object 42 100 db1
          = Some (mkCourseEnrollment 100 42 1 0 (Some 77) 10 None 10 1 [] [])) as Hget
    by (by vm_compute).
  pose proof (reset_progress_starts_over 42 100 "t" db1 _ Hget) as H.
  destruct (CourseEnrollmentViewSet_reset_progress 42 100 "t" db1) as [db2 response].
  cbv zeta in H. destruct H as (-> & Henr & Hlogs & _).
  split; [done|]. split; [by rewrite Henr, lookup_insert_eq | exact Hlogs].
Defined.

(** X2: [unenroll] on an enrollment the requester owns, whose course row is
    present: the enrollment row and its log rows are gone, other log
    rows stay, and the course row's [total_enrollments] is the stored
    counter minus one, never below 0; a second call finds nothing, answers
    404 and leaves the counter alone. *)
Theorem unenroll_removes_and_decrements (pdfkit : FieldFile → option (Z * option Z))
    (user eid : Z) (db : DB) (enrollment : CourseEnrollment) (course : Course) :
  get_object user eid db = Some enrollment →
  courses db !! e_course enrollment = Some course →
  pk course = Some (e_course enrollment) →
  let '(db', response) := CourseEnrollmentViewSet_unenroll pdfkit user eid db in
  status response = HTTP_200_OK
  ∧ enrollments db' = delete eid (enrollments db)
  ∧ logs_of_enrollment eid db' = []
  ∧ (∀ other, other ≠ eid → logs_of_enrollment other db' = logs_of_enrollment other db)
  ∧ total_enrollments <$> courses db' !! e_course enrollment
    = Some (Z.max 0 (total_enrollments course - 1))
  ∧ CourseEnrollmentViewSet_unenroll pdfkit user eid db'
    = (db', mkResponse (Detail "Not found.") HTTP_404_NOT_FOUND).
Proof.
  intros Hget Hcourse Hpk. unfold CourseEnrollmentViewSet_unenroll at 1.
  rewrite Hget, Hcourse.
  apply get_object_Some in Hget as (Hrow & Hid & Huser).
  rewrite (Course_save_existing _ _ _ _ (e_course enrollment)) by done.
  cbn. rewrite Hid.
  pose proof (detect_file_metadata_keeps
                (set_total_enrollments (Z.max 0 (total_enrollments course - 1)) course))
    as (_ & Hte & _).
  repeat split; try done.
  - pose proof (logs_of_enrollment_after_delete eid eid db) as H.
    by rewrite decide_True in H by done.
  - intros other Hne.
    pose proof (logs_of_enrollment_after_delete eid other db) as H.
    by rewrite decide_False in H by done.
  - by rewrite lookup_insert_eq; cbn; rewrite Hte.
  - unfold CourseEnrollmentViewSet_unenroll, get_object. cbn.
    by rewrite Hid, lookup_delete_eq.
Qed.

Lemma unenroll_removes_and_decrements_witness :
  let '(db', response) := CourseEnrollmentViewSet_unenroll no_pdfkit 42 100 school in
  status response = HTTP_200_OK
  ∧ enrollments db' = delete 100 (enrollments school)
  ∧ total_enrollments <$> courses db' !! 1 = Some 0.
Proof.
  pose proof (unenroll_removes_and_decrements no_pdfkit 42 100 school enrollment_42
                algebra eq_refl eq_refl eq_refl) as H.
  destruct (CourseEnrollmentViewSet_unenroll no_pdfkit 42 100 school) as [db' response].
  destruct H as (Hs & Henr & _ & _ & Hcount & _).
  split; [exact Hs|]. split; [exact Henr | exact Hcount].
Defined.

Lemma dict_get_setitem (key key' value : string) (d : list (string * string)) :
  dict_get key' (dict_setitem key value d)
  = if decide (key' = key) then Some value else dict_get key' d.
Proof.
  induction d as [|[k v] d IH]; cbn.
  - repeat case_decide; congruence.
  - destruct (decide (k = key)) as [->|Hne]; cbn.
    + repeat case_decide; congruence.
    + rewrite IH. repeat case_decide; congruence.
Qed.

Lemma dict_setitem_keys (key value : string) (d : list (string * string)) :
  (dict_setitem key value d).*1
  = if decide (key ∈ d.*1) then d.*1 else d.*1 ++ [key].
Proof.
  induction d as [|[k v] d IH]; cbn.
  - by rewrite decide_False by apply not_elem_of_nil.
  - destruct (decide (k = key)) as [->|Hne]; cbn.
    + by rewrite decide_True by left.
    + rewrite IH. destruct (decide (key ∈ d.*1)) as [Hin|Hout].
      * by rewrite decide_True by (by right).
      * by rewrite decide_False by (intros [?|?]%elem_of_cons; congruence).
Qed.

(** X3: [add_note] with a non-zero page and a non-empty note, on an
    enrollment the requester owns whose columns are in range: the note
    is stored under the decimal numeral of the page, replacing an
    earlier note of that page and leaving the notes of all other pages
    as they were, and keys stay distinct. When the log can hold the page
    the answer is 200 and one ['note_added'] row with the length of the
    note in characters (not its text) is logged; for a page it cannot
    hold (a negative one) the note is stored all the same, the log
    insert raises and no row is logged. No comparison with
    [total_pages] is made. *)
Theorem add_note_upserts (user pk p : Z) (text : string) (db : DB)
    (enrollment : CourseEnrollment) :
  get_object user pk db = Some enrollment →
  p ≠ 0 → text ≠ "" →
  enrollment_in_range db enrollment →
  let '(db', response) :=
    CourseEnrollmentViewSet_add_note user pk (Some p) (Some text) db in
  (∃ row,
     enrollments db' !! pk = Some row
     ∧ dict_get (pretty p) (notes row) = Some text
     ∧ (∀ q, q ≠ p →
          dict_get (pretty q) (notes row) = dict_get (pretty q) (notes enrollment))
     ∧ (NoDup (notes enrollment).*1 → NoDup (notes row).*1)
     ∧ bookmarked_pages row = bookmarked_pages enrollment
     ∧ pages_completed row = pages_completed enrollment)
  ∧ (column_range db p →
     status response = HTTP_200_OK
     ∧ progress_logs db'
       = progress_logs db
         ++ [mkUserProgressLog pk p "note_added" 0 (JObj [("length", JInt (len text))])])
  ∧ (¬ column_range db p →
     status response = HTTP_500_INTERNAL_SERVER_ERROR
     ∧ progress_logs db' = progress_logs db).
Proof.
  intros Hget Hp Htext Hrange. unfold CourseEnrollmentViewSet_add_note. rewrite Hget.
  apply get_object_Some in Hget as (Hrow & Hid & Huser).
  rewrite !bool_decide_eq_false_2 by done. cbn [orb].
  rewrite CourseEnrollment_save_existing by (done || (cbn; by rewrite Hid, Hrow)).
  assert (∃ row,
            <[e_id enrollment :=
                set_notes (dict_setitem (pretty p) text (notes enrollment)) enrollment]>
              (enrollments db) !! pk = Some row
            ∧ dict_get (pretty p) (notes row) = Some text
            ∧ (∀ q, q ≠ p →
                 dict_get (pretty q) (notes row) = dict_get (pretty q) (notes enrollment))
            ∧ (NoDup (notes enrollment).*1 → NoDup (notes row).*1)
            ∧ bookmarked_pages row = bookmarked_pages enrollment
            ∧ pages_completed row = pages_completed enrollment) as Hstored.
  { eexists. split; [by rewrite Hid, lookup_insert_eq|]. cbn.
    split; [by rewrite dict_get_setitem, decide_True|].
    split.
    { intros q Hq. rewrite dict_get_setitem.
      by rewrite decide_False by (intros Heq; by apply (inj pretty) in Heq). }
    split; [|done].
    intros Hnodup. rewrite dict_setitem_keys. case_decide; [done|].
    apply NoDup_app. split; [done|]. split; [|apply NoDup_singleton].
    intros x Hx ->%list_elem_of_singleton. done. }
  match goal with |- context [UserProgressLog_objects_create ?r ?d] =>
    destruct (UserProgressLog_objects_create_cases r d)
      as [(Hpage & _ & ->)|[Hpage [e ->]]] end; cbn in Hpage |- *.
  - split; [done|]. split; [by rewrite Hid|]. by intros Hnot.
  - split; [done|]. split; [|done]. intros Hin. destruct Hpage.
    split; [done|]. apply column_range_safe. lia.
Qed.

Lemma add_note_upserts_witness :
  let '(db1, _) :=
    CourseEnrollmentViewSet_add_note 42 100 (Some 12) (Some "first") school in
  let '(db2, response) :=
    CourseEnrollmentViewSet_add_note 42 100 (Some 12) (Some "again") db1 in
  status response = HTTP_200_OK
  ∧ notes <$> enrollments db2 !! 100 = Some [("12", "again")].
Proof.
  destruct (CourseEnrollmentViewSet_add_note 42 100 (Some 12) (Some "first") school)
    as [db1 r1] eqn:E1.
  assert (db1 = (CourseEnrollmentViewSet_add_note 42 100 (Some 12) (Some "first")
                   school).1) as Hdb1 by (by rewrite E1).
  assert (get_object 42 100 db1
          = Some (set_notes [("12", "first")] enrollment_42)) as Hget
    by (rewrite Hdb1; by vm_compute).
  assert (12 ≠ 0) as Hp by lia.
  assert ("again" ≠ "") as Ht by done.
  assert (enrollment_in_range db1 (set_notes [("12", "first")] enrollment_42)) as Hrange
    by (rewrite Hdb1; unfold enrollment_in_range, column_range; vm_compute;
        intuition congruence).
  assert (column_range db1 12) as Hpage
    by (rewrite Hdb1; unfold column_range; vm_compute; intuition congruence).
  pose proof (add_note_upserts 42 100 12 "again" db1 _ Hget Hp Ht Hrange) as H.
  destruct (CourseEnrollmentViewSet_add_note 42 100 (Some 12) (Some "again") db1)
    as [db2 response] eqn:E2.
  destruct H as (_ & Hlogged & _). split; [exact (proj1 (Hlogged Hpage))|].
  replace db2 with
    (CourseEnrollmentViewSet_add_note 42 100 (Some 12) (Some "again") db1).1
    by (by rewrite E2).
  rewrite Hdb1. by vm_compute.
Defined.

(** X4: A missing or zero page, or a missing or empty note, is answered 400
    by [add_note] and nothing is written. *)
Theorem add_note_requires_page_and_note (user pk : Z) (page_number : option Z)
    (note : option string) (db : DB) (enrollment : CourseEnrollment) :
  get_object user pk db = Some enrollment →
  page_number = None ∨ page_number = Some 0 ∨ note = None ∨ note = Some "" →
  CourseEnrollmentViewSet_add_note user pk page_number note db
  = (db, mkResponse (Detail "page_number and note are required.") HTTP_400_BAD_REQUEST).
Proof.
  intros Hget Hbad. unfold CourseEnrollmentViewSet_add_note. rewrite Hget.
  destruct page_number as [p|], note as [t|]; try done.
  destruct Hbad as [?|[[= ->]|[?|[= ->]]]]; try done.
  by rewrite orb_true_r.
Qed.

Lemma add_note_requires_page_and_note_witness :
  CourseEnrollmentViewSet_add_note 42 100 (Some 3) (Some "") school
  = (school, mkResponse (Detail "page_number and note are required.")
               HTTP_400_BAD_REQUEST).
Proof.
  apply (add_note_requires_page_and_note 42 100 (Some 3) (Some "") school enrollment_42).
  - reflexivity.
  - right. right. right. reflexivity.
Defined.

(** X5: The enrollment actions are scoped to the requester's own rows: on an
    enrollment of another user (or on no enrollment) each of them
    answers 404 and writes nothing. *)
Theorem enrollment_actions_are_owner_only
    (pdfkit : FieldFile → option (Z * option Z)) (user pk now : Z)
    (request_data : ProgressUpdateData) (page_number : option Z)
    (note : option string) (reset_at : string) (db : DB) :
  (∀ e, enrollments db !! pk = Some e → e_user e ≠ user) →
  let not_found := (db, mkResponse (Detail "Not found.") HTTP_404_NOT_FOUND) in
  CourseEnrollmentViewSet_update_progress user pk request_data now db = not_found
  ∧ CourseEnrollmentViewSet_bookmark user pk page_number db = not_found
  ∧ CourseEnrollmentViewSet_add_note user pk page_number note db = not_found
  ∧ CourseEnrollmentViewSet_reset_progress user pk reset_at db = not_found
  ∧ CourseEnrollmentViewSet_unenroll pdfkit user pk db = not_found.
Proof.
  intros Hother.
  assert (get_object user pk db = None) as Hnone.
  { unfold get_object. destruct (enrollments db !! pk) as [e|] eqn:He; [|done].
    rewrite bool_decide_eq_false_2; [done|]. intros [_ Hu]. by apply (Hother e). }
  unfold CourseEnrollmentViewSet_update_progress, CourseEnrollmentViewSet_bookmark,
    CourseEnrollmentViewSet_add_note, CourseEnrollmentViewSet_reset_progress,
    CourseEnrollmentViewSet_unenroll.
  by rewrite Hnone.
Qed.

Lemma enrollment_actions_are_owner_only_witness :
  CourseEnrollmentViewSet_reset_progress 43 100 "t" school
  = (school, mkResponse (Detail "Not found.") HTTP_404_NOT_FOUND)
  ∧ CourseEnrollmentViewSet_unenroll no_pdfkit 43 100 school
    = (school, mkResponse (Detail "Not found.") HTTP_404_NOT_FOUND).
Proof.
  assert (∀ e, enrollments school !! 100 = Some e → e_user e ≠ 43) as Hother.
  { intros e He. vm_compute in He. injection He as <-. cbn. lia. }
  pose proof (enrollment_actions_are_owner_only no_pdfkit 43 100 0
                (mkProgressUpdateData None None None None) None None "t" school Hother)
    as (_ & _ & _ & Hreset & Hleave).
  split; [exact Hreset | exact Hleave].
Defined.

(** ** Querysets over tables *)

Lemma elem_of_objects_filter {A} (P : A → Prop) `{!∀ x, Decision (P x)}
    (table : gmap Z A) (x : A) :
  x ∈ objects_filter P table ↔ P x ∧ ∃ k, table !! k = Some x.
Proof.
  unfold objects_filter. rewrite list_elem_of_filter, list_elem_of_fmap.
  split.
  - intros [HP ([k y] & -> & Hin)]. split; [done|].
    exists k. by apply elem_of_map_to_list.
  - intros [HP [k Hk]]. split; [done|].
    exists (k, x). split; [done|]. by apply elem_of_map_to_list.
Qed.

Lemma objects_filter_nil {A} (P : A → Prop) `{!∀ x, Decision (P x)}
    (table : gmap Z A) :
  objects_filter P table = [] ↔ ∀ k x, table !! k = Some x → ¬ P x.
Proof.
  split.
  - intros Hnil k x Hk HP.
    assert (x ∈ objects_filter P table) as Hin
      by (apply elem_of_objects_filter; eauto).
    rewrite Hnil in Hin. by apply not_elem_of_nil in Hin.
  - intros Hnone. destruct (objects_filter P table) as [|x l] eqn:Hq; [done|].
    assert (x ∈ objects_filter P table) as Hin by (rewrite Hq; left).
    apply elem_of_objects_filter in Hin as [HP [k Hk]]. by destruct (Hnone k x).
Qed.

Lemma objects_filter_insert_length {A} (P : A → Prop) `{!∀ x, Decision (P x)}
    (table : gmap Z A) (k : Z) (x : A) :
  table !! k = None → P x →
  length (objects_filter P (<[k := x]> table))
  = S (length (objects_filter P table)).
Proof.
  intros Hk Hx. unfold objects_filter.
  rewrite (map_to_list_insert table k x Hk), fmap_cons.
  by rewrite filter_cons_True.
Qed.

Lemma objects_filter_overwrite {A} (P : A → Prop) `{!∀ x, Decision (P x)}
    (table : gmap Z A) (k : Z) (x x' : A) :
  table !! k = Some x → objects_filter P table = [x] → P x' →
  objects_filter P (<[k := x']> table) = [x'].
Proof.
  intros Hk Hq Hx'.
  assert (P x) as Hx.
  { assert (x ∈ objects_filter P table) as Hin by (rewrite Hq; left).
    by apply elem_of_objects_filter in Hin as [? _]. }
  unfold objects_filter in *.
  assert (filter P (map_to_list (delete k table)).*2 = []) as Hrest.
  { pose proof (map_to_list_delete table k x Hk) as Hperm.
    assert (filter P ((k, x) :: map_to_list (delete k table)).*2 ≡ₚ [x]) as Hp
      by (by rewrite Hperm, Hq).
    rewrite fmap_cons, filter_cons_True in Hp by done.
    apply Permutation_length in Hp. cbn in Hp.
    destruct (filter P (map_to_list (delete k table)).*2) as [|y l];
      [done | cbn in Hp; lia]. }
  apply Permutation_singleton_r.
  rewrite <- insert_delete_eq.
  rewrite (map_to_list_insert (delete k table) k x') by apply lookup_delete_eq.
  by rewrite fmap_cons, filter_cons_True, Hrest.
Qed.

(** ** Accounts *)

Lemma create_user_Ok (normalize_email : string → string)
    (make_password : option string → string) (new_id : Z) (email_ username_ : string)
    (password_ : option string) (extra_fields : ExtraFields)
    (users users' : gmap Z User) (user : User) :
  CustomUserManager_create_user normalize_email make_password new_id email_ username_
    password_ extra_fields users
  = (users', Ok user) →
  user = mkUser new_id username_ (normalize_email email_) (make_password password_)
           (default "" (x_first_name extra_fields))
           (default "" (x_last_name extra_fields))
           (default false (x_is_staff extra_fields))
           (default true (x_is_active extra_fields))
           (default false (x_is_superuser extra_fields))
           (default "user" (x_user_type extra_fields))
  ∧ users' = <[new_id := user]> users
  ∧ users !! new_id = None.
Proof.
  unfold CustomUserManager_create_user, User_insert.
  case_bool_decide; [done|]. case_bool_decide; [done|]. cbn.
  destruct (users !! new_id) eqn:Hk; [done|].
  destruct (objects_filter _ users) eqn:Hq; [|done].
  by intros [= <- <-].
Qed.

(** X6: A user that [create_user] returns is stored under the drawn key with
    the normalised email, the hashed password and, for the keyword
    arguments left out, as an active regular user without staff or
    superuser rights; the key was free and no earlier row has the same
    username or email. *)
Theorem create_user_stores_unique_user (normalize_email : string → string)
    (make_password : option string → string) (new_id : Z) (email_ username_ : string)
    (password_ : option string) (extra_fields : ExtraFields)
    (users users' : gmap Z User) (user : User) :
  CustomUserManager_create_user normalize_email make_password new_id email_ username_
    password_ extra_fields users
  = (users', Ok user) →
  user = mkUser new_id username_ (normalize_email email_) (make_password password_)
           (default "" (x_first_name extra_fields))
           (default "" (x_last_name extra_fields))
           (default false (x_is_staff extra_fields))
           (default true (x_is_active extra_fields))
           (default false (x_is_superuser extra_fields))
           (default "user" (x_user_type extra_fields))
  ∧ users' = <[new_id := user]> users
  ∧ users !! new_id = None
  ∧ email_ ≠ "" ∧ username_ ≠ ""
  ∧ ∀ k u, users !! k = Some u →
      username u ≠ username_ ∧ email u ≠ normalize_email email_.
Proof.
  unfold CustomUserManager_create_user, User_insert.
  case_bool_decide; [done|]. case_bool_decide; [done|]. cbn.
  destruct (users !! new_id) eqn:Hk; [done|].
  destruct (objects_filter _ users) eqn:Hq; [|done].
  intros [= <- <-]. do 5 (split; [done|]).
  intros k u Hku. apply (proj1 (objects_filter_nil _ _) Hq) in Hku.
  cbn in Hku. tauto.
Qed.

Lemma create_user_stores_unique_user_witness :
  ∃ user,
    CustomUserManager_create_user id (λ _, "hash") 1 "a@b.c" "ann" None
      (mkExtraFields None None None None None None) ∅
    = (<[1 := user]> ∅, Ok user)
    ∧ is_staff user = false ∧ is_active user = true ∧ user_type user = "user".
Proof.
  assert (∃ users' user,
            CustomUserManager_create_user id (λ _, "hash") 1 "a@b.c" "ann" None
              (mkExtraFields None None None None None None) ∅
            = (users', Ok user)) as (users' & user & E)
    by (eexists _, _; by vm_compute).
  destruct (create_user_stores_unique_user id (λ _, "hash") 1 "a@b.c" "ann" None
              (mkExtraFields None None None None None None) ∅ users' user E)
    as (Hu & Hs & _).
  exists user. rewrite E, Hs. split; [done|]. by rewrite Hu.
Defined.

(** X7: [create_superuser] refuses [is_staff=False] and
    [is_superuser=False] with [ValueError], storing nothing; a user it
    returns is stored as staff and superuser, is an admin in the sense of
    [is_admin], and has user type ['admin'] unless another was passed. *)
Theorem create_superuser_flags (normalize_email : string → string)
    (make_password : option string → string) (new_id : Z) (email_ username_ : string)
    (password_ : option string) (extra_fields : ExtraFields) (users : gmap Z User) :
  (x_is_staff extra_fields = Some false ∨ x_is_superuser extra_fields = Some false →
   CustomUserManager_create_superuser normalize_email make_password new_id
     email_ username_ password_ extra_fields users
   = (users, Raise ValueError))
  ∧ (∀ users' user,
       CustomUserManager_create_superuser normalize_email make_password new_id
         email_ username_ password_ extra_fields users
       = (users', Ok user) →
       users' !! new_id = Some user
       ∧ is_staff user = true ∧ is_superuser user = true
       ∧ User_is_admin user = true
       ∧ user_type user = default "admin" (x_user_type extra_fields)
       ∧ is_active user = default true (x_is_active extra_fields)).
Proof.
  unfold CustomUserManager_create_superuser. split.
  - intros [Hs | Hs]; rewrite Hs; cbn; [done|].
    by destruct (x_is_staff extra_fields) as [[]|].
  - intros users' user.
    destruct (x_is_staff extra_fields) as [[]|] eqn:Hstaff; cbn; try done.
    all: destruct (x_is_superuser extra_fields) as [[]|] eqn:Hsuper; cbn; try done.
    all: intros Hcreated;
      apply create_user_Ok in Hcreated as (-> & -> & _); cbn;
      rewrite lookup_insert_eq; unfold User_is_admin; cbn;
      rewrite orb_true_r;
      by destruct (x_user_type extra_fields), (x_is_active extra_fields).
Qed.

Lemma create_superuser_flags_witness :
  CustomUserManager_create_superuser id (λ _, "hash") 1 "a@b.c" "ann" None
    (mkExtraFields None None (Some false) None None None) ∅
  = (∅, Raise ValueError).
Proof.
  apply (create_superuser_flags id (λ _, "hash") 1 "a@b.c" "ann" None
           (mkExtraFields None None (Some false) None None None) ∅).
  by left.
Defined.

(** X8: The default-superuser command, on a user table keyed by [id] in
    which the default email occurs at most once: when it returns, the
    table has exactly one user with that email and that user is staff,
    superuser and of type ['admin']; a user who was already there keeps
    username, password and [is_active] (an inactive account stays
    inactive); and running the command again changes nothing. *)
Theorem default_superuser_command (normalize_email : string → string)
    (make_password : option string → string) (new_id : Z) (users : gmap Z User) :
  normalize_email default_superuser_email = default_superuser_email →
  (∀ k u, users !! k = Some u → user_id u = k) →
  (length (objects_filter (λ u, email u = default_superuser_email) users) ≤ 1)%nat →
  let '(users1, r) := Command_handle normalize_email make_password new_id users in
  r = Ok () →
  (∃ u,
     objects_filter (λ u, email u = default_superuser_email) users1 = [u]
     ∧ users1 !! user_id u = Some u
     ∧ is_staff u = true ∧ is_superuser u = true ∧ user_type u = "admin"
     ∧ ∀ old, objects_filter (λ u, email u = default_superuser_email) users = [old] →
         user_id u = user_id old ∧ username u = username old
         ∧ password u = password old ∧ is_active u = is_active old)
  ∧ ∀ new_id', Command_handle normalize_email make_password new_id' users1
               = (users1, Ok ()).
Proof.
  intros Hnorm Hkeys Huniq. unfold Command_handle at 1.
  destruct (objects_filter _ users) as [|old [|other rest]] eqn:Hq;
    [| |cbn in Huniq; lia].
  - destruct (CustomUserManager_create_superuser _ _ _ _ _ _ _ users)
      as [users1 [user|e]] eqn:Hcreate; [|done].
    intros _.
    unfold CustomUserManager_create_superuser in Hcreate. cbn in Hcreate.
    apply create_user_Ok in Hcreate as (Huser & -> & Hfresh).
    rewrite Hnorm in Huser.
    assert (objects_filter (λ u, email u = default_superuser_email)
              (<[new_id := user]> users) = [user]) as Hq1.
    { apply objects_filter_insert_first; [done | done | by rewrite Huser]. }
    assert (user_id user = new_id) as Hid by (by rewrite Huser).
    split.
    + exists user. rewrite Hid. split; [done|].
      split; [by rewrite lookup_insert_eq|].
      split; [by rewrite Huser|]. split; [by rewrite Huser|].
      split; [by rewrite Huser|]. by intros old' [=].
    + intros new_id'. unfold Command_handle, queryset_get. rewrite Hq1. cbn.
      f_equal. rewrite Hid.
      assert (set_user_type "admin" (set_is_superuser true (set_is_staff true user)) = user)
        as -> by (rewrite Huser; done).
      by rewrite insert_insert_eq.
  - cbn. intros _.
    assert (users !! user_id old = Some old) as Hold.
    { assert (old ∈ objects_filter (λ u, email u = default_superuser_email) users)
        as Hin by (rewrite Hq; left).
      apply elem_of_objects_filter in Hin as [_ [k Hk]].
      by rewrite (Hkeys k old Hk). }
    assert (email old = default_superuser_email) as Hmail.
    { assert (old ∈ objects_filter (λ u, email u = default_superuser_email) users)
        as Hin by (rewrite Hq; left).
      by apply elem_of_objects_filter in Hin as [? _]. }
    set (promoted := set_user_type "admin" (set_is_superuser true (set_is_staff true old))).
    assert (objects_filter (λ u, email u = default_superuser_email)
              (<[user_id old := promoted]> users) = [promoted]) as Hq1
      by (by apply (objects_filter_overwrite _ _ _ old)).
    split.
    + exists promoted. split; [done|]. split; [by rewrite lookup_insert_eq|].
      do 3 (split; [done|]). by intros old' [= <-].
    + intros new_id'. unfold Command_handle, queryset_get. rewrite Hq1. cbn.
      by rewrite insert_insert_eq.
Qed.

Lemma default_superuser_command_witness :
  let '(users1, r) := Command_handle id (λ _, "hash") 1 ∅ in
  r = Ok ()
  ∧ Command_handle id (λ _, "hash") 2 users1 = (users1, Ok ()).
Proof.
  assert (∀ k u, (∅ : gmap Z User) !! k = Some u → user_id u = k) as Hkeys
    by (intros k u Hk; by rewrite lookup_empty in Hk).
  assert (length (objects_filter (λ u, email u = default_superuser_email)
                    (∅ : gmap Z User)) ≤ 1)%nat as Huniq by (vm_compute; lia).
  pose proof (default_superuser_command id (λ _, "hash") 1 ∅ eq_refl Hkeys Huniq) as H.
  destruct (Command_handle id (λ _, "hash") 1 ∅) as [users1 r] eqn:E.
  assert (r = Ok ()) as Hr by (vm_compute in E; by injection E as _ <-).
  split; [exact Hr|]. apply (H Hr).
Defined.

(** ** The user admin *)

(** X9: [UserAdmin.save_model] stores the object over its row with
    [is_staff] true exactly when the user type is ['admin'], whatever the
    form said and whether or not the user is a superuser; nothing else
    changes. *)
Theorem UserAdmin_save_model_staff_is_admin_type (obj : User) (users : gmap Z User) :
  let '(users', saved) := UserAdmin_save_model obj users in
  users' = <[user_id obj := saved]> users
  ∧ saved = set_is_staff (bool_decide (user_type obj = "admin")) obj.
Proof.
  unfold UserAdmin_save_model.
  destruct obj as [i n e p f l staff active super type]. cbn.
  by destruct (bool_decide (type = "admin")), staff.
Qed.

Lemma queryset_update_lookup (f : User → User) (selected : list Z)
    (users : gmap Z User) (k : Z) :
  (∀ u, f (f u) = f u) →
  queryset_update f selected users !! k
  = if decide (k ∈ selected) then f <$> users !! k else users !! k.
Proof.
  intros Hidem. unfold queryset_update.
  induction selected as [|s selected IH]; cbn.
  - by rewrite decide_False by apply not_elem_of_nil.
  - destruct (decide (k = s)) as [->|Hne].
    + rewrite lookup_alter_eq, IH.
      rewrite (decide_True (P := s ∈ s :: selected)) by left.
      destruct (decide (s ∈ selected)); [|done].
      destruct (users !! s); cbn; [|done]. by rewrite Hidem.
    + rewrite lookup_alter_ne, IH by done.
      destruct (decide (k ∈ selected)) as [Hin|Hout].
      * by rewrite decide_True by (by right).
      * by rewrite decide_False by (intros [?|?]%elem_of_cons; congruence).
Qed.

(** X10: The admin action "make regular user" sets the selected users to type
    ['user'] without staff access and touches no other user, but it
    never clears [is_superuser]: a selected superuser is still an admin
    in the sense of [is_admin]. *)
Theorem make_regular_user_keeps_superusers (selected : list Z)
    (users : gmap Z User) (k : Z) (u : User) :
  users !! k = Some u →
  let users' := UserAdmin_make_regular_user selected users in
  (k ∉ selected → users' !! k = Some u)
  ∧ (k ∈ selected →
     ∃ u', users' !! k = Some u'
       ∧ user_type u' = "user" ∧ is_staff u' = false
       ∧ is_superuser u' = is_superuser u
       ∧ User_is_admin u' = is_superuser u).
Proof.
  intros Hk. cbn. unfold UserAdmin_make_regular_user.
  rewrite queryset_update_lookup by done. split.
  - intros Hout. by rewrite decide_False.
  - intros Hin. rewrite decide_True, Hk by done. cbn. eexists. split; [done|].
    by cbn.
Qed.

Lemma make_regular_user_keeps_superusers_witness :
  let root := mkUser 1 "root" "r@x.y" "hash" "" "" true true true "admin" in
  ∃ u', UserAdmin_make_regular_user [1] {[1 := root]} !! 1 = Some u'
        ∧ user_type u' = "user" ∧ User_is_admin u' = true.
Proof.
  intros root.
  assert (({[1 := root]} : gmap Z User) !! 1 = Some root) as Hk by reflexivity.
  destruct (make_regular_user_keeps_superusers [1] {[1 := root]} 1 root Hk)
    as [_ Hsel].
  destruct Hsel as (u' & Hu' & Htype & _ & _ & Hadmin); [by left|].
  exists u'. split; [exact Hu'|]. split; [exact Htype | exact Hadmin].
Defined.

(** ** Course visibility and enrolling through the API *)

Lemma get_queryset_elem_of (icontains : string → string → bool)
    (users : gmap Z User) (request_user : option User) (query : CourseQuery)
    (db : DB) (c : Course) :
  c ∈ CourseViewSet_get_queryset icontains users request_user query db ↔
  (∃ k, courses db !! k = Some c)
  ∧ match q_creator query with
    | Some name => name = "" ∨ username <$> users !! creator c = Some name
    | None => True
    end
  ∧ match request_user with
    | None => is_public c = true
    | Some u => is_staff u = true ∨ is_public c = true ∨ creator c = user_id u
    end
  ∧ match q_search query with
    | Some term =>
        term = "" ∨ icontains (title c) term = true
        ∨ icontains (description c) term = true
    | None => True
    end.
Proof.
  assert (c ∈ (map_to_list (courses db)).*2 ↔ ∃ k, courses db !! k = Some c) as Hrows.
  { rewrite list_elem_of_fmap. split.
    - intros ([k y] & -> & Hin). exists k. by apply elem_of_map_to_list.
    - intros [k Hk]. exists (k, c). split; [done|]. by apply elem_of_map_to_list. }
  unfold CourseViewSet_get_queryset.
  destruct (q_search query) as [term|], (q_creator query) as [name|],
    request_user as [u|];
    repeat case_bool_decide; try destruct (is_staff u) eqn:Hstaff; cbn;
    rewrite ?list_elem_of_filter, Hrows; try rewrite Hstaff; intuition congruence.
Qed.

(** X11: What [CourseViewSet.get_queryset] lists: only course rows; to an
    anonymous request only public ones; to an authenticated user who is
    not staff only public ones and the user's own; and, when no [creator]
    or [search] parameter is given, every such row. *)
Theorem course_list_visibility (icontains : string → string → bool)
    (users : gmap Z User) (request_user : option User) (query : CourseQuery)
    (db : DB) (c : Course) :
  (c ∈ CourseViewSet_get_queryset icontains users request_user query db →
   (∃ k, courses db !! k = Some c)
   ∧ match request_user with
     | None => is_public c = true
     | Some u => is_staff u = true ∨ is_public c = true ∨ creator c = user_id u
     end)
  ∧ (q_creator query = None → q_search query = None →
     (∃ k, courses db !! k = Some c) →
     match request_user with
     | None => is_public c = true
     | Some u => is_staff u = true ∨ is_public c = true ∨ creator c = user_id u
     end →
     c ∈ CourseViewSet_get_queryset icontains users request_user query db).
Proof.
  rewrite get_queryset_elem_of. split; [tauto|].
  intros -> -> Hrow Hvis. tauto.
Qed.

Lemma course_list_visibility_witness :
  (algebra ∉ CourseViewSet_get_queryset (λ _ _, true) ∅ None
               (mkCourseQuery None None) school)
  ∧ (set_is_public true algebra
     ∈ CourseViewSet_get_queryset (λ _ _, true) ∅ None (mkCourseQuery None None)
         (with_courses {[1 := set_is_public true algebra]} school)).
Proof.
  split.
  - intros Hin.
    apply (course_list_visibility (λ _ _, true) ∅ None (mkCourseQuery None None)
             school algebra) in Hin as [_ Hpub].
    discriminate Hpub.
  - apply (course_list_visibility (λ _ _, true) ∅ None (mkCourseQuery None None)
             (with_courses {[1 := set_is_public true algebra]} school)
             (set_is_public true algebra)); [done | done | | done].
    exists 1. reflexivity.
Defined.

Lemma get_object_Some_inv (icontains : string → string → bool)
    (users : gmap Z User) (slugs : gmap string Z) (request_user : option User)
    (query : CourseQuery) (slug : string) (db : DB) (course : Course) :
  CourseViewSet_get_object icontains users slugs request_user query slug db = Some course →
  ∃ cid, slugs !! slug = Some cid ∧ pk course = Some cid
    ∧ course ∈ CourseViewSet_get_queryset icontains users request_user query db.
Proof.
  unfold CourseViewSet_get_object. destruct (slugs !! slug) as [cid|]; [|done].
  intros Hhead. exists cid. split; [done|].
  apply head_Some_elem_of in Hhead. by apply list_elem_of_filter in Hhead.
Qed.

(** X12: A private course is hidden from the [enroll] action of a user who is
    neither its creator nor staff: the answer is 404 and nothing is
    written. *)
Theorem enroll_private_course_not_found (icontains : string → string → bool)
    (users : gmap Z User) (slugs : gmap string Z) (request_user : User)
    (query : CourseQuery) (slug : string) (new_id now cid : Z) (db : DB)
    (course : Course) :
  (∀ k c, courses db !! k = Some c → pk c = Some k) →
  slugs !! slug = Some cid →
  courses db !! cid = Some course →
  is_public course = false →
  creator course ≠ user_id request_user →
  is_staff request_user = false →
  CourseViewSet_enroll icontains users slugs request_user query slug new_id now db
  = (db, mkResponse (Detail "Not found.") HTTP_404_NOT_FOUND).
Proof.
  intros Hkeys Hslug Hrow Hprivate Hcreator Hstaff. unfold CourseViewSet_enroll.
  destruct (CourseViewSet_get_object _ _ _ _ _ _ _) as [found|] eqn:Hget; [|done].
  exfalso. apply get_object_Some_inv in Hget as (cid' & Hslug' & Hpk & Hin).
  assert (cid' = cid) as -> by congruence.
  apply get_queryset_elem_of in Hin as ([k Hk] & _ & Hvis & _).
  assert (k = cid) as -> by (apply Hkeys in Hk; congruence).
  assert (found = course) as -> by congruence.
  destruct Hvis as [?|[?|?]]; congruence.
Qed.

Lemma enroll_private_course_not_found_witness :
  let ann := mkUser 43 "ann" "a@b.c" "hash" "" "" false true false "user" in
  CourseViewSet_enroll (λ _ _, true) ∅ {["algebra" := 1]} ann (mkCourseQuery None None)
    "algebra" 101 9 school
  = (school, mkResponse (Detail "Not found.") HTTP_404_NOT_FOUND).
Proof.
  intros ann.
  apply (enroll_private_course_not_found (λ _ _, true) ∅ {["algebra" := 1]} ann
           (mkCourseQuery None None) "algebra" 101 9 1 school algebra).
  - intros k c Hk. destruct (decide (k = 1)) as [->|Hne].
    + vm_compute in Hk. by injection Hk as <-.
    + unfold school in Hk. cbn in Hk. by rewrite lookup_singleton_ne in Hk.
  - reflexivity.
  - reflexivity.
  - reflexivity.
  - cbn. lia.
  - reflexivity.
Defined.

Section enroll_action.
Variable icontains : string → string → bool.
Variables (users : gmap Z User) (slugs : gmap string Z).
Variables (request_user : User) (query : CourseQuery) (slug : string).
Variables (new_id now cid : Z) (db : DB) (course : Course).
Hypothesis Hobject :
  CourseViewSet_get_object icontains users slugs (Some request_user) query slug db
  = Some course.
Hypothesis Hpk : pk course = Some cid.

Lemma enroll_created :
  objects_filter (λ e, e_user e = user_id request_user ∧ e_course e = cid)
                 (enrollments db) = [] →
  enrollments db !! new_id = None →
  let enrollment :=
    mkCourseEnrollment new_id (user_id request_user) cid now None 1 None 0 0 [] [] in
  CourseViewSet_enroll icontains users slugs request_user query slug new_id now db
  = (with_courses
       (alter (set_total_enrollments
                 (queryset_count (enrollments_of_course cid db) + 1))
              cid (courses db))
       (with_enrollments (<[new_id := enrollment]> (enrollments db)) db),
     mkResponse (Serialized enrollment) HTTP_201_CREATED).
Proof.
  intros Hnone Hfresh. cbv zeta. unfold CourseViewSet_enroll.
  rewrite Hobject, Hpk, Hnone, Hfresh.
  rewrite CourseEnrollment_save_in_range by apply new_enrollment_in_range.
  unfold update_course_enrollment_count. cbn.
  rewrite bool_decide_eq_true_2 by done. cbn.
  unfold enrollments_of_course, queryset_count. cbn.
  rewrite objects_filter_insert_length by done.
  do 4 f_equal. lia.
Qed.
End enroll_action.

(** X13: The [enroll] action on a course the requester can see and is not
    enrolled in: the answer is 201 with a new enrollment on page 1 with
    nothing completed, and the course row's [total_enrollments] becomes
    the number of enrollment rows of the course, one more than before the
    call, whatever the counter stored before. *)
Theorem enroll_creates_and_recounts (icontains : string → string → bool)
    (users : gmap Z User) (slugs : gmap string Z) (request_user : User)
    (query : CourseQuery) (slug : string) (new_id now cid : Z) (db : DB)
    (course row : Course) :
  CourseViewSet_get_object icontains users slugs (Some request_user) query slug db
  = Some course →
  pk course = Some cid →
  courses db !! cid = Some row →
  objects_filter (λ e, e_user e = user_id request_user ∧ e_course e = cid)
                 (enrollments db) = [] →
  enrollments db !! new_id = None →
  let '(db', response) :=
    CourseViewSet_enroll icontains users slugs request_user query slug new_id now db in
  let enrollment :=
    mkCourseEnrollment new_id (user_id request_user) cid now None 1 None 0 0 [] [] in
  response = mkResponse (Serialized enrollment) HTTP_201_CREATED
  ∧ enrollments db' = <[new_id := enrollment]> (enrollments db)
  ∧ queryset_count (enrollments_of_course cid db')
    = queryset_count (enrollments_of_course cid db) + 1
  ∧ total_enrollments <$> courses db' !! cid
    = Some (queryset_count (enrollments_of_course cid db'))
  ∧ progress_logs db' = progress_logs db.
Proof.
  intros Hobject Hpk Hrow Hnone Hfresh.
  rewrite (enroll_created icontains users slugs request_user query slug new_id now
             cid db course Hobject Hpk Hnone Hfresh).
  cbv zeta.
  assert (queryset_count
            (enrollments_of_course cid
               (with_courses
                  (alter (set_total_enrollments
                            (queryset_count (enrollments_of_course cid db) + 1))
                         cid (courses db))
                  (with_enrollments
                     (<[new_id := mkCourseEnrollment new_id (user_id request_user) cid
                                    now None 1 None 0 0 [] []]> (enrollments db)) db)))
          = queryset_count (enrollments_of_course cid db) + 1) as Hcount.
  { unfold enrollments_of_course, queryset_count. cbn.
    rewrite objects_filter_insert_length by done. lia. }
  split; [done|]. split; [done|]. split; [exact Hcount|]. split; [|done].
  rewrite Hcount. cbn. by rewrite lookup_alter_eq, Hrow.
Qed.

Lemma enroll_creates_and_recounts_witness :
  let ann := mkUser 42 "ann" "a@b.c" "hash" "" "" false true false "user" in
  let db := with_enrollments ∅ (with_courses {[1 := set_is_public true algebra]} school) in
  let '(db', response) :=
    CourseViewSet_enroll (λ _ _, true) ∅ {["algebra" := 1]} ann (mkCourseQuery None None)
      "algebra" 101 9 db in
  status response = HTTP_201_CREATED
  ∧ total_enrollments <$> courses db' !! 1 = Some 1.
Proof.
  intros ann db.
  assert (CourseViewSet_get_object (λ _ _, true) ∅ {["algebra" := 1]} (Some ann)
            (mkCourseQuery None None) "algebra" db
          = Some (set_is_public true algebra)) as Hobject by (by vm_compute).
  assert (objects_filter (λ e, e_user e = user_id ann ∧ e_course e = 1)
                         (enrollments db) = []) as Hnone by (by vm_compute).
  pose proof (enroll_creates_and_recounts (λ _ _, true) ∅ {["algebra" := 1]} ann
                (mkCourseQuery None None) "algebra" 101 9 1 db
                (set_is_public true algebra) (set_is_public true algebra)
                Hobject eq_refl eq_refl Hnone eq_refl) as H.
  destruct (CourseViewSet_enroll (λ _ _, true) ∅ {["algebra" := 1]} ann
              (mkCourseQuery None None) "algebra" 101 9 db) as [db' response].
  cbv zeta in H. destruct H as (-> & _ & Hcount & Hrow & _).
  split; [done|]. rewrite Hrow, Hcount. by vm_compute.
Defined.

(** X14: A second [enroll] for a course the requester is already enrolled in
    is answered 400 and writes nothing. *)
Theorem enroll_twice_rejected (icontains : string → string → bool)
    (users : gmap Z User) (slugs : gmap string Z) (request_user : User)
    (query : CourseQuery) (slug : string) (new_id now cid : Z) (db : DB)
    (course : Course) :
  CourseViewSet_get_object icontains users slugs (Some request_user) query slug db
  = Some course →
  pk course = Some cid →
  objects_filter (λ e, e_user e = user_id request_user ∧ e_course e = cid)
                 (enrollments db) ≠ [] →
  CourseViewSet_enroll icontains users slugs request_user query slug new_id now db
  = (db, mkResponse (Detail "Already enrolled in this course.") HTTP_400_BAD_REQUEST).
Proof.
  intros Hobject Hpk Hsome. unfold CourseViewSet_enroll. rewrite Hobject, Hpk.
  by destruct (objects_filter _ (enrollments db)).
Qed.

Lemma enroll_twice_rejected_witness :
  let ann := mkUser 42 "ann" "a@b.c" "hash" "" "" false true false "user" in
  let db := with_courses {[1 := set_is_public true algebra]} school in
  CourseViewSet_enroll (λ _ _, true) ∅ {["algebra" := 1]} ann (mkCourseQuery None None)
    "algebra" 101 9 db
  = (db, mkResponse (Detail "Already enrolled in this course.") HTTP_400_BAD_REQUEST).
Proof.
  intros ann db.
  apply (enroll_twice_rejected (λ _ _, true) ∅ {["algebra" := 1]} ann
           (mkCourseQuery None None) "algebra" 101 9 1 db (set_is_public true algebra)).
  - by vm_compute.
  - reflexivity.
  - by vm_compute.
Defined.

(** X15: Enrolling through the API and then unenrolling gives back the
    enrollment table as it was, and leaves the course row's
    [total_enrollments] equal to the number of enrollment rows of the
    course, also when the counter stored before the two calls was not. *)
Theorem enroll_then_unenroll (pdfkit : FieldFile → option (Z * option Z))
    (icontains : string → string → bool)
    (users : gmap Z User) (slugs : gmap string Z) (request_user : User)
    (query : CourseQuery) (slug : string) (new_id now cid : Z) (db : DB)
    (course row : Course) :
  CourseViewSet_get_object icontains users slugs (Some request_user) query slug db
  = Some course →
  pk course = Some cid →
  courses db !! cid = Some row →
  pk row = Some cid →
  objects_filter (λ e, e_user e = user_id request_user ∧ e_course e = cid)
                 (enrollments db) = [] →
  enrollments db !! new_id = None →
  let '(db1, _) :=
    CourseViewSet_enroll icontains users slugs request_user query slug new_id now db in
  let '(db2, response) :=
    CourseEnrollmentViewSet_unenroll pdfkit (user_id request_user) new_id db1 in
  status response = HTTP_200_OK
  ∧ enrollments db2 = enrollments db
  ∧ total_enrollments <$> courses db2 !! cid
    = Some (queryset_count (enrollments_of_course cid db))
  ∧ queryset_count (enrollments_of_course cid db2)
    = queryset_count (enrollments_of_course cid db).
Proof.
  intros Hobject Hpk Hrow Hrowpk Hnone Hfresh.
  rewrite (enroll_created icontains users slugs request_user query slug new_id now
             cid db course Hobject Hpk Hnone Hfresh).
  cbv zeta. unfold CourseEnrollmentViewSet_unenroll, get_object. cbn.
  rewrite lookup_insert_eq. cbn.
  rewrite bool_decide_eq_true_2 by done.
  rewrite lookup_alter_eq, Hrow. cbn.
  rewrite (Course_save_existing _ _ _ _ cid) by done.
  cbn. rewrite delete_insert_id by done.
  pose proof (detect_file_metadata_keeps
                (set_total_enrollments
                   (Z.max 0 (queryset_count (enrollments_of_course cid db) + 1 - 1))
                   (set_total_enrollments
                      (queryset_count (enrollments_of_course cid db) + 1) row)))
    as (_ & Hte & _).
  split; [done|]. split; [done|]. split.
  - rewrite lookup_insert_eq. cbn. rewrite Hte. cbn. f_equal.
    unfold queryset_count. lia.
  - unfold enrollments_of_course. cbn. by rewrite delete_insert_id.
Qed.

Lemma enroll_then_unenroll_witness :
  let ann := mkUser 42 "ann" "a@b.c" "hash" "" "" false true false "user" in
  let db := with_enrollments ∅ (with_courses {[1 := set_is_public true algebra]} school) in
  let '(db1, _) :=
    CourseViewSet_enroll (λ _ _, true) ∅ {["algebra" := 1]} ann (mkCourseQuery None None)
      "algebra" 101 9 db in
  let '(db2, response) := CourseEnrollmentViewSet_unenroll no_pdfkit 42 101 db1 in
  status response = HTTP_200_OK
  ∧ enrollments db2 = ∅
  ∧ total_enrollments <$> courses db2 !! 1 = Some 0.
Proof.
  intros ann db.
  assert (CourseViewSet_get_object (λ _ _, true) ∅ {["algebra" := 1]} (Some ann)
            (mkCourseQuery None None) "algebra" db
          = Some (set_is_public true algebra)) as Hobject by (by vm_compute).
  assert (objects_filter (λ e, e_user e = user_id ann ∧ e_course e = 1)
                         (enrollments db) = []) as Hnone by (by vm_compute).
  pose proof (enroll_then_unenroll no_pdfkit (λ _ _, true) ∅ {["algebra" := 1]} ann
                (mkCourseQuery None None) "algebra" 101 9 1 db
                (set_is_public true algebra) (set_is_public true algebra)
                Hobject eq_refl eq_refl eq_refl Hnone eq_refl) as H.
  destruct (CourseViewSet_enroll (λ _ _, true) ∅ {["algebra" := 1]} ann
              (mkCourseQuery None None) "algebra" 101 9 db) as [db1 r1].
  change (user_id ann) with 42 in H.
  destruct (CourseEnrollmentViewSet_unenroll no_pdfkit 42 101 db1) as [db2 response].
  destruct H as (Hs & Henr & Hcount & _).
  split; [exact Hs|]. split; [exact Henr|]. rewrite Hcount. by vm_compute.
Defined.

(** ** Lesson sequencing *)

Lemma first_by_order_asc_spec (qs : list Lesson) :
  match first_by_order_asc qs with
  | None => qs = []
  | Some m => m ∈ qs ∧ ∀ l, l ∈ qs → l_order m ≤ l_order l
  end.
Proof.
  unfold first_by_order_asc.
  induction qs as [|x qs IH]; [done|]. cbn [foldr].
  destruct (foldr _ None qs) as [b|].
  - destruct IH as [Hin Hmin]. case_decide.
    + split; [left|]. intros l [->|Hl]%elem_of_cons; [lia|].
      specialize (Hmin l Hl). lia.
    + split; [by right|]. intros l [->|Hl]%elem_of_cons; [lia | by apply Hmin].
  - subst qs. split; [left|]. by intros l ->%list_elem_of_singleton.
Qed.

Lemma first_by_order_desc_spec (qs : list Lesson) :
  match first_by_order_desc qs with
  | None => qs = []
  | Some m => m ∈ qs ∧ ∀ l, l ∈ qs → l_order l ≤ l_order m
  end.
Proof.
  unfold first_by_order_desc.
  induction qs as [|x qs IH]; [done|]. cbn [foldr].
  destruct (foldr _ None qs) as [b|].
  - destruct IH as [Hin Hmax]. case_decide.
    + split; [left|]. intros l [->|Hl]%elem_of_cons; [lia|].
      specialize (Hmax l Hl). lia.
    + split; [by right|]. intros l [->|Hl]%elem_of_cons; [lia | by apply Hmax].
  - subst qs. split; [left|]. by intros l ->%list_elem_of_singleton.
Qed.

(** X16: [next_lesson] is a lesson of the same course with the least [order]
    above this lesson's; it is [None] exactly when no lesson of the
    course has a greater [order] (no wrap-around to the first lesson). *)
Theorem next_lesson_is_least_above (self : Lesson) (db : DB) :
  match Lesson_next_lesson self db with
  | None =>
      ∀ k l, lessons db !! k = Some l → l_course l = l_course self →
             l_order l ≤ l_order self
  | Some next =>
      (∃ k, lessons db !! k = Some next)
      ∧ l_course next = l_course self
      ∧ l_order self < l_order next
      ∧ ∀ k l, lessons db !! k = Some l → l_course l = l_course self →
               l_order self < l_order l → l_order next ≤ l_order l
  end.
Proof.
  unfold Lesson_next_lesson.
  pose proof (first_by_order_asc_spec
                (objects_filter
                   (λ l, l_course l = l_course self ∧ l_order l > l_order self)
                   (lessons db))) as Hspec.
  destruct (first_by_order_asc _) as [next|].
  - destruct Hspec as [Hin Hmin].
    apply elem_of_objects_filter in Hin as [[Hc Ho] Hrow].
    split; [done|]. split; [done|]. split; [lia|].
    intros k l Hk Hcl Hol. apply Hmin. apply elem_of_objects_filter.
    split; [split; [done | lia] | by exists k].
  - intros k l Hk Hcl.
    destruct (decide (l_order l ≤ l_order self)) as [|Hgt]; [done|].
    apply (proj1 (objects_filter_nil _ _) Hspec) in Hk. destruct Hk. split; [done|lia].
Qed.

(** X17: [previous_lesson] is a lesson of the same course with the greatest
    [order] below this lesson's; it is [None] exactly when no lesson of
    the course has a smaller [order]. *)
Theorem previous_lesson_is_greatest_below (self : Lesson) (db : DB) :
  match Lesson_previous_lesson self db with
  | None =>
      ∀ k l, lessons db !! k = Some l → l_course l = l_course self →
             l_order self ≤ l_order l
  | Some previous =>
      (∃ k, lessons db !! k = Some previous)
      ∧ l_course previous = l_course self
      ∧ l_order previous < l_order self
      ∧ ∀ k l, lessons db !! k = Some l → l_course l = l_course self →
               l_order l < l_order self → l_order l ≤ l_order previous
  end.
Proof.
  unfold Lesson_previous_lesson.
  pose proof (first_by_order_desc_spec
                (objects_filter
                   (λ l, l_course l = l_course self ∧ l_order l < l_order self)
                   (lessons db))) as Hspec.
  destruct (first_by_order_desc _) as [previous|].
  - destruct Hspec as [Hin Hmax].
    apply elem_of_objects_filter in Hin as [[Hc Ho] Hrow].
    split; [done|]. split; [done|]. split; [lia|].
    intros k l Hk Hcl Hol. apply Hmax. apply elem_of_objects_filter.
    split; [split; [done | lia] | by exists k].
  - intros k l Hk Hcl.
    destruct (decide (l_order self ≤ l_order l)) as [|Hlt]; [done|].
    apply (proj1 (objects_filter_nil _ _) Hspec) in Hk. destruct Hk. split; [done|lia].
Qed.

(** X18: When the lessons of a course have pairwise different [order]
    values, going to the next lesson and back returns to the lesson one
    started from. *)
Theorem previous_of_next_lesson (self next : Lesson) (db : DB) (k : Z) :
  (∀ k1 k2 l1 l2, lessons db !! k1 = Some l1 → lessons db !! k2 = Some l2 →
                  l_course l1 = l_course l2 → l_order l1 = l_order l2 → l1 = l2) →
  lessons db !! k = Some self →
  Lesson_next_lesson self db = Some next →
  Lesson_previous_lesson next db = Some self.
Proof.
  intros Hdistinct Hself Hnext.
  pose proof (next_lesson_spec_helper := first_by_order_asc_spec
                (objects_filter
                   (λ l, l_course l = l_course self ∧ l_order l > l_order self)
                   (lessons db))).
  unfold Lesson_next_lesson in Hnext. rewrite Hnext in next_lesson_spec_helper.
  destruct next_lesson_spec_helper as [Hin Hmin].
  apply elem_of_objects_filter in Hin as [[Hc Ho] [kn Hkn]].
  unfold Lesson_previous_lesson.
  pose proof (first_by_order_desc_spec
                (objects_filter
                   (λ l, l_course l = l_course next ∧ l_order l < l_order next)
                   (lessons db))) as Hprev.
  assert (self ∈ objects_filter
                   (λ l, l_course l = l_course next ∧ l_order l < l_order next)
                   (lessons db)) as Hself_in.
  { apply elem_of_objects_filter. split; [split; [done | lia] | by exists k]. }
  destruct (first_by_order_desc _) as [p|]; [|by rewrite Hprev in Hself_in;
                                                  apply not_elem_of_nil in Hself_in].
  destruct Hprev as [Hp Hmax].
  apply elem_of_objects_filter in Hp as [[Hpc Hpo] [kp Hkp]].
  f_equal. apply (Hdistinct kp k p self Hkp Hself); [congruence|].
  pose proof (Hmax self Hself_in) as Hle.
  destruct (decide (l_order self < l_order p)) as [Hlt|]; [|lia].
  assert (l_order next ≤ l_order p); [|lia].
  apply Hmin. apply elem_of_objects_filter.
  split; [split; [congruence | lia] | by exists kp].
Qed.

Lemma previous_of_next_lesson_witness :
  let chapter := mkLesson 201 1 "Chapter" 5 2 in
  let db := Lesson_save chapter (Lesson_save introduction school) in
  Lesson_previous_lesson chapter db = Some introduction.
Proof.
  intros chapter db.
  apply (previous_of_next_lesson introduction chapter db 200).
  - intros k1 k2 l1 l2 H1 H2 Hc Ho.
    assert (∀ k l, lessons db !! k = Some l → l = introduction ∨ l = chapter) as Hrows.
    { intros k l Hk. subst db. unfold Lesson_save in Hk. cbn in Hk.
      apply lookup_insert_Some in Hk as [[_ <-]|[_ Hk]]; [by right|].
      apply lookup_insert_Some in Hk as [[_ <-]|[_ Hk]]; [by left|].
      by rewrite lookup_empty in Hk. }
    destruct (Hrows k1 l1 H1) as [-> | ->], (Hrows k2 l2 H2) as [-> | ->];
      try done; cbn in Ho; lia.
  - by vm_compute.
  - by vm_compute.
Defined.

(** ** Lesson listing *)

Lemma order_by_order_elem_of (qs : list Lesson) (l : Lesson) :
  l ∈ order_by_order qs ↔ l ∈ qs.
Proof. unfold order_by_order. by rewrite merge_sort_Permutation. Qed.

Lemma order_by_order_Sorted (qs : list Lesson) : Sorted order_le (order_by_order qs).
Proof.
  unfold order_by_order. apply Sorted_merge_sort.
  intros a b. unfold order_le. lia.
Qed.

Lemma elem_of_table_rows {A} (table : gmap Z A) (x : A) :
  x ∈ (map_to_list table).*2 ↔ ∃ k, table !! k = Some x.
Proof.
  rewrite list_elem_of_fmap. split.
  - intros ([k y] & -> & Hin). exists k. by apply elem_of_map_to_list.
  - intros [k Hk]. exists (k, x). split; [done|]. by apply elem_of_map_to_list.
Qed.

(** X19: Whatever the requester, a lesson listing that is returned is sorted
    by [order] and holds exactly the lesson rows of the course named by
    the [course] parameter; without that parameter (or with an empty
    one) it holds every lesson row of the database, those of private
    courses included, and no access check is made. *)
Theorem lesson_list_contents (slugs : gmap string Z) (request_user : option User)
    (course_slug : option string) (db : DB) (qs : list Lesson) :
  LessonViewSet_get_queryset slugs request_user course_slug db = Returned qs →
  Sorted order_le qs
  ∧ (∀ l, l ∈ qs ↔
          (∃ k, lessons db !! k = Some l)
          ∧ match course_slug with
            | Some slug => slug = "" ∨ slugs !! slug = Some (l_course l)
            | None => True
            end)
  ∧ (course_slug = None ∨ course_slug = Some "" →
     ∀ k l, lessons db !! k = Some l → l ∈ qs).
Proof.
  intros Hret.
  assert (∀ l, l ∈ order_by_order ((map_to_list (lessons db)).*2)
               ↔ ∃ k, lessons db !! k = Some l) as Hall.
  { intros l. by rewrite order_by_order_elem_of, elem_of_table_rows. }
  unfold LessonViewSet_get_queryset in Hret.
  destruct course_slug as [slug|].
  - case_bool_decide as Hslug.
    + injection Hret as <-. split; [apply order_by_order_Sorted|]. split.
      * intros l. rewrite Hall. intuition.
      * intros _ k l Hk. apply Hall. by exists k.
    + assert (∀ qs', Returned (order_by_order
                (filter (λ l, slugs !! slug = Some (l_course l))
                        ((map_to_list (lessons db)).*2))) = Returned qs' →
              Sorted order_le qs'
              ∧ (∀ l, l ∈ qs' ↔ (∃ k, lessons db !! k = Some l)
                                 ∧ (slug = "" ∨ slugs !! slug = Some (l_course l)))) as Hfiltered.
      { intros qs' [= <-]. split; [apply order_by_order_Sorted|].
        intros l. rewrite order_by_order_elem_of, list_elem_of_filter, elem_of_table_rows.
        intuition. }
      assert (Sorted order_le qs
              ∧ (∀ l, l ∈ qs ↔ (∃ k, lessons db !! k = Some l)
                                ∧ (slug = "" ∨ slugs !! slug = Some (l_course l)))) as [Hs Hm].
      { repeat case_match; try done; by apply Hfiltered. }
      split; [done|]. split; [done|]. intros [?|[= ->]]; done.
  - injection Hret as <-. split; [apply order_by_order_Sorted|]. split.
    + intros l. rewrite Hall. intuition.
    + intros _ k l Hk. apply Hall. by exists k.
Qed.

Lemma lesson_list_contents_witness :
  ∃ qs, LessonViewSet_get_queryset ∅ None None (Lesson_save introduction school)
        = Returned qs
        ∧ introduction ∈ qs.
Proof.
  eexists. split; [reflexivity|].
  refine (proj2 (proj2 (lesson_list_contents ∅ None None (Lesson_save introduction school)
                          _ eq_refl)) (or_introl eq_refl) 200 introduction _).
  by vm_compute.
Defined.

(** X20: For a listing filtered by an existing course, access is refused with
    [PermissionDenied] exactly when the course is private, the requester
    is not its creator, and the requester is anonymous or has no
    enrollment in it; in every other case the listing is returned. *)
Theorem lesson_list_access (slugs : gmap string Z) (request_user : option User)
    (slug : string) (cid : Z) (course : Course) (db : DB) :
  slug ≠ "" → slugs !! slug = Some cid → courses db !! cid = Some course →
  let enrolled :=
    ∃ u k e, request_user = Some u ∧ enrollments db !! k = Some e
             ∧ e_user e = user_id u ∧ e_course e = cid in
  (LessonViewSet_get_queryset slugs request_user (Some slug) db = Raised PermissionDenied
   ↔ is_public course = false
     ∧ Some (creator course) ≠ user_id <$> request_user
     ∧ ¬ enrolled)
  ∧ (is_public course = true ∨ Some (creator course) = user_id <$> request_user ∨ enrolled →
     ∃ qs, LessonViewSet_get_queryset slugs request_user (Some slug) db = Returned qs).
Proof.
  intros Hslug Hcid Hcourse enrolled.
  unfold LessonViewSet_get_queryset.
  rewrite bool_decide_eq_false_2 by done. rewrite Hcid, Hcourse.
  destruct (is_public course) eqn:Hpub; cbn.
  { split; [split; [done | by intros [? _]] | eauto]. }
  case_bool_decide as Hcreator; cbn.
  { split; [split; [done | by intros (_ & ? & _)] | eauto]. }
  destruct request_user as [u|].
  - destruct (objects_filter _ (enrollments db)) as [|e rest] eqn:Hfilter.
    + assert (¬ enrolled) as Hnot.
      { intros (u' & k & e & [= <-] & Hk & Hu & Hc).
        apply (proj1 (objects_filter_nil _ _) Hfilter) in Hk. by apply Hk. }
      split; [by split | ]. intros [?|[?|?]]; done.
    + assert (enrolled) as Hen.
      { assert (e ∈ objects_filter (λ e, e_user e = user_id u ∧ e_course e = cid)
                      (enrollments db)) as Hin by (rewrite Hfilter; left).
        apply elem_of_objects_filter in Hin as [[Hu Hc] [k Hk]].
        by exists u, k, e. }
      split; [split; [done | by intros (_ & _ & ?)] | eauto].
  - assert (¬ enrolled) as Hnot by (by intros (u' & k & e & [=] & _)).
    split; [by split|]. intros [?|[?|?]]; done.
Qed.

Lemma lesson_list_access_witness :
  LessonViewSet_get_queryset {["algebra" := 1]} None (Some "algebra") school
  = Raised PermissionDenied.
Proof.
  apply (lesson_list_access {["algebra" := 1]} None "algebra" 1 algebra school);
    [done | by vm_compute | by vm_compute |].
  split; [done|]. split; [done|]. by intros (u & k & e & [=] & _).
Defined.

(** X21: The listing and the object permission disagree about enrolled
    students: a user enrolled in a private course of another creator is
    given the lesson listing of that course, while
    [IsEnrolledOrReadOnly] refuses the same user a read of any single
    lesson of it. *)
Theorem enrolled_student_lists_but_cannot_read (slugs : gmap string Z) (u : User)
    (slug : string) (cid k : Z) (course : Course) (e : CourseEnrollment)
    (lesson : Lesson) (db : DB) :
  slug ≠ "" → slugs !! slug = Some cid → courses db !! cid = Some course →
  is_public course = false → creator course ≠ user_id u →
  enrollments db !! k = Some e → e_user e = user_id u → e_course e = cid →
  l_course lesson = cid →
  (∃ qs, LessonViewSet_get_queryset slugs (Some u) (Some slug) db = Returned qs)
  ∧ IsEnrolledOrReadOnly_has_object_permission true (Some (user_id u)) (Some lesson) db
    = Some false.
Proof.
  intros Hslug Hcid Hcourse Hpub Hcreator Hk Hu Hc Hl. split.
  - unfold LessonViewSet_get_queryset.
    rewrite bool_decide_eq_false_2 by done. rewrite Hcid, Hcourse, Hpub. cbn.
    rewrite bool_decide_eq_false_2 by congruence. cbn.
    destruct (objects_filter _ (enrollments db)) as [|e' rest] eqn:Hfilter; [|eauto].
    apply (proj1 (objects_filter_nil _ _) Hfilter) in Hk. by destruct Hk.
  - unfold IsEnrolledOrReadOnly_has_object_permission.
    rewrite Hl, Hcourse, Hpub. cbn. by rewrite bool_decide_eq_false_2 by congruence.
Qed.

Lemma enrolled_student_lists_but_cannot_read_witness :
  let student := mkUser 42 "ann" "ann@example.org" "" "" "" false true false "user" in
  (∃ qs, LessonViewSet_get_queryset {["algebra" := 1]} (Some student) (Some "algebra")
           (Lesson_save introduction school) = Returned qs)
  ∧ IsEnrolledOrReadOnly_has_object_permission true (Some 42) (Some introduction)
      (Lesson_save introduction school) = Some false.
Proof.
  intros student.
  apply (enrolled_student_lists_but_cannot_read {["algebra" := 1]} student "algebra" 1 100
           (set_total_lessons 1 algebra) enrollment_42 introduction
           (Lesson_save introduction school));
    try done; by vm_compute.
Defined.

(** ** Ratings through the API *)

(** X22: A user who has rated a course is refused a second rating and nothing
    is written; a first rating under an unused key is stored, and the
    table keeps at most one rating per user and course. *)
Theorem perform_create_rates_once (request_user new_id course stars : Z)
    (review : string) (db : DB) :
  ratings db !! new_id = None →
  let out := CourseRatingViewSet_perform_create request_user new_id course stars review db in
  let row := mkCourseRating new_id request_user course stars review in
  ((∃ k r, ratings db !! k = Some r ∧ r_user r = request_user ∧ r_course r = course) →
   out = (db, Raised (ValidationError "You have already rated this course.")))
  ∧ ((∀ k r, ratings db !! k = Some r → ¬ (r_user r = request_user ∧ r_course r = course)) →
     out.2 = Returned row
     ∧ ratings out.1 = <[new_id := row]> (ratings db)
     ∧ ∀ id' stars' review',
         (CourseRatingViewSet_perform_create request_user id' course stars' review' out.1).2
         = Raised (ValidationError "You have already rated this course."))
  ∧ (rating_unique_together db → rating_unique_together out.1).
Proof.
  intros Hfresh out row. subst out row. unfold CourseRatingViewSet_perform_create.
  destruct (objects_filter (λ r, r_user r = request_user ∧ r_course r = course)
              (ratings db)) as [|r0 rest] eqn:Hfilter.
  - rewrite Hfresh. cbn.
    pose proof (proj1 (objects_filter_nil _ _) Hfilter) as Hnone.
    split; [|split].
    + intros (k & r & Hk & Hu & Hc). by destruct (Hnone k r Hk).
    + intros _. split; [done|]. split; [done|]. intros id' stars' review'.
      unfold CourseRatingViewSet_perform_create. cbn.
      destruct (objects_filter (λ r, r_user r = request_user ∧ r_course r = course)
                  (<[new_id := mkCourseRating new_id request_user course stars review]>
                     (ratings db))) as [|r1 rest1] eqn:Hfilter'; [|done].
      exfalso.
      apply (proj1 (objects_filter_nil _ _) Hfilter' new_id
               (mkCourseRating new_id request_user course stars review)); [|done].
      apply lookup_insert_eq.
    + intros Huniq k1 k2 r1 r2 H1 H2 Hu Hc. cbn in H1, H2.
      apply lookup_insert_Some in H1 as [[<- <-]|[Hne1 H1]],
            H2 as [[<- <-]|[Hne2 H2]]; try done.
      * cbn in Hu, Hc. destruct (Hnone k2 r2 H2). by split.
      * cbn in Hu, Hc. destruct (Hnone k1 r1 H1). by split.
      * by apply (Huniq k1 k2 r1 r2).
  - split; [done|]. split; [|done].
    intros Hnone. exfalso.
    assert (r0 ∈ objects_filter (λ r, r_user r = request_user ∧ r_course r = course)
                   (ratings db)) as Hin by (rewrite Hfilter; left).
    apply elem_of_objects_filter in Hin as [HP [k Hk]]. by apply (Hnone k r0 Hk).
Qed.

Lemma perform_create_rates_once_witness :
  (CourseRatingViewSet_perform_create 43 301 1 5 "" (CourseRating_save three_stars school)).1
  = CourseRating_save three_stars school.
Proof.
  pose proof (perform_create_rates_once 43 301 1 5 "" (CourseRating_save three_stars school)
                eq_refl) as [Hdup _].
  cbv zeta in Hdup. rewrite Hdup; [done|].
  exists 300, three_stars. by vm_compute.
Defined.

(** ** Upload path *)

Lemma string_app_cons (a : ascii) (s t : string) :
  String a s +:+ t = String a (s +:+ t).
Proof. reflexivity. Qed.

Lemma string_app_empty_r (s : string) : s +:+ "" = s.
Proof. induction s as [|a s IH]; [done | by rewrite string_app_cons, IH]. Qed.

Lemma string_app_snoc (s rest : string) (c : ascii) :
  (s +:+ String c "") +:+ rest = s +:+ String c rest.
Proof. induction s as [|a s IH]; [done | by rewrite !string_app_cons, IH]. Qed.

Lemma last_dot_segment_from_no_dot (name : string) : ∀ segment,
  no_dot name = true → last_dot_segment_from segment name = segment +:+ name.
Proof.
  induction name as [|c rest IH]; intros segment Hname; cbn in *.
  - by rewrite string_app_empty_r.
  - case_bool_decide; [done|]. cbn in Hname. rewrite IH by done.
    apply string_app_snoc.
Qed.

Lemma last_dot_segment_from_dot (base ext : string) : ∀ segment,
  no_dot ext = true →
  last_dot_segment_from segment (base +:+ "." +:+ ext) = ext.
Proof.
  induction base as [|c rest IH]; intros segment Hext.
  - change ("" +:+ "." +:+ ext) with (String "."%char ext). cbn.
    by rewrite last_dot_segment_from_no_dot.
  - rewrite string_app_cons. cbn. case_bool_decide; by rewrite IH.
Qed.

Lemma last_dot_segment_from_result (name : string) : ∀ segment,
  no_dot segment = true → no_dot (last_dot_segment_from segment name) = true.
Proof.
  induction name as [|c rest IH]; intros segment Hseg; cbn; [done|].
  case_bool_decide as Hc; [by apply IH|]. apply IH.
  clear IH. induction segment as [|a segment IHs].
  - change (negb (bool_decide (c = "."%char)) && true = true).
    by rewrite (bool_decide_eq_false_2 _ Hc).
  - rewrite string_app_cons. cbn in *.
    apply andb_true_iff in Hseg as [-> Hseg]. by apply IHs.
Qed.

(** X23: The stored file name keeps only what follows the last dot of the
    uploaded name: every upload lands at
    [courses/<slug>/course_file.<ext>] where [ext] has no dot, for a name
    [base.ext] it is [ext] whatever [base] is, and for a name without a
    dot it is the whole name. *)
Theorem course_upload_path_keeps_last_extension (slug filename : string) :
  (∃ ext, course_upload_path slug filename = "courses/" +:+ slug +:+ "/course_file." +:+ ext
          ∧ no_dot ext = true)
  ∧ (∀ base ext, filename = base +:+ "." +:+ ext → no_dot ext = true →
       course_upload_path slug filename = "courses/" +:+ slug +:+ "/course_file." +:+ ext)
  ∧ (no_dot filename = true →
       course_upload_path slug filename
       = "courses/" +:+ slug +:+ "/course_file." +:+ filename).
Proof.
  unfold course_upload_path, last_dot_segment. split; [|split].
  - exists (last_dot_segment_from "" filename). split; [done|].
    by apply last_dot_segment_from_result.
  - intros base ext -> Hext. by rewrite last_dot_segment_from_dot.
  - intros Hname. by rewrite last_dot_segment_from_no_dot.
Qed.

(** ** Derived properties of courses and enrollments *)

(** X24: [progress_percentage] is 0 for a course without pages; otherwise it
    lies between 0 and 100 and is 100 exactly when [pages_completed] has
    reached [total_pages], also when it has gone beyond. *)
Theorem progress_percentage_capped (self : CourseEnrollment) (course : Course) :
  0 ≤ pages_completed self →
  let p := CourseEnrollment_progress_percentage self course in
  (total_pages course ≤ 0 → p = 0%Q)
  ∧ (0 < total_pages course →
     (0 <= p)%Q ∧ (p <= 100)%Q
     ∧ ((p == 100)%Q ↔ total_pages course ≤ pages_completed self)).
Proof.
  intros Hpc p. subst p. unfold CourseEnrollment_progress_percentage.
  case_bool_decide as Hpos.
  - split; [lia|]. intros _.
    set (q := (_ * 100)%Q).
    assert (0 <= q)%Q as Hq0.
    { subst q. unfold Qle, Qmult, Qdiv, Qinv, inject_Z. cbn.
      destruct (total_pages course) eqn:Htp; try lia. cbn. nia. }
    assert ((100 <= q)%Q ↔ total_pages course ≤ pages_completed self) as Hq100.
    { subst q. unfold Qle, Qmult, Qdiv, Qinv, inject_Z. cbn.
      destruct (total_pages course) eqn:Htp; try lia. cbn. split; nia. }
    split; [apply Q.min_glb; [done|by apply Hq0]|].
    split; [apply Q.le_min_l|].
    split.
    + intros Heq. apply Hq100.
      destruct (Q.min_spec 100 q) as [[Hlt Hmin]|[Hle Hmin]].
      * by apply Qlt_le_weak.
      * rewrite Hmin in Heq. rewrite Heq. apply Qle_refl.
    + intros Hge. apply Q.min_l. by apply Hq100.
  - split; [done|]. lia.
Qed.

Lemma progress_percentage_capped_witness :
  (CourseEnrollment_progress_percentage (set_pages_completed 15 enrollment_42) algebra
   == 100)%Q.
Proof.
  pose proof (progress_percentage_capped (set_pages_completed 15 enrollment_42) algebra)
    as H.
  cbn in H. apply H; lia.
Defined.

(** ** Course creation through the API *)

Section create.
Variables (pdfkit : FieldFile → option (Z * option Z)).
Variables (new_id request_user : Z) (validated_data : CourseCreateData) (db : DB).
Variable (f : FieldFile).
Hypothesis (Hfile : c_course_file validated_data = Some f).
Hypothesis (Hfresh : courses db !! new_id = None).

Let out := CourseSerializer_create pdfkit new_id request_user validated_data db.

Lemma create_accepted :
  f_size f ≤ 50 * 1024 * 1024 →
  ∃ instance,
    out = (with_courses (<[new_id := instance]> (courses db)) db, Returned instance)
    ∧ instance
      = detect_file_metadata
          (mkCourse (Some new_id) (c_title validated_data)
             (default "" (c_description validated_data)) request_user (Some f) 0 "" 0
             (default false (c_is_public validated_data))
             (default true (c_allow_comments validated_data))
             (default true (c_enable_progress_tracking validated_data))
             None 0 0 0).
Proof.
  intros Hsize. subst out. unfold CourseSerializer_create.
  rewrite Hfile, Hfresh. rewrite bool_decide_eq_false_2 by lia.
  rewrite (Course_save_existing pdfkit new_id _ db new_id) by done.
  eexists. split; reflexivity.
Qed.

(** X25: An upload of more than 50 MB is rejected with nothing written; any
    other upload under an unused key is stored with the requester as
    creator, the file as uploaded, its size recorded, the counters at
    zero and no publication time, so the new course is not published
    even when it is created public. *)
Theorem create_enforces_size_limit :
  (f_size f > 50 * 1024 * 1024 →
   out = (db, Raised (ValidationError "File size cannot exceed 50MB.")))
  ∧ (f_size f ≤ 50 * 1024 * 1024 →
     ∃ instance,
       out.2 = Returned instance
       ∧ courses out.1 !! new_id = Some instance
       ∧ pk instance = Some new_id
       ∧ creator instance = request_user
       ∧ course_file instance = Some f
       ∧ file_size instance = f_size f
       ∧ total_lessons instance = 0 ∧ total_enrollments instance = 0
       ∧ published_at instance = None
       ∧ Course_is_published instance = false).
Proof.
  split.
  - intros Hsize. subst out. unfold CourseSerializer_create.
    rewrite Hfile. by rewrite bool_decide_eq_true_2 by lia.
  - intros Hsize. destruct (create_accepted Hsize) as (instance & -> & Hinst).
    exists instance. split; [done|]. split; [apply lookup_insert_eq|].
    subst instance. unfold detect_file_metadata, Course_is_published. cbn.
    repeat case_match; cbn; rewrite ?andb_false_r; done.
Qed.

(** X26: A Word upload created through the API is never converted: the
    instance already carries its UUID when [save] runs, so whatever the
    renderer would do, the course is stored with the [.docx] file
    itself, [file_type] ['pdf'] and [total_pages] 0. *)
Theorem create_stores_docx_unconverted :
  f_size f ≤ 50 * 1024 * 1024 → is_docx_ext (f_ext f) = true →
  ∃ instance,
    out.2 = Returned instance
    ∧ courses out.1 !! new_id = Some instance
    ∧ course_file instance = Some f
    ∧ file_type instance = "pdf"
    ∧ total_pages instance = 0.
Proof.
  intros Hsize Hext. destruct (create_accepted Hsize) as (instance & -> & Hinst).
  exists instance. split; [done|]. split; [apply lookup_insert_eq|].
  subst instance. unfold detect_file_metadata. cbn.
  assert (f_ext f ≠ ".pdf") as Hpdf.
  { intros Heq. rewrite Heq in Hext. done. }
  rewrite bool_decide_eq_false_2 by done. by rewrite Hext.
Qed.

End create.

Lemma create_enforces_size_limit_witness :
  CourseSerializer_create no_pdfkit 2 7
    (mkCourseCreateData "Big" None (Some (mkFieldFile ".pdf" 52428801 (Some 3) None))
       None None None) school
  = (school, Raised (ValidationError "File size cannot exceed 50MB.")).
Proof.
  apply (proj1 (create_enforces_size_limit no_pdfkit 2 7
                  (mkCourseCreateData "Big" None
                     (Some (mkFieldFile ".pdf" 52428801 (Some 3) None)) None None None)
                  school (mkFieldFile ".pdf" 52428801 (Some 3) None) eq_refl eq_refl)).
  by vm_compute.
Defined.

Lemma create_stores_docx_unconverted_witness :
  ∃ instance,
    (CourseSerializer_create (λ _, Some (900, Some 6)) 2 7
       (mkCourseCreateData "Notes" None (Some notes_docx) None None None) school).2
    = Returned instance
    ∧ courses (CourseSerializer_create (λ _, Some (900, Some 6)) 2 7
                 (mkCourseCreateData "Notes" None (Some notes_docx) None None None)
                 school).1 !! 2 = Some instance
    ∧ course_file instance = Some notes_docx
    ∧ file_type instance = "pdf"
    ∧ total_pages instance = 0.
Proof.
  apply (create_stores_docx_unconverted (λ _, Some (900, Some 6)) 2 7
           (mkCourseCreateData "Notes" None (Some notes_docx) None None None) school
           notes_docx eq_refl eq_refl); [by vm_compute | done].
Defined.


(** ** The admin save *)

(** X28: Saving a course in the admin never stamps a publication time. For a
    public course without one, [timezone.now()] raises [AttributeError]
    and nothing is assigned or written; a private course is saved with
    the time cleared; a public course that has a time is saved with it.
    So a course that leaves the admin published was published
    before. *)
Theorem admin_save_never_stamps (pdfkit : FieldFile → option (Z * option Z))
    (fresh : Z) (obj : Course) (db : DB) :
  let out := CourseAdmin_save_model pdfkit fresh obj db in
  (is_public obj = true ∧ published_at obj = None →
   out = (db, obj, Raise AttributeError))
  ∧ (is_public obj = false →
     published_at out.1.2 = None ∧ is_public out.1.2 = false
     ∧ ∀ cid, pk obj = Some cid →
         out.2 = Ok () ∧ courses out.1.1 !! cid = Some out.1.2)
  ∧ (∀ t, is_public obj = true ∧ published_at obj = Some t →
     published_at out.1.2 = Some t ∧ is_public out.1.2 = true
     ∧ ∀ cid, pk obj = Some cid →
         out.2 = Ok () ∧ courses out.1.1 !! cid = Some out.1.2)
  ∧ (Course_is_published out.1.2 = true → Course_is_published obj = true).
Proof.
  cbv zeta. unfold CourseAdmin_save_model.
  destruct (is_public obj) eqn:Hpub; cbn.
  - case_bool_decide as Hat.
    + cbn. unfold Course_is_published. cbn. rewrite Hpub.
      split; [done|]. split; [done|]. split; [|done]. intros t [_ Ht]. congruence.
    + cbn.
      pose proof (Course_save_fuel_keeps_published_at pdfkit fresh 2 None obj db)
        as [H1 H2].
      cbv zeta in H1, H2. fold (Course_save pdfkit fresh None obj db) in H1, H2.
      split; [by intros [_ ?]|]. split; [done|]. split.
      * intros t [_ Ht]. rewrite H1, H2. split; [done|]. split; [done|].
        intros cid Hpk. rewrite (Course_save_existing _ _ _ _ cid) by done. cbn.
        by rewrite lookup_insert_eq.
      * unfold Course_is_published. by rewrite H1, H2.
  - pose proof (Course_save_fuel_keeps_published_at pdfkit fresh 2 None
                  (set_published_at None obj) db) as [H1 H2].
    cbv zeta in H1, H2.
    fold (Course_save pdfkit fresh None (set_published_at None obj) db) in H1, H2.
    cbn in H1, H2.
    split; [by intros [? _]|]. split.
    + intros _. rewrite H1, H2. split; [done|]. split; [done|].
      intros cid Hpk. rewrite (Course_save_existing _ _ _ _ cid) by done. cbn.
      by rewrite lookup_insert_eq.
    + split; [by intros t [? _]|].
      unfold Course_is_published. rewrite H1, H2, Hpub. done.
Qed.

(** ** update_progress: the current lesson and the view counter *)

Lemma first_by_page_desc_spec (qs : list Lesson) :
  match first_by_page_desc qs with
  | None => qs = []
  | Some m => m ∈ qs ∧ ∀ l, l ∈ qs → l_page_number l ≤ l_page_number m
  end.
Proof.
  unfold first_by_page_desc.
  induction qs as [|x qs IH]; [done|]. cbn [foldr].
  destruct (foldr _ None qs) as [b|].
  - destruct IH as [Hin Hmax]. case_decide.
    + split; [left|]. intros l [->|Hl]%elem_of_cons; [lia|].
      specialize (Hmax l Hl). lia.
    + split; [by right|]. intros l [->|Hl]%elem_of_cons; [lia | by apply Hmax].
  - subst qs. split; [left|]. by intros l ->%list_elem_of_singleton.
Qed.

(** X29: After a call that returns, [current_lesson] is the lesson of the
    course that starts on the viewed page or, when none starts there,
    the one that starts on the nearest earlier page; it is empty exactly
    when every lesson of the course starts after the viewed page. *)
Theorem update_progress_current_lesson (page_number time_spent now : Z)
    (self : CourseEnrollment) (db : DB) :
  let out := CourseEnrollment_update_progress page_number time_spent now self db in
  out.2 = Ok () →
  match current_lesson out.1.2 with
  | None =>
      ∀ k l, lessons db !! k = Some l → l_course l = e_course self →
             page_number < l_page_number l
  | Some lid =>
      ∃ k l, lessons db !! k = Some l ∧ l_id l = lid
             ∧ l_course l = e_course self
             ∧ l_page_number l ≤ page_number
             ∧ ∀ k' l', lessons db !! k' = Some l' → l_course l' = e_course self →
                        l_page_number l' ≤ page_number →
                        l_page_number l' ≤ l_page_number l
  end.
Proof.
  intros out. subst out. unfold CourseEnrollment_update_progress. cbn.
  set (self1 := if bool_decide (page_number > pages_completed self) then _ else _).
  assert (e_course self1 = e_course self) as Hcourse
    by (subst self1; by case_bool_decide).
  clearbody self1. rewrite Hcourse.
  destruct (courses db !! e_course self) as [course|]; [|done].
  unfold queryset_get.
  destruct (objects_filter
              (λ l, l_course l = e_course self ∧ l_page_number l = page_number)
              (lessons db)) as [|exact [|second rest]] eqn:Hexact; [| |done].
  - (* no lesson starts on the page *)
    pose proof (first_by_page_desc_spec
                  (objects_filter
                     (λ l, l_course l = e_course self ∧ l_page_number l ≤ page_number)
                     (lessons db))) as Hspec.
    destruct (first_by_page_desc _) as [m|]; cbn.
    + destruct Hspec as [Hin Hmax].
      apply elem_of_objects_filter in Hin as [[Hc Hp] [k Hk]].
      destruct (bool_decide (page_number >= total_pages course)
                && bool_decide (completed_at self1 = None)); split_on_writes.
      all: intros _; exists k, m; do 4 (split; [done|]).
      all: intros k' l' Hk' Hc' Hp'; apply Hmax; apply elem_of_objects_filter.
      all: split; [done | by exists k'].
    + destruct (bool_decide (page_number >= total_pages course)
                && bool_decide (completed_at self1 = None)); split_on_writes.
      all: intros _ k l Hk Hc.
      all: destruct (decide (page_number < l_page_number l)) as [|Hle]; [done|].
      all: apply (proj1 (objects_filter_nil _ _) Hspec) in Hk; destruct Hk.
      all: split; [done|lia].
  - (* one lesson starts on the page *)
    cbn.
    assert (exact ∈ objects_filter
                      (λ l, l_course l = e_course self ∧ l_page_number l = page_number)
                      (lessons db)) as Hin by (rewrite Hexact; left).
    apply elem_of_objects_filter in Hin as [[Hc Hp] [k Hk]].
    destruct (bool_decide (page_number >= total_pages course)
              && bool_decide (completed_at self1 = None)); split_on_writes.
    all: intros _; exists k, exact; do 2 (split; [done|]).
    all: split; [done|]; split; [lia|].
    all: intros k' l' Hk' Hc' Hp'; lia.
Qed.

Lemma update_progress_current_lesson_witness :
  current_lesson
    (CourseEnrollment_update_progress 4 30 77 enrollment_42
       (Lesson_save introduction school)).1.2 = Some 200.
Proof.
  pose proof (update_progress_current_lesson 4 30 77 enrollment_42
                (Lesson_save introduction school) eq_refl) as H.
  destruct (current_lesson _) as [lid|] eqn:Hcur.
  - destruct H as (k & l & Hk & Hid & _). f_equal. rewrite <- Hid.
    unfold Lesson_save in Hk. cbn in Hk.
    apply lookup_insert_Some in Hk as [[_ <-]|[_ Hk]]; [done|].
    by rewrite lookup_empty in Hk.
  - specialize (H 200 introduction eq_refl eq_refl). cbn in H. lia.
Defined.

(** X30: [total_pages_viewed] counts calls, not pages: every call that
    returns adds one, on the instance and in the stored row, also when
    the page is the one already being viewed. A call that raises never
    adds to the stored counter: either it has written nothing, or the
    row is as the first save wrote it, with the counter the instance
    came with. *)
Theorem total_pages_viewed_counts_calls (page_number time_spent now : Z)
    (self : CourseEnrollment) (db : DB) :
  let out := CourseEnrollment_update_progress page_number time_spent now self db in
  (out.2 = Ok () →
   total_pages_viewed out.1.2 = total_pages_viewed self + 1
   ∧ total_pages_viewed <$> enrollments out.1.1 !! e_id self
     = Some (total_pages_viewed self + 1))
  ∧ (out.2 ≠ Ok () →
     out.1.1 = db
     ∨ total_pages_viewed <$> enrollments out.1.1 !! e_id self
       = Some (total_pages_viewed self)).
Proof.
  intros out. subst out. update_progress_cases self db.
  all: invert_writes.
  all: split; [try done; intros _ | try done; intros _].
  all: try (by left).
  all: try (split; [done|]).
  all: try right.
  all: unfold update_course_enrollment_count; cbn.
  all: case_match; cbn; by rewrite ?lookup_alter_eq, lookup_insert_eq.
Qed.
